(** * ServicePulse: the TTL caches, the validation engine, the health
    state cell and the asynchronous task handler

  A shallow embedding of
    - [src/mastra/tools/api-test-tools.ts]   (module [ApiTest]),
    - [src/mastra/tools/health-check-tool.ts] (module [Health]),
    - the asynchronous [telexA2AHandler] route (module [A2A]),
  followed by the properties established about them.

  Conventions.  JavaScript numbers that the tools handle (epoch
  milliseconds, durations, HTTP status codes, counters) are integers in
  every run of interest and are carried as [Z].  [Infinity] is carried as
  [None] in an [option Z].  An ISO date string [new Date(t).toISOString()]
  is carried as the epoch value [t] it renders, and the text
  [`${min}-${max}`] as the two bounds it renders.  Strings are sequences
  of 8-bit characters.  Everything the platform decides (the clock, the
  outcome of [fetch], the outcome of reading a body, fresh UUIDs) is an
  explicit input gathered in a [World] record; every call of [fetch] is
  appended to a log kept in the state, so that "no network call" is a
  statement about that log. *)

From Stdlib Require Import ZArith String Ascii List Bool Lia DecimalString.
From stdpp Require Import base option gmap strings list.

Local Open Scope string_scope.
Local Open Scope list_scope.
Local Open Scope Z_scope.

(** ** JavaScript primitives used by the tools *)
Module JS.

(** [hay.includes(needle)]. *)
Fixpoint includes (hay needle : string) : bool :=
  String.prefix needle hay ||
  match hay with
  | EmptyString => false
  | String _ rest => includes rest needle
  end.

Definition lowerChar (c : ascii) : ascii :=
  let n := N_of_ascii c in
  if ((65 <=? n) && (n <=? 90))%N then ascii_of_N (n + 32) else c.

(** [s.toLowerCase()] on 8-bit characters. *)
Fixpoint toLowerCase (s : string) : string :=
  match s with
  | EmptyString => EmptyString
  | String c rest => String (lowerChar c) (toLowerCase rest)
  end.

(** The decimal digits of an integer. *)
Definition numToString (z : Z) : string :=
  NilZero.string_of_int (Z.to_int z).

Definition hexDigit (n : N) : ascii :=
  if (n <? 10)%N then ascii_of_N (48 + n) else ascii_of_N (87 + n).

Definition dquote : ascii := ascii_of_N 34.
Definition backslash : ascii := ascii_of_N 92.

(** One character of [QuoteJSONString]. *)
Definition quoteChar (c : ascii) : string :=
  let n := N_of_ascii c in
  if (n =? 8)%N then "\b"
  else if (n =? 9)%N then "\t"
  else if (n =? 10)%N then "\n"
  else if (n =? 12)%N then "\f"
  else if (n =? 13)%N then "\r"
  else if (n =? 34)%N then String backslash (String dquote EmptyString)
  else if (n =? 92)%N then "\\"
  else if (n <? 32)%N then
    "\u00" +:+ String (hexDigit (n / 16)) (String (hexDigit (n mod 16)) EmptyString)
  else String c EmptyString.

Fixpoint quoteBody (s : string) : string :=
  match s with
  | EmptyString => EmptyString
  | String c rest => quoteChar c +:+ quoteBody rest
  end.

(** [JSON.stringify(s)] for a string [s]. *)
Definition stringifyString (s : string) : string :=
  String dquote (quoteBody s +:+ String dquote EmptyString).

(** Truthiness of a string: the empty string is falsy. *)
Definition truthyStr (s : string) : bool :=
  match s with EmptyString => false | _ => true end.

(** Truthiness of an optional string ([undefined] is falsy). *)
Definition truthyOpt (o : option string) : bool :=
  match o with Some s => truthyStr s | None => false end.

(** [Math.round(a / 1000)] for an integer [a]: round half up. *)
Definition roundSeconds (a : Z) : Z := (a + 500) / 1000.

(** [200 <= status <= 299], the [ok] flag of a fetch response. *)
Definition statusOk (status : Z) : bool :=
  ((200 <=? status) && (status <=? 299))%Z.

End JS.

(** ** The health-check tool *)
Module Health.

Inductive Status := UP | DOWN.

Definition Status_eqb (a b : Status) : bool :=
  match a, b with
  | UP, UP | DOWN, DOWN => true
  | _, _ => false
  end.

(** The module-level [healthCache] object: one cell, three nullable
    fields, no key and no TTL. *)
Record HealthCache := {
  status : option Status;
  timestamp : option Z;
  lastError : option string
}.

Definition emptyCache : HealthCache :=
  {| status := None; timestamp := None; lastError := None |}.

(** [inputSchema]. *)
Record Context := { targetUrl : string; cacheTTL : Z }.

(** What [await fetch(targetUrl, ...)] does: resolve with a response of
    some HTTP status, or throw (network failure, timeout). *)
Inductive FetchOutcome :=
| FetchOk (code : Z)
| FetchThrows (message : string).

Record World := { now : Z; fetch : string -> FetchOutcome }.

(** [outputSchema]; the optional fields are absent as [None]. *)
Record Result := {
  r_status : Status;
  cached : bool;
  r_timestamp : Z;
  cacheAge : option Z;
  httpStatus : option Z;
  statusChanged : option bool;
  error : option string
}.

(** The cell together with the log of URLs fetched so far. *)
Record State := { healthCache : HealthCache; outbound : list string }.

Definition initial : State := {| healthCache := emptyCache; outbound := [] |}.

(** [healthCache.timestamp ? now - healthCache.timestamp : Infinity];
    a timestamp that is [null] or [0] is falsy. *)
Definition ageOf (hc : HealthCache) (now : Z) : option Z :=
  match timestamp hc with
  | Some t => if t =? 0 then None else Some (now - t)
  | None => None
  end.

(** [cacheAge < cacheTTL]; [Infinity] is below no number. *)
Definition isFresh (age : option Z) (ttl : Z) : bool :=
  match age with
  | Some a => a <? ttl
  | None => false
  end.

(** [healthCache.status !== null && healthCache.status !== newStatus]. *)
Definition changedOnResponse (prev : option Status) (newStatus : Status) : bool :=
  match prev with
  | Some s => negb (Status_eqb s newStatus)
  | None => false
  end.

(** [healthCache.status !== 'DOWN'], the test of the [catch] branch. *)
Definition changedOnError (prev : option Status) : bool :=
  match prev with
  | Some DOWN => false
  | _ => true
  end.

(** The cache-miss path: one request, then the cell is overwritten from
    the response or from the exception. *)
Definition refresh (w : World) (st : State) (ctx : Context) : Result * State :=
  let hc := healthCache st in
  let log := outbound st ++ [targetUrl ctx] in
  match fetch w (targetUrl ctx) with
  | FetchOk code =>
      let isUp := JS.statusOk code in
      let newStatus := if isUp then UP else DOWN in
      let changed := changedOnResponse (status hc) newStatus in
      ({| r_status := newStatus; cached := false; r_timestamp := now w;
          cacheAge := None; httpStatus := Some code;
          statusChanged := Some changed; error := None |},
       {| healthCache := {| status := Some newStatus;
                            timestamp := Some (now w);
                            lastError := None |};
          outbound := log |})
  | FetchThrows msg =>
      let changed := changedOnError (status hc) in
      ({| r_status := DOWN; cached := false; r_timestamp := now w;
          cacheAge := None; httpStatus := None;
          statusChanged := Some changed; error := Some msg |},
       {| healthCache := {| status := Some DOWN;
                            timestamp := Some (now w);
                            lastError := Some msg |};
          outbound := log |})
  end.

(** [healthCheckTool.execute]. *)
Definition execute (w : World) (st : State) (ctx : Context) : Result * State :=
  let hc := healthCache st in
  let age := ageOf hc (now w) in
  match isFresh age (cacheTTL ctx), status hc, age, timestamp hc with
  | true, Some s, Some a, Some t =>
      ({| r_status := s; cached := true; r_timestamp := t;
          cacheAge := Some (JS.roundSeconds a); httpStatus := None;
          statusChanged := None; error := None |}, st)
  | _, _, _, _ => refresh w st ctx
  end.

End Health.

(** ** The API test tool *)
Module ApiTest.

Inductive Method := GET | POST | PUT | DELETE | PATCH.

Definition methodName (m : Method) : string :=
  match m with
  | GET => "GET" | POST => "POST" | PUT => "PUT"
  | DELETE => "DELETE" | PATCH => "PATCH"
  end.

Inductive TestStatus := PASS | FAIL.

Inductive ResponseType := json | text | html | xml.

Definition ResponseType_eqb (a b : ResponseType) : bool :=
  match a, b with
  | json, json | text, text | html, html | xml, xml => true
  | _, _ => false
  end.

(** [expectations] of the input schema.  Every rule is optional; the
    [bodySchema] entry of the schema is read nowhere by [execute] and is
    left out. *)
Record Expectations := {
  statusCode : option Z;
  statusCodeRange : option (Z * Z);
  maxResponseTime : option Z;
  bodyContains : option (list string);
  bodyNotContains : option (list string);
  requiredHeaders : option (list string);
  responseType : option ResponseType
}.

(** [context], after the schema defaults were applied. *)
Record Context := {
  url : string;
  method : Method;
  headers : option (gmap string string);
  body : option string;
  expectations : option Expectations;
  cacheTTL : Z;
  timeout : Z
}.

(** The [RequestInit] handed to [fetch]. *)
Record FetchOptions := {
  fo_method : Method;
  fo_headers : gmap string string;
  fo_timeout : Z;
  fo_body : option string
}.

(** A fetch response.  [entries] is the header list as the [Headers]
    object iterates it.  [readJson] is what
    [JSON.stringify(await response.json(), null, 2)] yields and [readText]
    what [await response.text()] yields; [None] when the read throws. *)
Record Response := {
  status : Z;
  statusText : string;
  entries : list (string * string);
  readJson : option string;
  readText : option string
}.

(** The message of an exception that the platform raises (a TypeError, a
    RangeError, a DOMException).  Such a message is never empty: it is
    carried as its first character and the rest. *)
Record Message := { msgHead : ascii; msgTail : string }.

Definition msgText (m : Message) : string := String (msgHead m) (msgTail m).

Inductive FetchOutcome :=
| FetchOk (r : Response)
| FetchThrows (message : Message).

(** The platform, for one call of [execute]: three readings of
    [Date.now()], what a call of [fetch] yields, the message of the
    [TypeError] that [Headers.has] raises on a string that is not a header
    name, and the message of the [RangeError] that [AbortSignal.timeout]
    raises on a delay it rejects. *)
Record World := {
  now : Z;
  startTime : Z;
  endTime : Z;
  network : string -> FetchOptions -> FetchOutcome;
  headerNameError : string -> string;
  timeoutError : Z -> Message
}.

(** [AbortSignal.timeout(ms)] takes an integer delay from 0 to 2^32 - 1
    and throws on any other. *)
Definition timeoutAccepted (ms : Z) : bool :=
  (0 <=? ms) && (ms <=? 4294967295).

(** Lines 118 to 131: the options are built, which creates their timeout
    signal, and [fetch] is called with them.  When the signal cannot be
    created, the exception is raised inside the [try] and [fetch] is not
    called. *)
Definition fetch (w : World) (u : string) (o : FetchOptions) : FetchOutcome :=
  if timeoutAccepted (fo_timeout o)
  then network w u o
  else FetchThrows (timeoutError w (fo_timeout o)).

(** *** Response headers *)

Definition sameName (a b : string) : bool :=
  String.eqb (JS.toLowerCase a) (JS.toLowerCase b).

(** [response.headers.get(name)]. *)
Fixpoint headersGet (hs : list (string * string)) (name : string) : option string :=
  match hs with
  | [] => None
  | (k, v) :: rest => if sameName k name then Some v else headersGet rest name
  end.

Definition tchar (c : ascii) : bool :=
  let n := N_of_ascii c in
  (((48 <=? n) && (n <=? 57)) || ((65 <=? n) && (n <=? 90)) ||
   ((97 <=? n) && (n <=? 122)) ||
   existsb (N.eqb n) [33; 35; 36; 37; 38; 39; 42; 43; 45; 46; 94; 95; 96; 124; 126])%N.

Fixpoint allTchar (s : string) : bool :=
  match s with
  | EmptyString => true
  | String c rest => tchar c && allTchar rest
  end.

(** A header name is a non-empty token. *)
Definition isHeaderName (s : string) : bool := JS.truthyStr s && allTchar s.

(** [response.headers.has(name)]: [None] when it throws a [TypeError]
    because [name] is not a header name. *)
Definition headersHas (hs : list (string * string)) (name : string) : option bool :=
  if isHeaderName name
  then Some (existsb (fun kv => sameName (fst kv) name) hs)
  else None.

(** The [responseHeaders] record filled by [response.headers.forEach]. *)
Definition collectHeaders (hs : list (string * string)) : gmap string string :=
  fold_left (fun acc kv => <[fst kv := snd kv]> acc) hs ∅.

(** *** Validation outcomes *)

(** The [expected] field of the [statusCode] slot: the code of the exact
    rule, or the text [`${min}-${max}`] of the range rule, carried as the
    two bounds. *)
Inductive Expected :=
| ExpectedCode (c : Z)
| ExpectedRange (lo hi : Z).

Record StatusCodeCheck := { sc_expected : Expected; sc_actual : Z; sc_passed : bool }.
Record ResponseTimeCheck := { rt_maxAllowed : Z; rt_actual : Z; rt_passed : bool }.
Record ResponseTypeCheck :=
  { ty_expected : ResponseType; ty_actual : ResponseType; ty_passed : bool }.

(** The [validations] object; a slot never assigned is [None]. *)
Record Validations := {
  v_statusCode : option StatusCodeCheck;
  v_responseTime : option ResponseTimeCheck;
  v_bodyContains : option (list (string * bool));
  v_bodyNotContains : option (list (string * bool));
  v_headers : option (list (string * bool));
  v_responseType : option ResponseTypeCheck
}.

Definition noValidations : Validations :=
  {| v_statusCode := None; v_responseTime := None; v_bodyContains := None;
     v_bodyNotContains := None; v_headers := None; v_responseType := None |}.

(** The three mutable locals of the validation block. *)
Record Tally := { t_validations : Validations; t_total : Z; t_passed : Z }.

Definition bump (passed : bool) (n : Z) : Z := if passed then n + 1 else n.

(** [if (expectations.statusCode !== undefined) { ... }]. *)
Definition checkStatusCode (r : Response) (e : Expectations) (t : Tally) : Tally :=
  match statusCode e with
  | Some c =>
      let passed := status r =? c in
      let v := t_validations t in
      {| t_validations :=
           {| v_statusCode := Some {| sc_expected := ExpectedCode c;
                                      sc_actual := status r;
                                      sc_passed := passed |};
              v_responseTime := v_responseTime v;
              v_bodyContains := v_bodyContains v;
              v_bodyNotContains := v_bodyNotContains v;
              v_headers := v_headers v;
              v_responseType := v_responseType v |};
         t_total := t_total t + 1;
         t_passed := bump passed (t_passed t) |}
  | None => t
  end.

(** [if (expectations.statusCodeRange) { ... }]: writes the same
    [statusCode] slot. *)
Definition checkStatusCodeRange (r : Response) (e : Expectations) (t : Tally) : Tally :=
  match statusCodeRange e with
  | Some (lo, hi) =>
      let passed := (lo <=? status r) && (status r <=? hi) in
      let v := t_validations t in
      {| t_validations :=
           {| v_statusCode :=
                Some {| sc_expected := ExpectedRange lo hi;
                        sc_actual := status r;
                        sc_passed := passed |};
              v_responseTime := v_responseTime v;
              v_bodyContains := v_bodyContains v;
              v_bodyNotContains := v_bodyNotContains v;
              v_headers := v_headers v;
              v_responseType := v_responseType v |};
         t_total := t_total t + 1;
         t_passed := bump passed (t_passed t) |}
  | None => t
  end.

(** [if (expectations.maxResponseTime !== undefined) { ... }]. *)
Definition checkResponseTime (responseTime : Z) (e : Expectations) (t : Tally) : Tally :=
  match maxResponseTime e with
  | Some m =>
      let passed := responseTime <=? m in
      let v := t_validations t in
      {| t_validations :=
           {| v_statusCode := v_statusCode v;
              v_responseTime := Some {| rt_maxAllowed := m;
                                        rt_actual := responseTime;
                                        rt_passed := passed |};
              v_bodyContains := v_bodyContains v;
              v_bodyNotContains := v_bodyNotContains v;
              v_headers := v_headers v;
              v_responseType := v_responseType v |};
         t_total := t_total t + 1;
         t_passed := bump passed (t_passed t) |}
  | None => t
  end.

(** [list.map(x => { totalChecks++; const ok = test(x);
    if (ok) passedChecks++; return { x, ok }; })]: the outcomes and the
    two counters after the traversal. *)
Fixpoint mapChecks (test : string -> bool) (l : list string) (total passed : Z)
  : list (string * bool) * (Z * Z) :=
  match l with
  | [] => ([], (total, passed))
  | x :: rest =>
      let ok := test x in
      let r := mapChecks test rest (total + 1) (bump ok passed) in
      ((x, ok) :: fst r, snd r)
  end.

(** [if (expectations.bodyContains && responseBody) { ... }]. *)
Definition checkBodyContains (responseBody : string) (e : Expectations) (t : Tally) : Tally :=
  match bodyContains e with
  | Some l =>
      if JS.truthyStr responseBody then
        let r := mapChecks (JS.includes responseBody) l (t_total t) (t_passed t) in
        let v := t_validations t in
        {| t_validations :=
             {| v_statusCode := v_statusCode v;
                v_responseTime := v_responseTime v;
                v_bodyContains := Some (fst r);
                v_bodyNotContains := v_bodyNotContains v;
                v_headers := v_headers v;
                v_responseType := v_responseType v |};
           t_total := fst (snd r);
           t_passed := snd (snd r) |}
      else t
  | None => t
  end.

(** [if (expectations.bodyNotContains && responseBody) { ... }]. *)
Definition checkBodyNotContains (responseBody : string) (e : Expectations) (t : Tally) : Tally :=
  match bodyNotContains e with
  | Some l =>
      if JS.truthyStr responseBody then
        let r := mapChecks (fun x => negb (JS.includes responseBody x)) l
                   (t_total t) (t_passed t) in
        let v := t_validations t in
        {| t_validations :=
             {| v_statusCode := v_statusCode v;
                v_responseTime := v_responseTime v;
                v_bodyContains := v_bodyContains v;
                v_bodyNotContains := Some (fst r);
                v_headers := v_headers v;
                v_responseType := v_responseType v |};
           t_total := fst (snd r);
           t_passed := snd (snd r) |}
      else t
  | None => t
  end.

(** The [requiredHeaders] traversal; [inl name] when [Headers.has] throws
    on [name]. *)
Fixpoint mapHeaderChecks (hs : list (string * string)) (l : list string) (total passed : Z)
  : string + list (string * bool) * (Z * Z) :=
  match l with
  | [] => inr ([], (total, passed))
  | h :: rest =>
      match headersHas hs (JS.toLowerCase h) with
      | None => inl (JS.toLowerCase h)
      | Some present =>
          match mapHeaderChecks hs rest (total + 1) (bump present passed) with
          | inl bad => inl bad
          | inr r => inr ((h, present) :: fst r, snd r)
          end
      end
  end.

(** [if (expectations.requiredHeaders) { ... }]. *)
Definition checkRequiredHeaders (r : Response) (e : Expectations) (t : Tally)
  : string + Tally :=
  match requiredHeaders e with
  | Some l =>
      match mapHeaderChecks (entries r) l (t_total t) (t_passed t) with
      | inl bad => inl bad
      | inr res =>
          let v := t_validations t in
          inr {| t_validations :=
                   {| v_statusCode := v_statusCode v;
                      v_responseTime := v_responseTime v;
                      v_bodyContains := v_bodyContains v;
                      v_bodyNotContains := v_bodyNotContains v;
                      v_headers := Some (fst res);
                      v_responseType := v_responseType v |};
                 t_total := fst (snd res);
                 t_passed := snd (snd res) |}
      end
  | None => inr t
  end.

(** The media type inferred from [content-type], in priority order. *)
Definition actualType (contentType : string) : ResponseType :=
  if JS.includes contentType "json" then json
  else if JS.includes contentType "html" then html
  else if JS.includes contentType "xml" then xml
  else text.

(** [if (expectations.responseType) { ... }]. *)
Definition checkResponseType (contentType : string) (e : Expectations) (t : Tally) : Tally :=
  match responseType e with
  | Some want =>
      let actual := actualType contentType in
      let passed := ResponseType_eqb actual want in
      let v := t_validations t in
      {| t_validations :=
           {| v_statusCode := v_statusCode v;
              v_responseTime := v_responseTime v;
              v_bodyContains := v_bodyContains v;
              v_bodyNotContains := v_bodyNotContains v;
              v_headers := v_headers v;
              v_responseType := Some {| ty_expected := want;
                                        ty_actual := actual;
                                        ty_passed := passed |} |};
         t_total := t_total t + 1;
         t_passed := bump passed (t_passed t) |}
  | None => t
  end.

Definition startTally : Tally :=
  {| t_validations := noValidations; t_total := 0; t_passed := 0 |}.

(** [if (expectations) { ... }], the seven blocks in source order. *)
Definition runChecks (r : Response) (contentType responseBody : string)
    (responseTime : Z) (e : option Expectations) : string + Tally :=
  match e with
  | Some e =>
      let t1 := checkStatusCode r e startTally in
      let t2 := checkStatusCodeRange r e t1 in
      let t3 := checkResponseTime responseTime e t2 in
      let t4 := checkBodyContains responseBody e t3 in
      let t5 := checkBodyNotContains responseBody e t4 in
      match checkRequiredHeaders r e t5 with
      | inl bad => inl bad
      | inr t6 => inr (checkResponseType contentType e t6)
      end
  | None => inr startTally
  end.

(** [if (totalChecks === 0) { totalChecks = 1;
    passedChecks = response.ok ? 1 : 0; }]. *)
Definition implicitCheck (r : Response) (t : Tally) : Tally :=
  if t_total t =? 0
  then {| t_validations := t_validations t;
          t_total := 1;
          t_passed := if JS.statusOk (status r) then 1 else 0 |}
  else t.

(** *** Results and the cache *)

Record RequestSnapshot := {
  rq_method : Method;
  rq_url : string;
  rq_headers : option (gmap string string)
}.

Record ResponseSnapshot := {
  rs_statusCode : Z;
  rs_statusText : string;
  rs_headers : gmap string string;
  rs_body : string;
  rs_responseTime : Z
}.

(** [outputSchema]; [response], [validations] and [error] are absent as
    [None]. *)
Record TestResult := {
  testStatus : TestStatus;
  cached : bool;
  timestamp : Z;
  request : RequestSnapshot;
  response : option ResponseSnapshot;
  validations : option Validations;
  totalChecks : Z;
  passedChecks : Z;
  failedChecks : Z;
  error : option string
}.

(** A value of the [testCache] map: the write time and the result, and
    no time-to-live. *)
Record CacheEntry := {
  ce_status : TestStatus;
  ce_timestamp : Z;
  ce_responseTime : Z;
  ce_result : TestResult
}.

(** The module-level [testCache] and the log of the calls to [fetch]. *)
Record State := {
  testCache : gmap string CacheEntry;
  outbound : list (string * FetchOptions)
}.

Definition initial : State := {| testCache := ∅; outbound := [] |}.

(** [`${method}:${url}:${JSON.stringify(body || {})}`]. *)
Definition cacheKey (ctx : Context) : string :=
  methodName (method ctx) +:+ ":" +:+ url ctx +:+ ":" +:+
  match body ctx with
  | Some b => if JS.truthyStr b then JS.stringifyString b else "{}"
  | None => "{}"
  end.

(** [{ ...cached.result, cached: true }]. *)
Definition markCached (r : TestResult) : TestResult :=
  {| testStatus := testStatus r; cached := true; timestamp := timestamp r;
     request := request r; response := response r;
     validations := validations r; totalChecks := totalChecks r;
     passedChecks := passedChecks r; failedChecks := failedChecks r;
     error := error r |}.

(** The options object of the outbound request; a body is attached only
    when it is truthy and the method is neither GET nor DELETE. *)
Definition fetchOptions (ctx : Context) : FetchOptions :=
  {| fo_method := method ctx;
     fo_headers :=
       default ∅ (headers ctx) ∪ {[ "User-Agent" := "ServicePulse-APITest/1.0" ]};
     fo_timeout := timeout ctx;
     fo_body :=
       match body ctx, method ctx with
       | _, GET | _, DELETE => None
       | Some b, _ => if JS.truthyStr b then Some b else None
       | None, _ => None
       end |}.

Definition unparsable : string := "[Unable to parse response body]".

(** What reading the body yields: the re-serialised JSON document when
    the content type says JSON, else the text; [None] when the read
    throws. *)
Definition bodyRead (r : Response) (contentType : string) : option string :=
  if JS.includes contentType "application/json" then readJson r else readText r.

(** The inner [try]/[catch] that captures the response body. *)
Definition readBody (r : Response) (contentType : string) : string :=
  match bodyRead r contentType with
  | Some s => s
  | None => unparsable
  end.

(** [response.headers.get('content-type') || '']. *)
Definition contentTypeOf (r : Response) : string :=
  default "" (headersGet (entries r) "content-type").

(** [responseBody] once the inner [try]/[catch] is over. *)
Definition responseBodyOf (r : Response) : string :=
  readBody r (contentTypeOf r).

Definition snapshot (ctx : Context) : RequestSnapshot :=
  {| rq_method := method ctx; rq_url := url ctx; rq_headers := headers ctx |}.

(** The result assembled at the end of the [try] block. *)
Definition successResult (w : World) (ctx : Context) (r : Response)
    (responseBody : string) (responseTime : Z) (t : Tally) : TestResult :=
  {| testStatus := if t_passed t =? t_total t then PASS else FAIL;
     cached := false;
     timestamp := now w;
     request := snapshot ctx;
     response := Some {| rs_statusCode := status r;
                         rs_statusText := statusText r;
                         rs_headers := collectHeaders (entries r);
                         rs_body := responseBody;
                         rs_responseTime := responseTime |};
     validations := Some (t_validations t);
     totalChecks := t_total t;
     passedChecks := t_passed t;
     failedChecks := t_total t - t_passed t;
     error := None |}.

(** The result assembled in the [catch] block. *)
Definition failureResult (w : World) (ctx : Context) (message : string) : TestResult :=
  {| testStatus := FAIL;
     cached := false;
     timestamp := now w;
     request := snapshot ctx;
     response := None;
     validations := None;
     totalChecks := 1;
     passedChecks := 0;
     failedChecks := 1;
     error := Some message |}.

(** The body of the outer [try]: the response is fetched, read and
    validated; [inl message] when something throws. *)
Definition attempt (w : World) (ctx : Context) : string + TestResult * Z :=
  match fetch w (url ctx) (fetchOptions ctx) with
  | FetchThrows message => inl (msgText message)
  | FetchOk r =>
      let responseTime := endTime w - startTime w in
      let contentType := contentTypeOf r in
      let responseBody := responseBodyOf r in
      match runChecks r contentType responseBody responseTime (expectations ctx) with
      | inl bad => inl (headerNameError w bad)
      | inr t =>
          inr (successResult w ctx r responseBody responseTime (implicitCheck r t),
               responseTime)
      end
  end.

(** The calls of [fetch] that the miss path makes: one, unless the
    timeout signal could not be created. *)
Definition sent (ctx : Context) : list (string * FetchOptions) :=
  if timeoutAccepted (timeout ctx) then [(url ctx, fetchOptions ctx)] else [].

(** The cache-miss path: the request, then [testCache.set] with the
    result, whether it came from the [try] or the [catch]. *)
Definition perform (w : World) (st : State) (ctx : Context) : TestResult * State :=
  let log := outbound st ++ sent ctx in
  match attempt w ctx with
  | inr (result, responseTime) =>
      (result,
       {| testCache :=
            <[cacheKey ctx := {| ce_status := testStatus result;
                                 ce_timestamp := now w;
                                 ce_responseTime := responseTime;
                                 ce_result := result |}]> (testCache st);
          outbound := log |})
  | inl message =>
      let result := failureResult w ctx message in
      (result,
       {| testCache :=
            <[cacheKey ctx := {| ce_status := FAIL;
                                 ce_timestamp := now w;
                                 ce_responseTime := 0;
                                 ce_result := result |}]> (testCache st);
          outbound := log |})
  end.

(** [cached ? now - cached.timestamp : Infinity] compared with
    [cacheTTL]. *)
Definition isCacheFresh (w : World) (ctx : Context) (hit : option CacheEntry) : bool :=
  match hit with
  | Some c => now w - ce_timestamp c <? cacheTTL ctx
  | None => false
  end.

(** [apiTestTool.execute]. *)
Definition execute (w : World) (st : State) (ctx : Context) : TestResult * State :=
  let hit := testCache st !! cacheKey ctx in
  match isCacheFresh w ctx hit, hit with
  | true, Some c => (markCached (ce_result c), st)
  | _, _ => perform w st ctx
  end.

(** Sequential calls, each with the world it runs in; the results in
    call order and the final state. *)
Fixpoint executeAll (st : State) (calls : list (World * Context))
  : list TestResult * State :=
  match calls with
  | [] => ([], st)
  | (w, ctx) :: rest =>
      let r := execute w st ctx in
      let rs := executeAll (snd r) rest in
      (fst r :: fst rs, snd rs)
  end.

End ApiTest.

(** ** The asynchronous task handler *)
Module A2A.

(** A parsed JSON document.  An object keeps its members in document
    order; numbers are carried as integers, of which the handler observes
    only whether they are zero. *)
#[local] Set Warnings "-register-all".

Inductive JValue :=
| JNull
| JBool (b : bool)
| JNum (n : Z)
| JStr (s : string)
| JArr (items : list JValue)
| JObj (members : list (string * JValue)).

(** A JavaScript value read out of the document: [None] is [undefined]. *)
Definition truthy (v : option JValue) : bool :=
  match v with
  | None | Some JNull => false
  | Some (JBool b) => b
  | Some (JNum n) => negb (n =? 0)
  | Some (JStr s) => JS.truthyStr s
  | Some (JArr _) | Some (JObj _) => true
  end.

(** The member [k] of a parsed object; of duplicate keys the last wins. *)
Fixpoint lookupLast (k : string) (ms : list (string * JValue)) : option JValue :=
  match ms with
  | [] => None
  | (k', v) :: rest =>
      match lookupLast k rest with
      | Some later => Some later
      | None => if String.eqb k k' then Some v else None
      end
  end.

(** Whether converting the value to a string, as a template literal
    does, returns: a parsed object converts through the inherited
    [toString] unless it has an own member of that name, which is never
    callable and makes the conversion throw a [TypeError]; an array joins
    the conversions of its items. *)
Fixpoint toStringOk (v : JValue) : bool :=
  match v with
  | JNull | JBool _ | JNum _ | JStr _ => true
  | JArr items => forallb toStringOk items
  | JObj ms =>
      match lookupLast "toString" ms with
      | Some _ => false
      | None => true
      end
  end.

(** [`${v}`] returns, for a value that may be [undefined]. *)
Definition interpolates (v : option JValue) : bool :=
  match v with
  | Some x => toStringOk x
  | None => true
  end.

(** [v.k] for a value that is neither [null] nor [undefined] and one of
    the names the handler reads; only objects carry such a member. *)
Definition member (v : JValue) (k : string) : option JValue :=
  match v with
  | JObj ms => lookupLast k ms
  | _ => None
  end.

(** [v[0]] for a value that is neither [null] nor [undefined]. *)
Definition first (v : JValue) : option JValue :=
  match v with
  | JArr (x :: _) => Some x
  | JStr (String c _) => Some (JStr (String c EmptyString))
  | JObj ms => lookupLast "0" ms
  | _ => None
  end.

(** Optional chaining [v?.step]. *)
Definition chain (v : option JValue) (step : JValue -> option JValue) : option JValue :=
  match v with
  | None | Some JNull => None
  | Some x => step x
  end.

(** [params || {}]. *)
Definition paramsOf (body : JValue) : JValue :=
  match member body "params" with
  | Some p => if truthy (Some p) then p else JObj []
  | None => JObj []
  end.

(** [configuration?.pushNotificationConfig?.url]. *)
Definition webhookUrlOf (body : JValue) : option JValue :=
  chain (chain (member (paramsOf body) "configuration")
               (fun c => member c "pushNotificationConfig"))
        (fun p => member p "url").

(** [configuration?.pushNotificationConfig?.token]. *)
Definition webhookTokenOf (body : JValue) : option JValue :=
  chain (chain (member (paramsOf body) "configuration")
               (fun c => member c "pushNotificationConfig"))
        (fun p => member p "token").

(** [message?.parts?.[0]?.text]. *)
Definition mainPromptOf (body : JValue) : option JValue :=
  chain (chain (chain (member (paramsOf body) "message")
                      (fun m => member m "parts"))
               first)
        (fun part => member part "text").

(** What the handler keeps of a valid submission. *)
Record Task := {
  requestId : option JValue;
  contextId : option JValue;
  taskId : option JValue;
  webhookUrl : JValue;
  webhookToken : JValue;
  mainPrompt : JValue
}.

(** What [agent.generate] resolves with: [text] and the tool results,
    each as the text the handler renders for it. *)
Record AgentReply := { text : option string; toolResults : list string }.

Inductive GenerateOutcome :=
| Generated (r : AgentReply)
| GenerateThrows (message : string).

(** The platform: the agent registry, the successive values of
    [randomUUID()], the date string of the completion, and the message of
    the [TypeError] raised by destructuring a [null] body.  A call
    [mastra.getAgent(id)] throws with the message [lookupError id] when
    there is one, and otherwise returns [getAgent id], [None] being
    [undefined]; [primitiveError] is the message of the [TypeError] of a
    string conversion that throws. *)
Record Env := {
  getAgent : string -> option (JValue -> GenerateOutcome);
  uuid : nat -> string;
  completedAt : string;
  nullBodyError : string;
  lookupError : string -> option string;
  primitiveError : string
}.

(** What the handler does besides answering. *)
Inductive Event :=
| Started (agentId : string)
| Generate (agentId : string) (prompt : JValue)
| Push (url token payload : JValue).

Inductive Body :=
| SuccessBody (status_code : Z) (message : string) (task_id : JValue)
| ErrorBody (status_code : Z) (message : string) (details : string).

(** [c.json(body, httpStatus)]. *)
Record Reply := { httpStatus : Z; payload : Body }.

Definition missingConfig : string := "Missing pushNotificationConfig in request".
Definition missingPrompt : string :=
  "Could not find main prompt in message.parts[0].text".

(** The first part of the outer [try]: [inl message] when it throws. *)
Definition validate (env : Env) (req : string + JValue) : string + Task :=
  match req with
  | inl message => inl message
  | inr JNull => inl (nullBodyError env)
  | inr body =>
      match webhookUrlOf body, webhookTokenOf body with
      | Some u, Some t =>
          if truthy (Some u) && truthy (Some t) then
            match mainPromptOf body with
            | Some p =>
                if truthy (Some p) then
                  inr {| requestId := member body "id";
                         contextId := member (paramsOf body) "contextId";
                         taskId := member (paramsOf body) "taskId";
                         webhookUrl := u;
                         webhookToken := t;
                         mainPrompt := p |}
                else inl missingPrompt
            | None => inl missingPrompt
            end
          else inl missingConfig
      | _, _ => inl missingConfig
      end
  end.

(** [v || randomUUID()], drawing from the supply at position [n]. *)
Definition orUuid (env : Env) (v : option JValue) (n : nat) : JValue * nat :=
  match v with
  | Some x => if truthy (Some x) then (x, n) else (JStr (uuid env n), S n)
  | None => (JStr (uuid env n), S n)
  end.

Definition textPart (s : string) : JValue :=
  JObj [("kind", JStr "text"); ("text", JStr s)].

Definition optMember (k : string) (v : option JValue) : list (string * JValue) :=
  match v with Some x => [(k, x)] | None => [] end.

(** [resultPayload], with UUIDs drawn from position [n] on. *)
Definition resultPayload (env : Env) (agentId : string) (t : Task)
    (r : AgentReply) (n : nat) : JValue :=
  let agentText := match text r with
                   | Some s => if JS.truthyStr s then s else ""
                   | None => ""
                   end in
  let answer :=
    JObj [("artifactId", JStr (uuid env n));
          ("name", JStr (agentId +:+ "Response"));
          ("parts", JArr [textPart agentText])] in
  let tools :=
    match toolResults r with
    | [] => ([], S n)
    | results =>
        ([JObj [("artifactId", JStr (uuid env (S n)));
                ("name", JStr "ToolResults");
                ("parts", JArr (map textPart results))]], S (S n))
    end in
  let id := orUuid env (taskId t) (snd tools) in
  let ctx := orUuid env (contextId t) (snd id) in
  JObj (("jsonrpc", JStr "2.0") :: optMember "id" (requestId t) ++
        [("result",
          JObj [("id", fst id);
                ("contextId", fst ctx);
                ("status",
                 JObj [("state", JStr "completed");
                       ("timestamp", JStr (completedAt env));
                       ("message",
                        JObj [("messageId", JStr (uuid env (snd ctx)));
                              ("role", JStr "agent");
                              ("parts", JArr [textPart agentText]);
                              ("kind", JStr "message")])]);
                ("artifacts", JArr (answer :: fst tools));
                ("history", JArr []);
                ("kind", JStr "task")])]).

(** [runAgentAndPushResult]: every exception is swallowed by its own
    [catch], which pushes nothing.  The first log line interpolates
    [taskId], the agent lookup may throw, and the Authorization header
    interpolates the token: each can throw before the push. *)
Definition runAgentAndPushResult (env : Env) (agentId : string) (t : Task) (n : nat)
  : list Event :=
  Started agentId ::
  if interpolates (taskId t) then
    match lookupError env agentId with
    | Some _ => []
    | None =>
        match getAgent env agentId with
        | None => []
        | Some generate =>
            Generate agentId (mainPrompt t) ::
            match generate (mainPrompt t) with
            | GenerateThrows _ => []
            | Generated r =>
                if toStringOk (webhookToken t)
                then [Push (webhookUrl t) (webhookToken t)
                        (resultPayload env agentId t r n)]
                else []
            end
        end
    end
  else [].

Definition errorReply (details : string) : Reply :=
  {| httpStatus := 500;
     payload := ErrorBody 500 "Internal Server Error" details |}.

(** [telexA2AHandler]: the reply, and everything the call sets off.
    After the work is started, the log line before the 202 reply
    interpolates [taskId]; when that throws, the outer [catch] answers. *)
Definition telexA2AHandler (env : Env) (agentId : string) (req : string + JValue)
  : Reply * list Event :=
  match validate env req with
  | inl details => (errorReply details, [])
  | inr t =>
      if interpolates (taskId t) then
        let id := orUuid env (taskId t) 0 in
        ({| httpStatus := 202;
            payload := SuccessBody 202 "request received" (fst id) |},
         runAgentAndPushResult env agentId t (snd id))
      else
        (errorReply (primitiveError env), runAgentAndPushResult env agentId t 0)
  end.

(** A submission lacks its callback address, its callback token or its
    instruction. *)
Definition lacking (req : string + JValue) : Prop :=
  match req with
  | inl _ => True
  | inr body =>
      truthy (webhookUrlOf body) = false \/
      truthy (webhookTokenOf body) = false \/
      truthy (mainPromptOf body) = false
  end.

Definition isPush (e : Event) : bool :=
  match e with Push _ _ _ => true | _ => false end.

End A2A.

(** * Counting the declared rules

  The quantities the specification speaks of, written from its words:
  each declared scalar rule is one rule instance and each token of a
  list rule is one rule instance. *)
Module Rules.
Import ApiTest.

Definition declared {A} (o : option A) : Z :=
  match o with Some _ => 1 | None => 0 end.

Definition tokens (o : option (list string)) : Z :=
  match o with Some l => Z.of_nat (List.length l) | None => 0 end.

(** The body-contains and body-not-contains tokens. *)
Definition containsTokens (e : option Expectations) : Z :=
  match e with
  | Some e => tokens (bodyContains e) + tokens (bodyNotContains e)
  | None => 0
  end.

(** The rules other than the two contains lists. *)
Definition otherRules (e : option Expectations) : Z :=
  match e with
  | Some e =>
      declared (statusCode e) + declared (statusCodeRange e) +
      declared (maxResponseTime e) + tokens (requiredHeaders e) +
      declared (responseType e)
  | None => 0
  end.

(** N, the number of declared rule instances. *)
Definition declaredRules (e : option Expectations) : Z :=
  otherRules e + containsTokens e.

(** The rule instances left when the contains tokens are dropped for a
    falsy (empty) response body. *)
Definition countedRules (responseBody : string) (e : option Expectations) : Z :=
  if JS.truthyStr responseBody then declaredRules e else otherRules e.

(** Every required header, lower-cased, is a header name, so that
    [Headers.has] does not throw. *)
Definition namesValid (e : option Expectations) : bool :=
  match e with
  | Some e =>
      match requiredHeaders e with
      | Some l => forallb (fun h => isHeaderName (JS.toLowerCase h)) l
      | None => true
      end
  | None => true
  end.

(** The expectations with the two status rules taken out. *)
Definition withoutStatusRules (e : Expectations) : Expectations :=
  {| statusCode := None;
     statusCodeRange := None;
     maxResponseTime := maxResponseTime e;
     bodyContains := bodyContains e;
     bodyNotContains := bodyNotContains e;
     requiredHeaders := requiredHeaders e;
     responseType := responseType e |}.

(** A step of the validation block that adds [k] checks. *)
Definition grows (k : Z) (t t' : Tally) : Prop :=
  t_total t' = t_total t + k /\
  t_passed t <= t_passed t' <= t_passed t + k.

(** The [statusCode] slot after both status blocks: the range block runs
    second and writes last. *)
Definition statusSlot (actual : Z) (e : Expectations) : option StatusCodeCheck :=
  match statusCodeRange e, statusCode e with
  | Some (lo, hi), _ =>
      Some {| sc_expected := ExpectedRange lo hi;
              sc_actual := actual;
              sc_passed := (lo <=? actual) && (actual <=? hi) |}
  | None, Some c =>
      Some {| sc_expected := ExpectedCode c;
              sc_actual := actual;
              sc_passed := actual =? c |}
  | None, None => None
  end.

(** The outcomes of a contains list evaluated against [responseBody]. *)
Definition containsSlot (responseBody : string) (l : option (list string))
  : option (list (string * bool)) :=
  if JS.truthyStr responseBody
  then map (fun x => (x, JS.includes responseBody x)) <$> l
  else None.

Definition notContainsSlot (responseBody : string) (l : option (list string))
  : option (list (string * bool)) :=
  if JS.truthyStr responseBody
  then map (fun x => (x, negb (JS.includes responseBody x))) <$> l
  else None.

(** The three slots of [validations] that the claims speak of. *)
Definition keySlots (v : Validations)
  : option StatusCodeCheck * option (list (string * bool)) *
    option (list (string * bool)) :=
  (v_statusCode v, v_bodyContains v, v_bodyNotContains v).

(** The same call with another [cacheTTL]. *)
Definition withTTL (ctx : Context) (ttl : Z) : Context :=
  {| url := url ctx; method := method ctx; headers := headers ctx;
     body := body ctx; expectations := expectations ctx;
     cacheTTL := ttl; timeout := timeout ctx |}.

End Rules.

(** * Concrete runs

  Inputs on which the tools are evaluated further down. *)
Module Scenario.

(** ** Health checks *)

Definition urlA : string := "https://a.example.test/health".
Definition urlB : string := "https://b.example.test/health".

(** A network where [urlA] answers 200 and every other URL 500. *)
Definition onlyAUp (u : string) : Health.FetchOutcome :=
  if String.eqb u urlA then Health.FetchOk 200 else Health.FetchOk 500.

(** A network where nothing is reachable. *)
Definition unreachable (u : string) : Health.FetchOutcome :=
  Health.FetchThrows "fetch failed".

Definition healthAt (t : Z) (net : string -> Health.FetchOutcome) : Health.World :=
  {| Health.now := t; Health.fetch := net |}.

Definition checkOf (u : string) (ttl : Z) : Health.Context :=
  {| Health.targetUrl := u; Health.cacheTTL := ttl |}.

(** The state after [urlA] was checked at time 1000 from the empty cell. *)
Definition afterA : Health.State :=
  snd (Health.execute (healthAt 1000 onlyAUp) Health.initial (checkOf urlA 300000)).

(** ** API tests *)

Definition okUrl : string := "https://example.test/ok".

(** A 200 answer of plain text. *)
Definition okResponse : ApiTest.Response :=
  {| ApiTest.status := 200;
     ApiTest.statusText := "OK";
     ApiTest.entries := [("content-type", "text/plain")];
     ApiTest.readJson := None;
     ApiTest.readText := Some "ok" |}.

(** A 200 answer with an empty body. *)
Definition emptyResponse : ApiTest.Response :=
  {| ApiTest.status := 200;
     ApiTest.statusText := "OK";
     ApiTest.entries := [("content-type", "text/plain")];
     ApiTest.readJson := None;
     ApiTest.readText := Some "" |}.

(** A 200 answer that announces JSON and whose body does not parse. *)
Definition brokenJsonResponse : ApiTest.Response :=
  {| ApiTest.status := 200;
     ApiTest.statusText := "OK";
     ApiTest.entries := [("content-type", "application/json")];
     ApiTest.readJson := None;
     ApiTest.readText := Some "{oops" |}.

Definition answering (r : ApiTest.Response)
  : string -> ApiTest.FetchOptions -> ApiTest.FetchOutcome :=
  fun _ _ => ApiTest.FetchOk r.

(** The message ["fetch failed"]. *)
Definition fetchFailed : ApiTest.Message :=
  {| ApiTest.msgHead := "f"; ApiTest.msgTail := "etch failed" |}.

Definition refusing : string -> ApiTest.FetchOptions -> ApiTest.FetchOutcome :=
  fun _ _ => ApiTest.FetchThrows fetchFailed.

(** A call at time [t] whose request takes 100 ms. *)
Definition apiAt (t : Z) (net : string -> ApiTest.FetchOptions -> ApiTest.FetchOutcome)
  : ApiTest.World :=
  {| ApiTest.now := t;
     ApiTest.startTime := t;
     ApiTest.endTime := t + 100;
     ApiTest.network := net;
     ApiTest.headerNameError := fun name => "invalid header name: " +:+ name;
     ApiTest.timeoutError := fun ms =>
       {| ApiTest.msgHead := "T";
          ApiTest.msgTail := "he value of delay is out of range" |} |}.

Definition noRules : ApiTest.Expectations :=
  {| ApiTest.statusCode := None;
     ApiTest.statusCodeRange := None;
     ApiTest.maxResponseTime := None;
     ApiTest.bodyContains := None;
     ApiTest.bodyNotContains := None;
     ApiTest.requiredHeaders := None;
     ApiTest.responseType := None |}.

(** [{ statusCode: 200, maxResponseTime: 1000 }]. *)
Definition okWithin1s : ApiTest.Expectations :=
  {| ApiTest.statusCode := Some 200;
     ApiTest.statusCodeRange := None;
     ApiTest.maxResponseTime := Some 1000;
     ApiTest.bodyContains := None;
     ApiTest.bodyNotContains := None;
     ApiTest.requiredHeaders := None;
     ApiTest.responseType := None |}.

(** [{ statusCode: 404 }]. *)
Definition expect404 : ApiTest.Expectations :=
  {| ApiTest.statusCode := Some 404;
     ApiTest.statusCodeRange := None;
     ApiTest.maxResponseTime := None;
     ApiTest.bodyContains := None;
     ApiTest.bodyNotContains := None;
     ApiTest.requiredHeaders := None;
     ApiTest.responseType := None |}.

(** [{ statusCode: 200, bodyContains: ["ok"] }]. *)
Definition okAndContains : ApiTest.Expectations :=
  {| ApiTest.statusCode := Some 200;
     ApiTest.statusCodeRange := None;
     ApiTest.maxResponseTime := None;
     ApiTest.bodyContains := Some ["ok"];
     ApiTest.bodyNotContains := None;
     ApiTest.requiredHeaders := None;
     ApiTest.responseType := None |}.

(** [{ bodyContains: ["ok"], bodyNotContains: ["error"] }]. *)
Definition containsOnly : ApiTest.Expectations :=
  {| ApiTest.statusCode := None;
     ApiTest.statusCodeRange := None;
     ApiTest.maxResponseTime := None;
     ApiTest.bodyContains := Some ["ok"];
     ApiTest.bodyNotContains := Some ["error"];
     ApiTest.requiredHeaders := None;
     ApiTest.responseType := None |}.

(** [{ statusCode: 201, statusCodeRange: [200, 299],
       requiredHeaders: ["Content-Type"] }]. *)
Definition exactAndRange : ApiTest.Expectations :=
  {| ApiTest.statusCode := Some 201;
     ApiTest.statusCodeRange := Some (200, 299);
     ApiTest.maxResponseTime := None;
     ApiTest.bodyContains := None;
     ApiTest.bodyNotContains := None;
     ApiTest.requiredHeaders := Some ["Content-Type"];
     ApiTest.responseType := None |}.

(** A GET of [okUrl] with the default timeout. *)
Definition getOk (hs : option (gmap string string))
    (e : option ApiTest.Expectations) (ttl : Z) : ApiTest.Context :=
  {| ApiTest.url := okUrl;
     ApiTest.method := ApiTest.GET;
     ApiTest.headers := hs;
     ApiTest.body := None;
     ApiTest.expectations := e;
     ApiTest.cacheTTL := ttl;
     ApiTest.timeout := 10000 |}.

Definition bearer : gmap string string := {[ "Authorization" := "Bearer abc" ]}.

(** A health check made at time 61000. *)
Definition healthLater : Health.World := healthAt 61000 onlyAUp.

(** An API test call at time 61000. *)
Definition apiLater : ApiTest.World := apiAt 61000 (answering okResponse).

(** ** Task submissions *)

Definition instruction : A2A.JValue :=
  A2A.JObj [("parts",
             A2A.JArr [A2A.JObj [("kind", A2A.JStr "text");
                                 ("text", A2A.JStr "test https://example.test/ok")]])].

Definition callback : A2A.JValue :=
  A2A.JObj [("pushNotificationConfig",
             A2A.JObj [("url", A2A.JStr "https://caller.test/hook");
                       ("token", A2A.JStr "secret")])].

Definition envelope (params : list (string * A2A.JValue)) : A2A.JValue :=
  A2A.JObj [("jsonrpc", A2A.JStr "2.0"); ("id", A2A.JStr "req-1");
            ("method", A2A.JStr "message/send"); ("params", A2A.JObj params)].

(** A submission without [configuration.pushNotificationConfig]. *)
Definition noCallback : A2A.JValue :=
  envelope [("message", instruction); ("taskId", A2A.JStr "task-1")].

(** A submission whose instruction text is empty. *)
Definition emptyPrompt : A2A.JValue :=
  envelope [("message", A2A.JObj [("parts", A2A.JArr [A2A.JObj [("text", A2A.JStr "")]])]);
            ("taskId", A2A.JStr "task-1"); ("configuration", callback)].

(** A complete submission. *)
Definition complete : A2A.JValue :=
  envelope [("message", instruction); ("taskId", A2A.JStr "task-1");
            ("contextId", A2A.JStr "ctx-1"); ("configuration", callback)].

(** One registered agent, which answers every prompt. *)
Definition oneAgent : A2A.Env :=
  {| A2A.getAgent := fun id =>
       if String.eqb id "apiTestAgent"
       then Some (fun _ => A2A.Generated {| A2A.text := Some "All checks passed";
                                            A2A.toolResults := [] |})
       else None;
     A2A.uuid := fun n => "uuid-" +:+ JS.numToString (Z.of_nat n);
     A2A.completedAt := "2025-01-01T00:00:00.000Z";
     A2A.nullBodyError := "Cannot destructure property of null";
     A2A.lookupError := fun _ => None;
     A2A.primitiveError := "Cannot convert object to primitive value" |}.

(** The first call of the runs below, made at time 1000 on an empty
    cache. *)
Definition firstCall : ApiTest.TestResult * ApiTest.State :=
  ApiTest.execute (apiAt 1000 (answering okResponse)) ApiTest.initial
    (getOk None (Some okWithin1s) 300000).

End Scenario.

(** * Properties as the specification words them *)
Module Wording.

(** The health cache is keyed by the target URL: the status cached by a
    check of one URL is not what a check of another URL returns from the
    cache. *)
Definition healthCacheKeyedByUrl : Prop :=
  forall w1 w2 st ctx1 ctx2,
    Health.targetUrl ctx1 <> Health.targetUrl ctx2 ->
    Health.cached (fst (Health.execute w1 st ctx1)) = false ->
    Health.cached
      (fst (Health.execute w2 (snd (Health.execute w1 st ctx1)) ctx2)) = false.

(** [totalChecks] is the number N of declared rule instances, or 1 when
    N is 0. *)
Definition totalIsDeclared (r : ApiTest.TestResult)
    (e : option ApiTest.Expectations) : Prop :=
  ApiTest.totalChecks r =
    (if Rules.declaredRules e =? 0 then 1 else Rules.declaredRules e).

(** The response body could not be captured. *)
Definition captureFailed (resp : ApiTest.Response) : Prop :=
  ApiTest.bodyRead resp (ApiTest.contentTypeOf resp) = None.

(** The contains checks were skipped: no outcome recorded for them and
    none of their tokens counted. *)
Definition containsSkipped (r : ApiTest.TestResult)
    (e : option ApiTest.Expectations) : Prop :=
  (ApiTest.validations r ≫= ApiTest.v_bodyContains) = None /\
  (ApiTest.validations r ≫= ApiTest.v_bodyNotContains) = None /\
  ApiTest.totalChecks r =
    (if Rules.otherRules e =? 0 then 1 else Rules.otherRules e).

End Wording.

(** * Sequences of calls, and what the tools keep true along them *)
Module Runs.

(** Sequential health checks, each with the world it runs in. *)
Fixpoint healthAll (st : Health.State) (calls : list (Health.World * Health.Context))
  : list Health.Result * Health.State :=
  match calls with
  | [] => ([], st)
  | (w, ctx) :: rest =>
      let r := Health.execute w st ctx in
      let rs := healthAll (snd r) rest in
      (fst r :: fst rs, snd rs)
  end.

(** The health results that came from the network. *)
Definition healthMisses (rs : list Health.Result) : nat :=
  List.length (List.filter (fun r => negb (Health.cached r)) rs).

(** The health cell is coherent: status and timestamp are set together,
    and an error is remembered only with status DOWN. *)
Definition cellOk (hc : Health.HealthCache) : Prop :=
  (Health.status hc = None <-> Health.timestamp hc = None) /\
  (forall m, Health.lastError hc = Some m -> Health.status hc = Some Health.DOWN).

(** The test results that came from the network. *)
Definition testMisses (rs : list ApiTest.TestResult) : nat :=
  List.length (List.filter (fun r => negb (ApiTest.cached r)) rs).

(** The summary of a test result is coherent. *)
Definition resultOk (r : ApiTest.TestResult) : Prop :=
  1 <= ApiTest.totalChecks r /\
  0 <= ApiTest.passedChecks r <= ApiTest.totalChecks r /\
  ApiTest.failedChecks r = ApiTest.totalChecks r - ApiTest.passedChecks r /\
  (ApiTest.testStatus r = ApiTest.PASS <->
   ApiTest.passedChecks r = ApiTest.totalChecks r).

(** A cache entry is coherent with the result it holds. *)
Definition entryOk (e : ApiTest.CacheEntry) : Prop :=
  ApiTest.ce_status e = ApiTest.testStatus (ApiTest.ce_result e) /\
  ApiTest.ce_timestamp e = ApiTest.timestamp (ApiTest.ce_result e) /\
  ApiTest.cached (ApiTest.ce_result e) = false /\
  resultOk (ApiTest.ce_result e).

Definition cacheOk (st : ApiTest.State) : Prop :=
  forall k e, ApiTest.testCache st !! k = Some e -> entryOk e.


(** [body || {}] seen as a value: an absent and an empty body are the
    same. *)
Definition bodyOrNone (ctx : ApiTest.Context) : option string :=
  match ApiTest.body ctx with
  | Some b => if JS.truthyStr b then Some b else None
  | None => None
  end.

End Runs.

(** * The validation block, said declaratively *)
Module Verdicts.
Import ApiTest.

(** The verdict of a scalar rule, if it is declared. *)
Definition one {A} (o : option A) (test : A -> bool) : list bool :=
  match o with Some x => [test x] | None => [] end.

(** The verdicts of a list rule, one per token, if it is declared. *)
Definition each (o : option (list string)) (test : string -> bool) : list bool :=
  match o with Some l => map test l | None => [] end.

(** The verdicts of the rules that the validation block evaluates, in the
    order of the source: the contains lists are evaluated only against a
    non-empty body. *)
Definition verdicts (r : Response) (contentType responseBody : string)
    (responseTime : Z) (e : Expectations) : list bool :=
  one (statusCode e) (fun c => status r =? c) ++
  one (statusCodeRange e)
      (fun range => (fst range <=? status r) && (status r <=? snd range)) ++
  one (maxResponseTime e) (fun m => responseTime <=? m) ++
  (if JS.truthyStr responseBody
   then each (bodyContains e) (JS.includes responseBody) else []) ++
  (if JS.truthyStr responseBody
   then each (bodyNotContains e) (fun x => negb (JS.includes responseBody x)) else []) ++
  each (requiredHeaders e)
       (fun h => existsb (fun kv => sameName (fst kv) (JS.toLowerCase h)) (entries r)) ++
  one (responseType e) (fun want => ResponseType_eqb (actualType contentType) want).

(** The number of passing verdicts. *)
Fixpoint passes (vs : list bool) : Z :=
  match vs with
  | [] => 0
  | b :: rest => (if b then 1 else 0) + passes rest
  end.

Definition outcomes (o : option (list (string * bool))) : list bool :=
  match o with Some l => map snd l | None => [] end.

(** The verdicts that the [validations] object records, slot by slot. *)
Definition recorded (v : Validations) : list bool :=
  one (v_statusCode v) sc_passed ++
  one (v_responseTime v) rt_passed ++
  outcomes (v_bodyContains v) ++
  outcomes (v_bodyNotContains v) ++
  outcomes (v_headers v) ++
  one (v_responseType v) ty_passed.

(** A step of the block that evaluates exactly the verdicts [vs]. *)
Definition adds (vs : list bool) (t t' : Tally) : Prop :=
  t_total t' = t_total t + Z.of_nat (List.length vs) /\
  t_passed t' = t_passed t + passes vs.

(** The three slots of [validations] beside the key ones. *)
Definition restSlots (v : Validations)
  : option ResponseTimeCheck * option (list (string * bool)) *
    option ResponseTypeCheck :=
  (v_responseTime v, v_headers v, v_responseType v).

End Verdicts.

(** * Reading a cache key back *)
Module Quoting.

(** The characters of a string. *)
Definition chars (s : string) : list ascii := list_ascii_of_string s.

Definition hexValue (c : ascii) : N :=
  let n := N_of_ascii c in
  if (n <? 58)%N then (n - 48)%N else (n - 87)%N.

(** The character that a two-character escape stands for. *)
Definition unescape (k : ascii) : ascii :=
  let n := N_of_ascii k in
  if (n =? 98)%N then ascii_of_N 8
  else if (n =? 116)%N then ascii_of_N 9
  else if (n =? 110)%N then ascii_of_N 10
  else if (n =? 102)%N then ascii_of_N 12
  else if (n =? 114)%N then ascii_of_N 13
  else k.

(** A reader for what [JS.quoteBody] writes: it decodes escapes up to
    the first bare double quote. *)
Fixpoint unquoteBody (s : string) : string :=
  match s with
  | EmptyString => EmptyString
  | String c rest =>
      if Ascii.eqb c JS.dquote then EmptyString
      else if Ascii.eqb c JS.backslash then
        match rest with
        | EmptyString => EmptyString
        | String k rest' =>
            if (N_of_ascii k =? 117)%N then
              match rest' with
              | String _ (String _ (String h (String l rest''))) =>
                  String (ascii_of_N (16 * hexValue h + hexValue l)) (unquoteBody rest'')
              | _ => EmptyString
              end
            else String (unescape k) (unquoteBody rest')
        end
      else String c (unquoteBody rest)
  end.

(** Every double quote comes right after a backslash. *)
Fixpoint quotesEscaped (afterBackslash : bool) (l : list ascii) : bool :=
  match l with
  | [] => true
  | c :: rest =>
      (if Ascii.eqb c JS.dquote then afterBackslash else true) &&
      quotesEscaped (Ascii.eqb c JS.backslash) rest
  end.

(** The last segment of a cache key. *)
Definition bodyPart (b : option string) : string :=
  match b with
  | Some s => JS.stringifyString s
  | None => "{}"
  end.

End Quoting.

(** * The synchronous task handler

    The earlier route of the same path, which runs the agent before it
    answers and returns the result in the HTTP response. *)
Module A2ASync.
Import A2A.

(** [c.json(body, httpStatus)]. *)
Record Reply := { httpStatus : Z; body : JValue }.

Definition quoted (s : string) : string :=
  String JS.dquote (s +:+ String JS.dquote EmptyString).

Definition invalidEnvelope : string :=
  "Invalid Request: jsonrpc must be " +:+ quoted "2.0" +:+ " and id is required".

Definition promptNotFound : string :=
  "Invalid Request: Could not find main prompt in message.parts[0].text".

Definition agentNotFound (agentId : string) : string :=
  "Agent '" +:+ agentId +:+ "' not found".

(** A JSON-RPC error response. *)
Definition errorBody (id : JValue) (code : Z) (message : string)
    (data : list (string * JValue)) : JValue :=
  JObj [("jsonrpc", JStr "2.0"); ("id", id);
        ("error", JObj ([("code", JNum code); ("message", JStr message)] ++ data))].

(** The reply of the [catch] block. *)
Definition internalError (details : string) : Reply :=
  {| httpStatus := 500;
     body := errorBody JNull (-32603) "Internal error"
               [("data", JObj [("details", JStr details)])] |}.

(** [jsonrpc !== '2.0']. *)
Definition notVersion2 (v : option JValue) : bool :=
  match v with
  | Some (JStr s) => negb (String.eqb s "2.0")
  | _ => true
  end.

(** [requestId || null]. *)
Definition orNull (v : option JValue) : JValue :=
  match v with
  | Some x => if truthy (Some x) then x else JNull
  | None => JNull
  end.

(** What the handler keeps of the request; it reads no callback. *)
Definition taskOf (reqBody prompt : JValue) : Task :=
  {| requestId := member reqBody "id";
     contextId := member (paramsOf reqBody) "contextId";
     taskId := member (paramsOf reqBody) "taskId";
     webhookUrl := JNull;
     webhookToken := JNull;
     mainPrompt := prompt |}.

(** [telexA2AHandler] of the synchronous route: the reply, and the agent
    run it sets off.  Past the first test [requestId] is truthy, so
    [id: requestId] is never absent.  The agent lookup may throw, and the
    log line before the run interpolates the prompt, which may throw; both
    land in the [catch].  The success body is the same object literal as
    the payload that the asynchronous route pushes. *)
Definition telexA2AHandler (env : Env) (agentId : string) (req : string + JValue)
  : Reply * list Event :=
  match req with
  | inl message => (internalError message, [])
  | inr JNull => (internalError (nullBodyError env), [])
  | inr reqBody =>
      let requestId := member reqBody "id" in
      if notVersion2 (member reqBody "jsonrpc") || negb (truthy requestId) then
        ({| httpStatus := 400;
            body := errorBody (orNull requestId) (-32600) invalidEnvelope [] |}, [])
      else
        match lookupError env agentId, getAgent env agentId with
        | Some message, _ => (internalError message, [])
        | None, None =>
            ({| httpStatus := 404;
                body := errorBody (default JNull requestId) (-32602)
                          (agentNotFound agentId) [] |},
             [])
        | None, Some generate =>
            match mainPromptOf reqBody with
            | Some p =>
                if truthy (Some p) then
                  if toStringOk p then
                    match generate p with
                    | GenerateThrows message =>
                        (internalError message, [Generate agentId p])
                    | Generated r =>
                        ({| httpStatus := 200;
                            body := resultPayload env agentId (taskOf reqBody p) r 0 |},
                         [Generate agentId p])
                    end
                  else (internalError (primitiveError env), [])
                else
                  ({| httpStatus := 400;
                      body := errorBody (default JNull requestId) (-32600)
                                promptNotFound [] |},
                   [])
            | None =>
                ({| httpStatus := 400;
                    body := errorBody (default JNull requestId) (-32600)
                              promptNotFound [] |}, [])
            end
        end
  end.

(** [body.error.code]. *)
Definition errorCode (r : Reply) : option JValue :=
  chain (member (body r) "error") (fun e => member e "code").

End A2ASync.

(** * Views on what the handlers send *)
Module Callbacks.
Import A2A.

(** The pushes of a trace. *)
Definition pushes (trace : list Event) : list Event := List.filter isPush trace.

(** [payload.result.id]. *)
Definition resultId (payload : JValue) : option JValue :=
  chain (member payload "result") (fun r => member r "id").

(** [payload.result.status.state]. *)
Definition resultState (payload : JValue) : option JValue :=
  chain (chain (member payload "result") (fun r => member r "status"))
        (fun s => member s "state").

(** The [task_id] of an acknowledgment. *)
Definition taskIdOf (r : Reply) : option JValue :=
  match payload r with
  | SuccessBody _ _ id => Some id
  | ErrorBody _ _ _ => None
  end.

(** The submission carries a callback address, a callback token and an
    instruction, all truthy. *)
Definition completeSubmission (reqBody u t p : JValue) : Prop :=
  webhookUrlOf reqBody = Some u /\ truthy (Some u) = true /\
  webhookTokenOf reqBody = Some t /\ truthy (Some t) = true /\
  mainPromptOf reqBody = Some p /\ truthy (Some p) = true.

End Callbacks.

(** * The ticker

    [TickerAgent]: it triggers a health check at once when started and
    then on every firing of an interval timer, until stopped.  Timer
    handles are the platform's: [setInterval] returns a fresh handle, which
    is truthy, and a timer fires only while it is live. *)
Module Ticker.

(** The fields of a [TickerAgent]. *)
Record TickerAgent := {
  intervalId : option nat;
  targetUrl : string;
  intervalMs : Z;
  isRunning : bool
}.

(** [new TickerAgent(targetUrl, intervalMs)], the interval defaulting to
    one minute. *)
Definition create (url : string) (ms : option Z) : TickerAgent :=
  {| intervalId := None; targetUrl := url; intervalMs := default 60000 ms;
     isRunning := false |}.

(** What a ticker does to the outside. *)
Inductive Event :=
| Triggered (url : string)
| TimerSet (handle : nat) (ms : Z)
| TimerCleared (handle : nat).

(** A ticker in its platform: the live timers, the next fresh handle and
    the events so far. *)
Record Sys := {
  agent : TickerAgent;
  live : gset nat;
  nextHandle : nat;
  events : list Event
}.

Definition boot (url : string) (ms : option Z) : Sys :=
  {| agent := create url ms; live := ∅; nextHandle := 0; events := [] |}.

(** [tick]: the health check is triggered for [targetUrl]; whether the
    trigger resolves or throws, [tick] completes and changes no field. *)
Definition tick (s : Sys) : Sys :=
  {| agent := agent s; live := live s; nextHandle := nextHandle s;
     events := events s ++ [Triggered (targetUrl (agent s))] |}.

(** [start]. *)
Definition start (s : Sys) : Sys :=
  if isRunning (agent s) then s
  else
    let a := agent s in
    let s1 := tick {| agent := {| intervalId := intervalId a; targetUrl := targetUrl a;
                                  intervalMs := intervalMs a; isRunning := true |};
                      live := live s; nextHandle := nextHandle s; events := events s |} in
    let h := nextHandle s1 in
    {| agent := {| intervalId := Some h; targetUrl := targetUrl a;
                   intervalMs := intervalMs a; isRunning := true |};
       live := {[h]} ∪ live s1;
       nextHandle := S h;
       events := events s1 ++ [TimerSet h (intervalMs a)] |}.

(** [stop]. *)
Definition stop (s : Sys) : Sys :=
  if negb (isRunning (agent s)) then s
  else
    let a := agent s in
    match intervalId a with
    | Some h =>
        {| agent := {| intervalId := None; targetUrl := targetUrl a;
                       intervalMs := intervalMs a; isRunning := false |};
           live := live s ∖ {[h]};
           nextHandle := nextHandle s;
           events := events s ++ [TimerCleared h] |}
    | None =>
        {| agent := {| intervalId := None; targetUrl := targetUrl a;
                       intervalMs := intervalMs a; isRunning := false |};
           live := live s; nextHandle := nextHandle s; events := events s |}
    end.

(** The timer [h] comes due: its callback runs [tick] if it is live. *)
Definition elapse (h : nat) (s : Sys) : Sys :=
  if decide (h ∈ live s) then tick s else s.

Inductive Op := Start | Stop | Elapse (h : nat).

Definition step (s : Sys) (o : Op) : Sys :=
  match o with
  | Start => start s
  | Stop => stop s
  | Elapse h => elapse h s
  end.

Definition run (s : Sys) (ops : list Op) : Sys := fold_left step ops s.

(** A running ticker holds exactly one live timer, the one it recorded;
    a stopped one holds none. *)
Definition timerOk (s : Sys) : Prop :=
  match isRunning (agent s), intervalId (agent s) with
  | true, Some h => live s = {[h]}
  | false, None => live s = ∅
  | _, _ => False
  end.

(** Every event is the ticker's own: checks go to [url], timers run at
    [ms]. *)
Definition eventOk (url : string) (ms : Z) (e : Event) : Prop :=
  match e with
  | Triggered u => u = url
  | TimerSet _ m => m = ms
  | TimerCleared _ => True
  end.

Definition isElapse (o : Op) : Prop :=
  match o with Elapse _ => True | _ => False end.

End Ticker.

(** * Cached copies, and further scenarios *)
Module Replay.

(** [r] is the result [first] once more, identical in every field except
    that [cached] is true. *)
Definition cachedCopyOf (first r : ApiTest.TestResult) : Prop :=
  ApiTest.cached r = true /\
  ApiTest.testStatus r = ApiTest.testStatus first /\
  ApiTest.timestamp r = ApiTest.timestamp first /\
  ApiTest.request r = ApiTest.request first /\
  ApiTest.response r = ApiTest.response first /\
  ApiTest.validations r = ApiTest.validations first /\
  ApiTest.totalChecks r = ApiTest.totalChecks first /\
  ApiTest.passedChecks r = ApiTest.passedChecks first /\
  ApiTest.failedChecks r = ApiTest.failedChecks first /\
  ApiTest.error r = ApiTest.error first.

(** [{ bodyContains: ["response"] }]. *)
Definition containsResponse : ApiTest.Expectations :=
  {| ApiTest.statusCode := None;
     ApiTest.statusCodeRange := None;
     ApiTest.maxResponseTime := None;
     ApiTest.bodyContains := Some ["response"];
     ApiTest.bodyNotContains := None;
     ApiTest.requiredHeaders := None;
     ApiTest.responseType := None |}.

(** [{ statusCode: 201, statusCodeRange: [200, 299],
       requiredHeaders: ["Content Type"] }]: the header name has a space. *)
Definition bothRulesBadHeader : ApiTest.Expectations :=
  {| ApiTest.statusCode := Some 201;
     ApiTest.statusCodeRange := Some (200, 299);
     ApiTest.maxResponseTime := None;
     ApiTest.bodyContains := None;
     ApiTest.bodyNotContains := None;
     ApiTest.requiredHeaders := Some ["Content Type"];
     ApiTest.responseType := None |}.

(** A GET of [Scenario.okUrl] with the timeout [-1], which
    [AbortSignal.timeout] rejects. *)
Definition getOkBadTimeout (e : option ApiTest.Expectations) (ttl : Z) : ApiTest.Context :=
  {| ApiTest.url := Scenario.okUrl;
     ApiTest.method := ApiTest.GET;
     ApiTest.headers := None;
     ApiTest.body := None;
     ApiTest.expectations := e;
     ApiTest.cacheTTL := ttl;
     ApiTest.timeout := -1 |}.

(** A complete submission whose [taskId] is the object [{"toString": 1}]. *)
Definition oddTaskId : A2A.JValue :=
  Scenario.envelope
    [("message", Scenario.instruction);
     ("taskId", A2A.JObj [("toString", A2A.JNum 1)]);
     ("configuration", Scenario.callback)].

End Replay.

(** * Requests of a run *)
Module Requests.

(** The calls of a run that were not served from the cache and whose
    timeout signal could be created: the ones that reach [fetch]. *)
Definition requestsOf (calls : list (ApiTest.World * ApiTest.Context))
    (results : list ApiTest.TestResult) : nat :=
  List.length
    (List.filter
       (fun cr => negb (ApiTest.cached (snd cr)) &&
                  ApiTest.timeoutAccepted (ApiTest.timeout (snd (fst cr))))
       (combine calls results)).

End Requests.

(** * Properties *)

(** ** Health checks: change detection and the single cell *)
Section HealthFacts.
Import Health.

(** Case analysis following the branches of [Health.execute]. *)
Ltac health_cases w st ctx :=
  unfold execute, refresh, ageOf, isFresh;
  destruct st as [[[prev|] [t|] le] log]; simpl;
  try (destruct (Z.eqb_spec t 0); simpl);
  try (destruct (Z.ltb_spec (now w - t) (cacheTTL ctx)); simpl);
  try (destruct (fetch w (targetUrl ctx)) eqn:?; simpl).

(** The two paths are told apart by [cached]. *)
Lemma health_hit_or_miss w st ctx :
  (cached (fst (execute w st ctx)) = true /\ snd (execute w st ctx) = st) \/
  (cached (fst (execute w st ctx)) = false /\
   outbound (snd (execute w st ctx)) = outbound st ++ [targetUrl ctx] /\
   timestamp (healthCache (snd (execute w st ctx))) = Some (now w) /\
   status (healthCache (snd (execute w st ctx))) = Some (r_status (fst (execute w st ctx)))).
Proof. health_cases w st ctx; auto 6. Qed.

(** A fresh cell with a status answers from the cache, whatever the URL. *)
Lemma health_hit w st ctx s t :
  status (healthCache st) = Some s ->
  timestamp (healthCache st) = Some t ->
  t <> 0 ->
  now w - t < cacheTTL ctx ->
  execute w st ctx =
    ({| r_status := s; cached := true; r_timestamp := t;
        cacheAge := Some (JS.roundSeconds (now w - t)); httpStatus := None;
        statusChanged := None; error := None |}, st).
Proof.
  intros Hs Ht Hnz Hlt. unfold execute, ageOf. rewrite Hs, Ht.
  destruct (Z.eqb_spec t 0) as [|_]; [contradiction|].
  simpl. destruct (Z.ltb_spec (now w - t) (cacheTTL ctx)); [reflexivity | lia].
Qed.

(** A cell that is not fresh for this caller is refreshed from the
    network. *)
Lemma health_miss w st ctx :
  isFresh (ageOf (healthCache st) (now w)) (cacheTTL ctx) = false ->
  execute w st ctx = refresh w st ctx.
Proof. intros Hf. unfold execute. now rewrite Hf. Qed.

Lemma refresh_logs w st ctx :
  cached (fst (refresh w st ctx)) = false /\
  outbound (snd (refresh w st ctx)) = outbound st ++ [targetUrl ctx].
Proof. unfold refresh. destruct (fetch w (targetUrl ctx)); simpl; auto. Qed.

(** On the response path of a miss the flag follows the rule: a previous
    status exists and differs from the new one. *)
Lemma health_response_change_rule w st ctx code :
  cached (fst (execute w st ctx)) = false ->
  fetch w (targetUrl ctx) = FetchOk code ->
  statusChanged (fst (execute w st ctx)) =
    Some (changedOnResponse (status (healthCache st))
            (r_status (fst (execute w st ctx)))).
Proof.
  intros Hc Hf. revert Hc. health_cases w st ctx;
    first [discriminate | congruence | reflexivity].
Qed.

Lemma changedOnResponse_spec prev s :
  changedOnResponse prev s = true <-> exists p, prev = Some p /\ p <> s.
Proof.
  split.
  - destruct prev as [p|]; simpl; [|discriminate].
    intros H. exists p. split; [reflexivity|].
    intros ->. destruct s; discriminate.
  - intros (p & -> & Hne). destruct p, s; simpl; congruence.
Qed.

(** On the error path of a miss the flag is set unless the previous
    status was already DOWN; an empty cell counts as a change. *)
Lemma health_error_change_rule w st ctx msg :
  cached (fst (execute w st ctx)) = false ->
  fetch w (targetUrl ctx) = FetchThrows msg ->
  r_status (fst (execute w st ctx)) = DOWN /\
  error (fst (execute w st ctx)) = Some msg /\
  statusChanged (fst (execute w st ctx)) =
    Some (changedOnError (status (healthCache st))).
Proof.
  intros Hc Hf. revert Hc. health_cases w st ctx;
    first [discriminate | intros _; repeat split; congruence].
Qed.

End HealthFacts.

(** ** C1 and C4 *)
Section HealthClaims.
Import Health Scenario.

(** C1.  The claim wants the very first observation never to report
    [statusChanged = true], also when it is an error.  The code does
    otherwise: from the empty cell, a check whose request throws returns
    status DOWN with [statusChanged = true], because the [catch] branch
    tests only that the previous status is not DOWN.  (The response path
    does follow the rule, see [health_response_change_rule].) *)
Theorem C1_first_error_reports_change :
  let r := fst (execute (healthAt 1000 unreachable) initial (checkOf urlA 300000)) in
  status (healthCache initial) = None /\
  cached r = false /\
  r_status r = DOWN /\
  error r = Some "fetch failed" /\
  statusChanged r = Some true.
Proof. repeat split. Qed.

(** C4, as worded, fails: after [urlA] was checked and found UP, a check
    of the different [urlB] (which would answer 500) within the TTL is
    answered from the cache with UP, and no request goes to [urlB]. *)
Lemma C4_counterexample : ~ Wording.healthCacheKeyedByUrl.
Proof.
  intros H.
  specialize (H (healthAt 1000 onlyAUp) (healthAt 2000 onlyAUp) initial
                (checkOf urlA 300000) (checkOf urlB 300000)).
  assert (Hne : targetUrl (checkOf urlA 300000) <> targetUrl (checkOf urlB 300000))
    by (simpl; discriminate).
  specialize (H Hne eq_refl). discriminate H.
Qed.

(** C4, amended.  The health cache is one cell shared by all target
    URLs: once a check of any URL has gone to the network at a non-zero
    time, a check of any URL, the same or another, made within the TTL it
    passes is answered from the cache with the status the first check
    stored, and sends no request. *)
Theorem C4_one_cell_for_all_urls w1 w2 st ctx1 ctx2 :
  cached (fst (execute w1 st ctx1)) = false ->
  now w1 <> 0 ->
  now w2 - now w1 < cacheTTL ctx2 ->
  cached (fst (execute w2 (snd (execute w1 st ctx1)) ctx2)) = true /\
  r_status (fst (execute w2 (snd (execute w1 st ctx1)) ctx2)) =
    r_status (fst (execute w1 st ctx1)) /\
  snd (execute w2 (snd (execute w1 st ctx1)) ctx2) = snd (execute w1 st ctx1).
Proof.
  intros Hmiss Hnz Hlt.
  destruct (health_hit_or_miss w1 st ctx1) as [[Hc _] | (_ & _ & Ht & Hs)];
    [congruence|].
  rewrite (health_hit w2 _ ctx2 _ _ Hs Ht Hnz Hlt). simpl. auto.
Qed.

Lemma C4_one_cell_for_all_urls_witness :
  targetUrl (checkOf urlA 300000) <> targetUrl (checkOf urlB 300000) /\
  cached (fst (execute (healthAt 2000 onlyAUp) afterA (checkOf urlB 300000))) = true /\
  r_status (fst (execute (healthAt 2000 onlyAUp) afterA (checkOf urlB 300000))) = UP /\
  outbound (snd (execute (healthAt 2000 onlyAUp) afterA (checkOf urlB 300000))) = [urlA].
Proof.
  pose proof (C4_one_cell_for_all_urls (healthAt 1000 onlyAUp) (healthAt 2000 onlyAUp)
                initial (checkOf urlA 300000) (checkOf urlB 300000)
                eq_refl ltac:(simpl; lia) ltac:(simpl; lia)) as (Hc & Hs & Hst).
  split; [simpl; discriminate|].
  split; [exact Hc|].
  split; [exact Hs|].
  unfold afterA. rewrite Hst. reflexivity.
Defined.

End HealthClaims.

(** ** The validation block *)
Section ValidationFacts.
Import ApiTest Rules.

Lemma bump_bounds b n : n <= bump b n <= n + 1.
Proof. destruct b; simpl; lia. Qed.

Lemma grows_refl t : grows 0 t t.
Proof. unfold grows. lia. Qed.

Lemma grows_trans j k t1 t2 t3 :
  grows j t1 t2 -> grows k t2 t3 -> grows (j + k) t1 t3.
Proof. unfold grows. lia. Qed.

Lemma mapChecks_outcomes test l total passed :
  fst (mapChecks test l total passed) = map (fun x => (x, test x)) l.
Proof.
  revert total passed. induction l as [|x l IH]; intros; simpl; [reflexivity|].
  now rewrite IH.
Qed.

Lemma mapChecks_counts test l total passed :
  fst (snd (mapChecks test l total passed)) = total + Z.of_nat (List.length l) /\
  passed <= snd (snd (mapChecks test l total passed))
         <= passed + Z.of_nat (List.length l).
Proof.
  revert total passed. induction l as [|x l IH]; intros total passed.
  - simpl. lia.
  - cbn [mapChecks fst snd List.length].
    destruct (IH (total + 1) (bump (test x) passed)) as [Ht Hp].
    pose proof (bump_bounds (test x) passed). lia.
Qed.

Lemma mapHeaderChecks_inr hs l total passed res :
  mapHeaderChecks hs l total passed = inr res ->
  fst (snd res) = total + Z.of_nat (List.length l) /\
  passed <= snd (snd res) <= passed + Z.of_nat (List.length l).
Proof.
  revert total passed res. induction l as [|h l IH]; intros total passed res.
  - simpl. intros [= <-]. simpl. lia.
  - cbn [mapHeaderChecks List.length].
    destruct (headersHas hs (JS.toLowerCase h)) as [present|]; [|discriminate].
    destruct (mapHeaderChecks hs l (total + 1) (bump present passed)) as [|r] eqn:E;
      [discriminate|].
    intros [= <-]. destruct (IH _ _ _ E) as [Ht Hp]. cbn [fst snd].
    pose proof (bump_bounds present passed). lia.
Qed.

Lemma mapHeaderChecks_valid hs l total passed :
  forallb (fun h => isHeaderName (JS.toLowerCase h)) l = true ->
  exists res, mapHeaderChecks hs l total passed = inr res.
Proof.
  revert total passed. induction l as [|h l IH]; intros total passed Hall.
  - eexists. reflexivity.
  - simpl in Hall. apply andb_true_iff in Hall as [Hh Hl].
    cbn [mapHeaderChecks]. unfold headersHas. rewrite Hh.
    destruct (IH (total + 1)
                (bump (existsb (fun kv => sameName (fst kv) (JS.toLowerCase h)) hs) passed)
                Hl) as [res ->].
    eexists. reflexivity.
Qed.

Lemma checkStatusCode_grows r e t :
  grows (declared (statusCode e)) t (checkStatusCode r e t).
Proof.
  unfold checkStatusCode, grows. destruct (statusCode e) as [c|]; simpl; [|lia].
  pose proof (bump_bounds (status r =? c) (t_passed t)). lia.
Qed.

Lemma checkStatusCodeRange_grows r e t :
  grows (declared (statusCodeRange e)) t (checkStatusCodeRange r e t).
Proof.
  unfold checkStatusCodeRange, grows.
  destruct (statusCodeRange e) as [[lo hi]|]; simpl; [|lia].
  pose proof (bump_bounds ((lo <=? status r) && (status r <=? hi)) (t_passed t)). lia.
Qed.

Lemma checkResponseTime_grows rt e t :
  grows (declared (maxResponseTime e)) t (checkResponseTime rt e t).
Proof.
  unfold checkResponseTime, grows. destruct (maxResponseTime e) as [m|]; simpl; [|lia].
  pose proof (bump_bounds (rt <=? m) (t_passed t)). lia.
Qed.

Lemma checkBodyContains_grows b e t :
  grows (if JS.truthyStr b then tokens (bodyContains e) else 0) t
        (checkBodyContains b e t).
Proof.
  unfold checkBodyContains, grows, tokens.
  destruct (bodyContains e) as [l|], (JS.truthyStr b); simpl; try lia.
  destruct (mapChecks_counts (JS.includes b) l (t_total t) (t_passed t)). lia.
Qed.

Lemma checkBodyNotContains_grows b e t :
  grows (if JS.truthyStr b then tokens (bodyNotContains e) else 0) t
        (checkBodyNotContains b e t).
Proof.
  unfold checkBodyNotContains, grows, tokens.
  destruct (bodyNotContains e) as [l|], (JS.truthyStr b); simpl; try lia.
  destruct (mapChecks_counts (fun x => negb (JS.includes b x)) l
              (t_total t) (t_passed t)). lia.
Qed.

Lemma checkRequiredHeaders_grows r e t t' :
  checkRequiredHeaders r e t = inr t' ->
  grows (tokens (requiredHeaders e)) t t'.
Proof.
  unfold checkRequiredHeaders, grows, tokens.
  destruct (requiredHeaders e) as [l|].
  - destruct (mapHeaderChecks _ _ _ _) as [|res] eqn:E; [discriminate|].
    intros [= <-]. simpl. destruct (mapHeaderChecks_inr _ _ _ _ _ E). lia.
  - intros [= <-]. lia.
Qed.

Lemma checkResponseType_grows ct e t :
  grows (declared (responseType e)) t (checkResponseType ct e t).
Proof.
  unfold checkResponseType, grows. destruct (responseType e) as [want|]; simpl; [|lia].
  pose proof (bump_bounds (ResponseType_eqb (actualType ct) want) (t_passed t)). lia.
Qed.

(** The block adds one check per counted rule, and no more passes than
    checks. *)
Lemma runChecks_counts r ct b rt e t :
  runChecks r ct b rt e = inr t ->
  t_total t = countedRules b e /\ 0 <= t_passed t <= t_total t.
Proof.
  unfold runChecks. destruct e as [e|].
  - destruct (checkRequiredHeaders _ _ _) as [|t6] eqn:E6; [discriminate|].
    intros [= <-].
    pose proof (checkStatusCode_grows r e startTally) as G1.
    pose proof (checkStatusCodeRange_grows r e (checkStatusCode r e startTally)) as G2.
    pose proof (checkResponseTime_grows rt e
                  (checkStatusCodeRange r e (checkStatusCode r e startTally))) as G3.
    pose proof (checkBodyContains_grows b e
                  (checkResponseTime rt e
                     (checkStatusCodeRange r e (checkStatusCode r e startTally)))) as G4.
    pose proof (checkBodyNotContains_grows b e
                  (checkBodyContains b e
                     (checkResponseTime rt e
                        (checkStatusCodeRange r e (checkStatusCode r e startTally))))) as G5.
    pose proof (checkRequiredHeaders_grows _ _ _ _ E6) as G6.
    pose proof (checkResponseType_grows ct e t6) as G7.
    unfold grows in *. unfold countedRules, declaredRules, otherRules, containsTokens.
    change (t_total startTally) with 0 in *. change (t_passed startTally) with 0 in *.
    destruct (JS.truthyStr b); lia.
  - intros [= <-]. unfold countedRules, declaredRules. simpl.
    destruct (JS.truthyStr b); lia.
Qed.

(** With valid header names the block runs to its end. *)
Lemma runChecks_completes r ct b rt e :
  namesValid e = true -> exists t, runChecks r ct b rt e = inr t.
Proof.
  unfold runChecks, namesValid. destruct e as [e|]; [|eexists; reflexivity].
  unfold checkRequiredHeaders. destruct (requiredHeaders e) as [l|].
  - intros Hall.
    edestruct (mapHeaderChecks_valid (entries r) l) as [res ->]; [exact Hall|].
    eexists. reflexivity.
  - intros _. eexists. reflexivity.
Qed.

Lemma implicitCheck_counts r t n :
  t_total t = n -> 0 <= t_passed t <= t_total t ->
  t_total (implicitCheck r t) = (if n =? 0 then 1 else n) /\
  0 <= t_passed (implicitCheck r t) <= t_total (implicitCheck r t) /\
  (n = 0 -> (t_passed (implicitCheck r t) = 1 <-> JS.statusOk (status r) = true)).
Proof.
  intros <- Hp. unfold implicitCheck.
  destruct (Z.eqb_spec (t_total t) 0) as [E|E]; simpl.
  - destruct (JS.statusOk (status r)); repeat split; try lia; try discriminate; auto.
  - repeat split; try lia.
Qed.

End ValidationFacts.

(** ** The test cache *)
Section CacheFacts.
Import ApiTest Rules.

Lemma execute_hit w st ctx e :
  testCache st !! cacheKey ctx = Some e ->
  now w - ce_timestamp e < cacheTTL ctx ->
  execute w st ctx = (markCached (ce_result e), st).
Proof.
  intros He Hlt. unfold execute. rewrite He. simpl.
  destruct (Z.ltb_spec (now w - ce_timestamp e) (cacheTTL ctx)); [reflexivity | lia].
Qed.

Lemma execute_miss w st ctx :
  isCacheFresh w ctx (testCache st !! cacheKey ctx) = false ->
  execute w st ctx = perform w st ctx.
Proof.
  intros Hf. unfold execute. rewrite Hf. reflexivity.
Qed.

(** The miss path: the result is not marked cached, one request is
    logged, and the result is stored under the key with the time of the
    call, whichever branch produced it. *)
Lemma perform_stores w st ctx :
  cached (fst (perform w st ctx)) = false /\
  outbound (snd (perform w st ctx)) = outbound st ++ sent ctx /\
  exists e,
    testCache (snd (perform w st ctx)) = <[cacheKey ctx := e]> (testCache st) /\
    ce_result e = fst (perform w st ctx) /\
    ce_timestamp e = now w /\
    ce_status e = testStatus (fst (perform w st ctx)).
Proof.
  unfold perform. destruct (attempt w ctx) as [msg | [res rt]] eqn:E; simpl.
  - repeat split. eexists. repeat split.
  - split.
    + unfold attempt in E. destruct (fetch w (url ctx) (fetchOptions ctx)); [|discriminate].
      destruct (runChecks _ _ _ _ _); [discriminate|]. now injection E as <- _.
    + split; [reflexivity|]. eexists. repeat split.
Qed.

Lemma execute_uncached w st ctx :
  cached (fst (execute w st ctx)) = false ->
  execute w st ctx = perform w st ctx.
Proof.
  unfold execute.
  destruct (isCacheFresh w ctx _), (testCache st !! cacheKey ctx);
    simpl; [discriminate | reflexivity ..].
Qed.

(** After a miss, the entry under the key holds the returned result and
    the time of the call. *)
Lemma execute_uncached_entry w st ctx :
  cached (fst (execute w st ctx)) = false ->
  outbound (snd (execute w st ctx)) = outbound st ++ sent ctx /\
  exists e,
    testCache (snd (execute w st ctx)) !! cacheKey ctx = Some e /\
    ce_result e = fst (execute w st ctx) /\
    ce_timestamp e = now w.
Proof.
  intros Hc. rewrite (execute_uncached _ _ _ Hc).
  destruct (perform_stores w st ctx) as (_ & Hlog & e & Hmap & Hres & Hts & _).
  split; [exact Hlog|]. exists e. rewrite Hmap, lookup_insert_eq. auto.
Qed.

(** Calls that all find the same fresh entry are all served from it and
    leave the state, hence the request log, as it was. *)
Lemma executeAll_fresh st k e calls :
  testCache st !! k = Some e ->
  Forall (fun c => cacheKey (snd c) = k /\
                   now (fst c) - ce_timestamp e < cacheTTL (snd c)) calls ->
  executeAll st calls = (map (fun _ => markCached (ce_result e)) calls, st).
Proof.
  intros He. induction 1 as [|[w ctx] calls [Hk Hlt] _ IH]; [reflexivity|].
  simpl in Hk, Hlt. subst k. cbn [executeAll].
  rewrite (execute_hit w st ctx e He Hlt). cbn [fst snd]. now rewrite IH.
Qed.

(** [perform] never reads [cacheTTL]. *)
Lemma perform_withTTL w st ctx a b :
  perform w st (withTTL ctx a) = perform w st (withTTL ctx b).
Proof. reflexivity. Qed.

Lemma cacheKey_withTTL ctx a : cacheKey (withTTL ctx a) = cacheKey ctx.
Proof. reflexivity. Qed.

End CacheFacts.

(** ** From a response to a result *)
Section ResultFacts.
Import ApiTest Rules.

Lemma checkStatusCode_slots r e t :
  keySlots (t_validations (checkStatusCode r e t)) =
    (match statusCode e with
     | Some c => Some {| sc_expected := ExpectedCode c; sc_actual := status r;
                         sc_passed := status r =? c |}
     | None => v_statusCode (t_validations t)
     end,
     v_bodyContains (t_validations t), v_bodyNotContains (t_validations t)).
Proof. unfold checkStatusCode. destruct (statusCode e); reflexivity. Qed.

Lemma checkStatusCodeRange_slots r e t :
  keySlots (t_validations (checkStatusCodeRange r e t)) =
    (match statusCodeRange e with
     | Some (lo, hi) =>
         Some {| sc_expected := ExpectedRange lo hi;
                 sc_actual := status r;
                 sc_passed := (lo <=? status r) && (status r <=? hi) |}
     | None => v_statusCode (t_validations t)
     end,
     v_bodyContains (t_validations t), v_bodyNotContains (t_validations t)).
Proof. unfold checkStatusCodeRange. destruct (statusCodeRange e) as [[lo hi]|]; reflexivity. Qed.

Lemma checkResponseTime_slots rt e t :
  keySlots (t_validations (checkResponseTime rt e t)) = keySlots (t_validations t).
Proof. unfold checkResponseTime. destruct (maxResponseTime e); reflexivity. Qed.

Lemma checkBodyContains_slots b e t :
  keySlots (t_validations (checkBodyContains b e t)) =
    (v_statusCode (t_validations t),
     match bodyContains e with
     | Some _ => if JS.truthyStr b then containsSlot b (bodyContains e)
                 else v_bodyContains (t_validations t)
     | None => v_bodyContains (t_validations t)
     end,
     v_bodyNotContains (t_validations t)).
Proof.
  unfold checkBodyContains, containsSlot.
  destruct (bodyContains e) as [l|]; [|reflexivity].
  destruct (JS.truthyStr b); [|reflexivity].
  unfold keySlots. simpl. now rewrite mapChecks_outcomes.
Qed.

Lemma checkBodyNotContains_slots b e t :
  keySlots (t_validations (checkBodyNotContains b e t)) =
    (v_statusCode (t_validations t),
     v_bodyContains (t_validations t),
     match bodyNotContains e with
     | Some _ => if JS.truthyStr b then notContainsSlot b (bodyNotContains e)
                 else v_bodyNotContains (t_validations t)
     | None => v_bodyNotContains (t_validations t)
     end).
Proof.
  unfold checkBodyNotContains, notContainsSlot.
  destruct (bodyNotContains e) as [l|]; [|reflexivity].
  destruct (JS.truthyStr b); [|reflexivity].
  unfold keySlots. simpl. now rewrite mapChecks_outcomes.
Qed.

Lemma checkRequiredHeaders_slots r e t t' :
  checkRequiredHeaders r e t = inr t' ->
  keySlots (t_validations t') = keySlots (t_validations t).
Proof.
  unfold checkRequiredHeaders. destruct (requiredHeaders e).
  - destruct (mapHeaderChecks _ _ _ _); [discriminate|]. now intros [= <-].
  - now intros [= <-].
Qed.

Lemma checkResponseType_slots ct e t :
  keySlots (t_validations (checkResponseType ct e t)) = keySlots (t_validations t).
Proof. unfold checkResponseType. destruct (responseType e); reflexivity. Qed.

(** The slots that the validation block leaves behind. *)
Lemma runChecks_slots r ct b rt e t :
  runChecks r ct b rt (Some e) = inr t ->
  keySlots (t_validations t) =
    (statusSlot (status r) e,
     containsSlot b (bodyContains e),
     notContainsSlot b (bodyNotContains e)).
Proof.
  unfold runChecks.
  destruct (checkRequiredHeaders _ _ _) as [|t6] eqn:E6; [discriminate|].
  intros [= <-].
  rewrite checkResponseType_slots, (checkRequiredHeaders_slots _ _ _ _ E6).
  rewrite checkBodyNotContains_slots.
  pose proof (checkBodyContains_slots b e
                (checkResponseTime rt e
                   (checkStatusCodeRange r e (checkStatusCode r e startTally)))) as H4.
  unfold keySlots in H4. injection H4 as -> -> ->.
  pose proof (checkResponseTime_slots rt e
                (checkStatusCodeRange r e (checkStatusCode r e startTally))) as H3.
  unfold keySlots in H3. injection H3 as -> -> ->.
  pose proof (checkStatusCodeRange_slots r e (checkStatusCode r e startTally)) as H2.
  unfold keySlots in H2. injection H2 as -> -> ->.
  pose proof (checkStatusCode_slots r e startTally) as H1.
  unfold keySlots in H1. injection H1 as -> -> ->.
  unfold statusSlot, containsSlot, notContainsSlot. simpl.
  destruct (statusCodeRange e) as [[lo hi]|], (statusCode e), (bodyContains e),
    (bodyNotContains e), (JS.truthyStr b); reflexivity.
Qed.

(** A miss that obtains a response and names only valid headers runs the
    validation block to its end and returns the assembled result. *)
Lemma execute_validated w st ctx resp :
  isCacheFresh w ctx (testCache st !! cacheKey ctx) = false ->
  fetch w (url ctx) (fetchOptions ctx) = FetchOk resp ->
  namesValid (expectations ctx) = true ->
  exists t,
    runChecks resp (contentTypeOf resp) (responseBodyOf resp)
      (endTime w - startTime w) (expectations ctx) = inr t /\
    fst (execute w st ctx) =
      successResult w ctx resp (responseBodyOf resp) (endTime w - startTime w)
        (implicitCheck resp t).
Proof.
  intros Hmiss Hfetch Hvalid.
  destruct (runChecks_completes resp (contentTypeOf resp) (responseBodyOf resp)
              (endTime w - startTime w) (expectations ctx) Hvalid) as [t Ht].
  exists t. split; [exact Ht|].
  rewrite (execute_miss _ _ _ Hmiss). unfold perform, attempt.
  rewrite Hfetch. cbn zeta. rewrite Ht. reflexivity.
Qed.

(** A miss whose request throws returns the failure result. *)
Lemma execute_failed w st ctx msg :
  isCacheFresh w ctx (testCache st !! cacheKey ctx) = false ->
  fetch w (url ctx) (fetchOptions ctx) = FetchThrows msg ->
  execute w st ctx =
    (failureResult w ctx (msgText msg),
     {| testCache :=
          <[cacheKey ctx := {| ce_status := FAIL; ce_timestamp := now w;
                               ce_responseTime := 0;
                               ce_result := failureResult w ctx (msgText msg) |}]>
            (testCache st);
        outbound := outbound st ++ sent ctx |}).
Proof.
  intros Hmiss Hfetch. rewrite (execute_miss _ _ _ Hmiss).
  unfold perform, attempt. rewrite Hfetch. reflexivity.
Qed.

(** Every result of the miss path, from either branch, keeps
    [passedChecks] within [totalChecks] and is PASS exactly when the two
    are equal. *)
Lemma perform_verdict w st ctx :
  0 <= passedChecks (fst (perform w st ctx)) <= totalChecks (fst (perform w st ctx)) /\
  (testStatus (fst (perform w st ctx)) = PASS <->
   passedChecks (fst (perform w st ctx)) = totalChecks (fst (perform w st ctx))).
Proof.
  unfold perform, attempt.
  destruct (fetch w (url ctx) (fetchOptions ctx)) as [resp|msg]; simpl.
  - destruct (runChecks _ _ _ _ _) as [bad|t] eqn:E; simpl.
    + split; [lia | split; [discriminate | lia]].
    + destruct (runChecks_counts _ _ _ _ _ _ E) as [Ht Hp].
      destruct (implicitCheck_counts resp t _ Ht Hp) as (_ & Hb & _).
      split; [exact Hb|].
      destruct (Z.eqb_spec (t_passed (implicitCheck resp t))
                  (t_total (implicitCheck resp t)));
        split; intros H; first [reflexivity | assumption | discriminate | contradiction].
  - split; [lia | split; [discriminate | lia]].
Qed.

End ResultFacts.



(** ** C2, C6 and C7: the validation engine *)
Section ValidationClaims.
Import ApiTest Rules Scenario.

Lemma statusOk_spec code : JS.statusOk code = true <-> 200 <= code <= 299.
Proof. unfold JS.statusOk. rewrite andb_true_iff, !Z.leb_le. tauto. Qed.

Lemma truthyStr_spec b : JS.truthyStr b = true <-> b <> "".
Proof. destruct b; simpl; split; congruence. Qed.

(** C2, as worded, fails: with the rules [statusCode: 200] and
    [bodyContains: ["ok"]] (N = 2) and a 200 response whose body is
    empty, the contains rule is not evaluated and [totalChecks] is 1. *)
Lemma C2_counterexample :
  declaredRules (Some okAndContains) = 2 /\
  totalChecks (fst (execute (apiAt 1000 (answering emptyResponse)) initial
                      (getOk None (Some okAndContains) 300000))) = 1 /\
  ~ Wording.totalIsDeclared
      (fst (execute (apiAt 1000 (answering emptyResponse)) initial
              (getOk None (Some okAndContains) 300000)))
      (Some okAndContains).
Proof.
  split; [reflexivity|]. split; [reflexivity|].
  unfold Wording.totalIsDeclared. vm_compute. discriminate.
Qed.

(** C2, amended.  For a call that obtains a response and whose required
    header names are valid, [totalChecks] is the number of declared rule
    instances that are evaluated: all N of them when the captured body is
    non-empty, and N less the body-contains and body-not-contains tokens
    when the body is empty; when that number is 0 it is 1, and the single
    implicit check passes iff the HTTP status is in 200-299.
    [passedChecks] never exceeds [totalChecks], and the status is PASS
    iff the two are equal. *)
Theorem C2_total_is_the_evaluated_rules w st ctx resp :
  isCacheFresh w ctx (testCache st !! cacheKey ctx) = false ->
  fetch w (url ctx) (fetchOptions ctx) = FetchOk resp ->
  namesValid (expectations ctx) = true ->
  totalChecks (fst (execute w st ctx)) =
    (if countedRules (responseBodyOf resp) (expectations ctx) =? 0 then 1
     else countedRules (responseBodyOf resp) (expectations ctx)) /\
  (countedRules (responseBodyOf resp) (expectations ctx) = 0 ->
   (passedChecks (fst (execute w st ctx)) = 1 <-> 200 <= status resp <= 299)) /\
  0 <= passedChecks (fst (execute w st ctx)) <= totalChecks (fst (execute w st ctx)) /\
  (testStatus (fst (execute w st ctx)) = PASS <->
   passedChecks (fst (execute w st ctx)) = totalChecks (fst (execute w st ctx))) /\
  (responseBodyOf resp <> "" ->
   countedRules (responseBodyOf resp) (expectations ctx) =
     declaredRules (expectations ctx)) /\
  (responseBodyOf resp = "" ->
   countedRules (responseBodyOf resp) (expectations ctx) =
     declaredRules (expectations ctx) - containsTokens (expectations ctx)).
Proof.
  intros Hmiss Hfetch Hvalid.
  destruct (execute_validated w st ctx resp Hmiss Hfetch Hvalid) as (t & Ht & Hres).
  destruct (runChecks_counts _ _ _ _ _ _ Ht) as [Htot Hpass].
  destruct (implicitCheck_counts resp t _ Htot Hpass) as (Hn & Hb & Himp).
  pose proof (perform_verdict w st ctx) as [_ Hverdict].
  rewrite <- (execute_miss _ _ _ Hmiss) in Hverdict.
  split; [rewrite Hres; exact Hn|].
  split; [intros Hz; rewrite Hres, <- statusOk_spec; exact (Himp Hz)|].
  split; [rewrite Hres; exact Hb|].
  split; [exact Hverdict|].
  unfold countedRules, declaredRules. split.
  - intros Hne. apply truthyStr_spec in Hne. now rewrite Hne.
  - intros ->. simpl. lia.
Qed.

Lemma C2_total_is_the_evaluated_rules_witness :
  (totalChecks (fst firstCall) = 2 /\ passedChecks (fst firstCall) = 2 /\
   testStatus (fst firstCall) = PASS) /\
  totalChecks (fst (execute (apiAt 1000 (answering emptyResponse)) initial
                      (getOk None (Some okAndContains) 300000))) = 1.
Proof.
  split.
  - destruct (C2_total_is_the_evaluated_rules (apiAt 1000 (answering okResponse))
                initial (getOk None (Some okWithin1s) 300000) okResponse
                eq_refl eq_refl eq_refl) as (Ht & _ & _ & Hv & _).
    split; [exact Ht|]. split; [reflexivity|]. apply Hv. reflexivity.
  - destruct (C2_total_is_the_evaluated_rules (apiAt 1000 (answering emptyResponse))
                initial (getOk None (Some okAndContains) 300000) emptyResponse
                eq_refl eq_refl eq_refl) as (Ht & _).
    exact Ht.
Defined.

End ValidationClaims.



(** ** C8: rejected submissions *)
Section HandlerClaims.
Import A2A Scenario.

Lemma validate_lacking env req :
  lacking req -> exists details, validate env req = inl details.
Proof.
  destruct req as [message | body]; [intros _; eexists; reflexivity|].
  unfold lacking, validate. intros H.
  destruct (webhookUrlOf body) as [u|], (webhookTokenOf body) as [t|],
    (mainPromptOf body) as [p|];
    destruct body; try (eexists; reflexivity);
    destruct H as [H | [H | H]]; rewrite ?H, ?andb_false_r; cbn [andb];
    try (eexists; reflexivity);
    destruct (truthy (Some u) && truthy (Some t)); eexists; reflexivity.
Qed.

(** A complete submission is accepted with 202 and sets off the agent
    run, which ends in one push to the callback address. *)
Example complete_submission_is_accepted :
  httpStatus (fst (telexA2AHandler oneAgent "apiTestAgent" (inr complete))) = 202 /\
  List.length (filter (fun e => isPush e = true)
                 (snd (telexA2AHandler oneAgent "apiTestAgent" (inr complete)))) = 1%nat.
Proof. split; reflexivity. Qed.

(** C8.  A submission that lacks the callback address, the callback
    token or a non-empty instruction text is answered synchronously with
    the structured error response (status "error", status_code 500, a
    message, and the cause under data.details), and the handler sets
    nothing off: no agent run is started and no callback push is
    attempted. *)
Theorem C8_invalid_submission_is_rejected env agentId req :
  lacking req ->
  exists details,
    telexA2AHandler env agentId req =
      ({| httpStatus := 500;
          payload := ErrorBody 500 "Internal Server Error" details |}, []).
Proof.
  intros H. destruct (validate_lacking env req H) as [details Hv].
  exists details. unfold telexA2AHandler. rewrite Hv. reflexivity.
Qed.

Lemma C8_invalid_submission_is_rejected_witness :
  lacking (inr noCallback) /\
  telexA2AHandler oneAgent "apiTestAgent" (inr noCallback) =
    ({| httpStatus := 500;
        payload := ErrorBody 500 "Internal Server Error" missingConfig |}, []).
Proof.
  assert (H : lacking (inr noCallback)) by (left; reflexivity).
  split; [exact H|].
  destruct (C8_invalid_submission_is_rejected oneAgent "apiTestAgent"
              (inr noCallback) H) as [details Hd].
  rewrite Hd. vm_compute in Hd. injection Hd as <-. reflexivity.
Defined.

End HandlerClaims.

(** * Further properties *)

(** ** Health checks along a run *)
Section HealthRuns.
Import Health Runs Scenario.

Lemma execute_refresh w st ctx :
  (cached (fst (execute w st ctx)) = false -> execute w st ctx = refresh w st ctx) /\
  cached (fst (refresh w st ctx)) = false.
Proof.
  split; [|apply refresh_logs].
  unfold execute.
  destruct (isFresh (ageOf (healthCache st) (now w)) (cacheTTL ctx)),
    (status (healthCache st)), (ageOf (healthCache st) (now w)),
    (timestamp (healthCache st)); simpl; first [discriminate | reflexivity].
Qed.

(** From the second observation on, a check that goes to the network
    reports [statusChanged = true] exactly when the status it finds differs
    from the stored one, whether the request was answered or threw. *)
Theorem health_change_follows_previous_status w st ctx prev :
  status (healthCache st) = Some prev ->
  cached (fst (execute w st ctx)) = false ->
  statusChanged (fst (execute w st ctx)) =
    Some (negb (Status_eqb prev (r_status (fst (execute w st ctx))))).
Proof.
  intros Hprev Hmiss. rewrite (proj1 (execute_refresh w st ctx) Hmiss).
  unfold refresh. rewrite Hprev.
  destruct (fetch w (targetUrl ctx)); simpl; [reflexivity|].
  now destruct prev.
Qed.

Lemma health_change_follows_previous_status_witness :
  statusChanged (fst (execute (healthAt 400000 onlyAUp) afterA (checkOf urlB 300000))) =
    Some true /\
  r_status (fst (execute (healthAt 400000 onlyAUp) afterA (checkOf urlB 300000))) = DOWN.
Proof.
  pose proof (health_change_follows_previous_status (healthAt 400000 onlyAUp) afterA
                (checkOf urlB 300000) UP eq_refl eq_refl) as H.
  split; [rewrite H; reflexivity | reflexivity].
Defined.

(** After any call the cell holds the status that the call returned and a
    timestamp: the unknown state is left at the first check and never
    entered again. *)
Theorem health_status_known_after_call w st ctx :
  status (healthCache (snd (execute w st ctx))) =
    Some (r_status (fst (execute w st ctx))) /\
  timestamp (healthCache (snd (execute w st ctx))) <> None.
Proof.
  unfold execute, refresh, ageOf, isFresh.
  destruct st as [[[prev|] [t|] le] log]; simpl;
    try (destruct (Z.eqb_spec t 0); simpl);
    try (destruct (Z.ltb_spec (now w - t) (cacheTTL ctx)); simpl);
    try (destruct (fetch w (targetUrl ctx)); simpl);
    split; first [reflexivity | discriminate].
Qed.

Lemma execute_keeps_cellOk w st ctx :
  cellOk (healthCache st) -> cellOk (healthCache (snd (execute w st ctx))).
Proof.
  intros Hok.
  destruct (health_hit_or_miss w st ctx) as [[_ ->] | (Hc & _)]; [exact Hok|].
  rewrite (proj1 (execute_refresh w st ctx) Hc). unfold refresh, cellOk.
  destruct (fetch w (targetUrl ctx)); simpl;
    (split; [split; discriminate | intros m; try discriminate; auto]).
Qed.

(** Along any run of checks from the empty cell, status and timestamp are
    set together and an error message is remembered only while the status
    is DOWN. *)
Theorem health_cell_stays_coherent calls :
  cellOk (healthCache (snd (healthAll initial calls))).
Proof.
  assert (H : forall st, cellOk (healthCache st) ->
                         cellOk (healthCache (snd (healthAll st calls)))).
  { induction calls as [|[w ctx] calls IH]; intros st Hok; [exact Hok|].
    cbn [healthAll snd]. apply IH, execute_keeps_cellOk, Hok. }
  apply H. split; [split; reflexivity | discriminate].
Qed.

(** Every health check sends at most one request: along a run, the
    number of requests sent is the number of results not served from the
    cache. *)
Theorem health_one_request_per_miss st calls :
  List.length (outbound (snd (healthAll st calls))) =
    (List.length (outbound st) + healthMisses (fst (healthAll st calls)))%nat.
Proof.
  revert st. induction calls as [|[w ctx] calls IH]; intros st.
  - unfold healthMisses. simpl. lia.
  - cbn [healthAll fst snd]. rewrite IH. unfold healthMisses. cbn [List.filter].
    destruct (health_hit_or_miss w st ctx) as [[Hc ->] | (Hc & Hlog & _)];
      rewrite Hc; cbn [negb List.length].
    + lia.
    + rewrite Hlog, length_app. simpl. lia.
Qed.

End HealthRuns.

(** ** API tests along a run *)
Section TestRuns.
Import ApiTest Rules Runs Scenario.

(** A call reads and writes the entry of its own key only: the entries
    under every other key are what they were. *)
Theorem execute_leaves_other_keys w st ctx k :
  k <> cacheKey ctx ->
  testCache (snd (execute w st ctx)) !! k = testCache st !! k.
Proof.
  intros Hk. unfold execute.
  destruct (isCacheFresh w ctx (testCache st !! cacheKey ctx)),
    (testCache st !! cacheKey ctx); cbn [snd]; try reflexivity;
    destruct (perform_stores w st ctx) as (_ & _ & e & -> & _);
    now apply lookup_insert_ne.
Qed.

Lemma execute_leaves_other_keys_witness :
  testCache (snd (execute (apiAt 2000 refusing) (snd firstCall)
                    {| url := "https://example.test/other"; method := POST;
                       headers := None; body := Some "x"; expectations := None;
                       cacheTTL := 300000; timeout := 10000 |}))
    !! cacheKey (getOk None None 0) =
  testCache (snd firstCall) !! cacheKey (getOk None None 0).
Proof.
  apply (execute_leaves_other_keys (apiAt 2000 refusing) (snd firstCall)).
  discriminate.
Defined.

Lemma execute_hit_or_miss w st ctx :
  (cached (fst (execute w st ctx)) = true /\ snd (execute w st ctx) = st /\
   exists e, testCache st !! cacheKey ctx = Some e /\
             fst (execute w st ctx) = markCached (ce_result e)) \/
  (cached (fst (execute w st ctx)) = false /\ execute w st ctx = perform w st ctx).
Proof.
  unfold execute.
  destruct (isCacheFresh w ctx (testCache st !! cacheKey ctx)),
    (testCache st !! cacheKey ctx) as [e|]; cbn [fst snd];
    try (right; split; [apply perform_stores | reflexivity]).
  left. split; [reflexivity|]. split; [reflexivity|]. exists e. split; reflexivity.
Qed.


Lemma perform_resultOk w st ctx : resultOk (fst (perform w st ctx)).
Proof.
  destruct (perform_verdict w st ctx) as [Hb Hv].
  unfold resultOk. repeat split; try apply Hb; try apply Hv.
  - unfold perform, attempt.
    destruct (fetch w (url ctx) (fetchOptions ctx)) as [resp|msg]; simpl; [|lia].
    destruct (runChecks _ _ _ _ _) as [bad|t] eqn:E; simpl; [lia|].
    destruct (runChecks_counts _ _ _ _ _ _ E) as [Ht Hp].
    destruct (implicitCheck_counts resp t _ Ht Hp) as (Hn & _).
    rewrite Hn. destruct (Z.eqb_spec (countedRules (responseBodyOf resp) (expectations ctx)) 0);
      lia.
  - unfold perform, attempt.
    destruct (fetch w (url ctx) (fetchOptions ctx)) as [resp|msg]; simpl; [|reflexivity].
    destruct (runChecks _ _ _ _ _) as [bad|t]; reflexivity.
Qed.

Lemma markCached_resultOk r : resultOk r -> resultOk (markCached r).
Proof. intros H. exact H. Qed.

Lemma perform_timestamp w st ctx : timestamp (fst (perform w st ctx)) = now w.
Proof.
  unfold perform, attempt.
  destruct (fetch w (url ctx) (fetchOptions ctx)) as [resp|msg]; simpl; [|reflexivity].
  destruct (runChecks _ _ _ _ _) as [bad|t]; reflexivity.
Qed.

Lemma execute_keeps_cacheOk w st ctx :
  cacheOk st -> cacheOk (snd (execute w st ctx)) /\ resultOk (fst (execute w st ctx)).
Proof.
  intros Hok.
  destruct (execute_hit_or_miss w st ctx) as [(_ & -> & e & He & ->) | (_ & ->)].
  - split; [exact Hok|]. apply markCached_resultOk, (Hok _ _ He).
  - split; [|apply perform_resultOk].
    destruct (perform_stores w st ctx) as (Hc & _ & e & Hmap & Hres & Hts & Hst).
    intros k e' Hk. rewrite Hmap in Hk.
    destruct (decide (cacheKey ctx = k)) as [<-|Hne].
    + rewrite lookup_insert_eq in Hk. injection Hk as <-.
      unfold entryOk. rewrite Hres, Hts, Hst, perform_timestamp.
      repeat split; try exact Hc; apply perform_resultOk.
    + rewrite lookup_insert_ne in Hk by exact Hne. exact (Hok _ _ Hk).
Qed.

(** Along any run from the empty cache, every result returned, from the
    network or from the cache, has a coherent summary (at least one check,
    the passes within the total, the failures their difference, PASS iff
    all passed), and every stored entry agrees with the result it holds. *)
Theorem results_stay_coherent calls :
  Forall resultOk (fst (executeAll initial calls)) /\
  cacheOk (snd (executeAll initial calls)).
Proof.
  assert (H : forall st, cacheOk st ->
                         Forall resultOk (fst (executeAll st calls)) /\
                         cacheOk (snd (executeAll st calls))).
  { induction calls as [|[w ctx] calls IH]; intros st Hok.
    - split; [constructor | exact Hok].
    - cbn [executeAll fst snd].
      destruct (execute_keeps_cacheOk w st ctx Hok) as [Hst Hr].
      destruct (IH _ Hst) as [Hrs Hfin].
      split; [constructor; assumption | exact Hfin]. }
  apply H. intros k e Hk. unfold initial in Hk. cbn [testCache] in Hk.
  rewrite lookup_empty in Hk. discriminate.
Qed.



Lemma mapHeaderChecks_invalid hs l total passed :
  forallb (fun h => isHeaderName (JS.toLowerCase h)) l = false ->
  exists bad, isHeaderName bad = false /\ In bad (map JS.toLowerCase l) /\
              mapHeaderChecks hs l total passed = inl bad.
Proof.
  revert total passed. induction l as [|h l IH]; intros total passed; [discriminate|].
  cbn [forallb mapHeaderChecks map]. unfold headersHas.
  destruct (isHeaderName (JS.toLowerCase h)) eqn:Eh.
  - cbn [andb]. intros Hl.
    destruct (IH (total + 1)
                (bump (existsb (fun kv => sameName (fst kv) (JS.toLowerCase h)) hs) passed) Hl)
      as (bad & Hbad & Hin & ->).
    exists bad. repeat split; [exact Hbad | right; exact Hin].
  - intros _. exists (JS.toLowerCase h). repeat split; [exact Eh | left; reflexivity].
Qed.

(** A required header whose lower-cased name is not a header name makes
    the presence test throw: the call then returns the failure result, with
    one check, none passed and the platform's message as error, whatever the
    response and the other rules say, and that result is what is cached. *)
Theorem invalid_header_name_fails_the_test w st ctx resp :
  isCacheFresh w ctx (testCache st !! cacheKey ctx) = false ->
  fetch w (url ctx) (fetchOptions ctx) = FetchOk resp ->
  namesValid (expectations ctx) = false ->
  exists bad,
    isHeaderName bad = false /\
    fst (execute w st ctx) = failureResult w ctx (headerNameError w bad) /\
    (ce_result <$> testCache (snd (execute w st ctx)) !! cacheKey ctx) =
      Some (failureResult w ctx (headerNameError w bad)).
Proof.
  intros Hmiss Hfetch Hbad. rewrite (execute_miss _ _ _ Hmiss).
  unfold perform, attempt. rewrite Hfetch. cbn zeta.
  unfold namesValid in Hbad. destruct (expectations ctx) as [e|]; [|discriminate].
  unfold runChecks, checkRequiredHeaders.
  destruct (requiredHeaders e) as [l|]; [|discriminate].
  match goal with
  | |- context [mapHeaderChecks ?hs l ?t ?p] =>
      destruct (mapHeaderChecks_invalid hs l t p Hbad) as (bad & Hn & _ & ->)
  end.
  exists bad. cbn [fst snd testCache]. rewrite lookup_insert_eq.
  repeat split. exact Hn.
Qed.

Lemma invalid_header_name_fails_the_test_witness :
  testStatus
    (fst (execute (apiAt 1000 (answering okResponse)) initial
            (getOk None
               (Some {| statusCode := Some 200; statusCodeRange := None;
                        maxResponseTime := None; bodyContains := None;
                        bodyNotContains := None;
                        requiredHeaders := Some ["Content Type"];
                        responseType := None |}) 300000))) = FAIL.
Proof.
  destruct (invalid_header_name_fails_the_test (apiAt 1000 (answering okResponse))
              initial
              (getOk None
                 (Some {| statusCode := Some 200; statusCodeRange := None;
                          maxResponseTime := None; bodyContains := None;
                          bodyNotContains := None;
                          requiredHeaders := Some ["Content Type"];
                          responseType := None |}) 300000)
              okResponse eq_refl eq_refl eq_refl) as (bad & _ & Hres & _).
  rewrite Hres. reflexivity.
Defined.

End TestRuns.

(** ** The validation block against its declarative reading *)
Section VerdictFacts.
Import ApiTest Rules Verdicts Scenario.

Lemma passes_app a b : passes (a ++ b) = passes a + passes b.
Proof. induction a as [|x a IH]; simpl; [reflexivity | rewrite IH; lia]. Qed.

Lemma passes_bounds vs : 0 <= passes vs <= Z.of_nat (List.length vs).
Proof. induction vs as [|[] vs IH]; simpl List.length; simpl passes; lia. Qed.

Lemma passes_all vs :
  passes vs = Z.of_nat (List.length vs) <-> forallb id vs = true.
Proof.
  induction vs as [|b vs IH]; simpl List.length; simpl passes; simpl forallb.
  - tauto.
  - pose proof (passes_bounds vs). destruct b; simpl.
    + rewrite <- IH. lia.
    + split; [lia | discriminate].
Qed.

Lemma bump_passes b n : bump b n = n + passes [b].
Proof. destruct b; simpl; lia. Qed.

Lemma adds_trans u v t1 t2 t3 : adds u t1 t2 -> adds v t2 t3 -> adds (u ++ v) t1 t3.
Proof. unfold adds. rewrite length_app, passes_app. lia. Qed.

Lemma mapChecks_exact test l total passed :
  snd (mapChecks test l total passed) =
    (total + Z.of_nat (List.length l), passed + passes (map test l)).
Proof.
  revert total passed. induction l as [|x l IH]; intros total passed.
  - simpl. f_equal; lia.
  - cbn [mapChecks snd map List.length passes]. rewrite IH, bump_passes.
    simpl passes. f_equal; lia.
Qed.

Lemma mapHeaderChecks_exact hs l total passed res :
  mapHeaderChecks hs l total passed = inr res ->
  res = (map (fun h => (h, existsb (fun kv => sameName (fst kv) (JS.toLowerCase h)) hs)) l,
         (total + Z.of_nat (List.length l),
          passed + passes (map (fun h => existsb (fun kv => sameName (fst kv)
                                                            (JS.toLowerCase h)) hs) l))).
Proof.
  revert total passed res. induction l as [|h l IH]; intros total passed res.
  - simpl. intros [= <-]. f_equal; try reflexivity; f_equal; lia.
  - cbn [mapHeaderChecks]. unfold headersHas.
    destruct (isHeaderName (JS.toLowerCase h)); [|discriminate].
    destruct (mapHeaderChecks hs l _ _) as [|r] eqn:E; [discriminate|].
    intros [= <-]. rewrite (IH _ _ _ E). cbn [fst snd map List.length passes].
    rewrite bump_passes. simpl passes. f_equal; try reflexivity; f_equal; lia.
Qed.

Lemma checkStatusCode_adds r e t :
  adds (one (statusCode e) (fun c => status r =? c)) t (checkStatusCode r e t).
Proof.
  unfold checkStatusCode, adds, one. destruct (statusCode e); cbn; [|lia].
  rewrite bump_passes. simpl. lia.
Qed.

Lemma checkStatusCodeRange_adds r e t :
  adds (one (statusCodeRange e)
          (fun range => (fst range <=? status r) && (status r <=? snd range)))
       t (checkStatusCodeRange r e t).
Proof.
  unfold checkStatusCodeRange, adds, one. destruct (statusCodeRange e) as [[lo hi]|]; cbn;
    [|lia].
  rewrite bump_passes. simpl. lia.
Qed.

Lemma checkResponseTime_adds rt e t :
  adds (one (maxResponseTime e) (fun m => rt <=? m)) t (checkResponseTime rt e t).
Proof.
  unfold checkResponseTime, adds, one. destruct (maxResponseTime e); cbn; [|lia].
  rewrite bump_passes. simpl. lia.
Qed.

Lemma checkBodyContains_adds b e t :
  adds (if JS.truthyStr b then each (bodyContains e) (JS.includes b) else [])
       t (checkBodyContains b e t).
Proof.
  unfold checkBodyContains, adds, each.
  destruct (bodyContains e) as [l|], (JS.truthyStr b); cbn [t_total t_passed];
    try (simpl; lia).
  rewrite mapChecks_exact. cbn [fst snd]. rewrite length_map. lia.
Qed.

Lemma checkBodyNotContains_adds b e t :
  adds (if JS.truthyStr b
        then each (bodyNotContains e) (fun x => negb (JS.includes b x)) else [])
       t (checkBodyNotContains b e t).
Proof.
  unfold checkBodyNotContains, adds, each.
  destruct (bodyNotContains e) as [l|], (JS.truthyStr b); cbn [t_total t_passed];
    try (simpl; lia).
  rewrite mapChecks_exact. cbn [fst snd]. rewrite length_map. lia.
Qed.

Lemma checkRequiredHeaders_adds r e t t' :
  checkRequiredHeaders r e t = inr t' ->
  adds (each (requiredHeaders e)
          (fun h => existsb (fun kv => sameName (fst kv) (JS.toLowerCase h)) (entries r)))
       t t' /\
  restSlots (t_validations t') =
    (v_responseTime (t_validations t),
     match requiredHeaders e with
     | Some l =>
         Some (map (fun h => (h, existsb (fun kv => sameName (fst kv) (JS.toLowerCase h))
                                   (entries r))) l)
     | None => v_headers (t_validations t)
     end,
     v_responseType (t_validations t)).
Proof.
  unfold checkRequiredHeaders, adds, each. destruct (requiredHeaders e) as [l|].
  - destruct (mapHeaderChecks _ _ _ _) as [|res] eqn:E; [discriminate|].
    intros [= <-]. rewrite (mapHeaderChecks_exact _ _ _ _ _ E).
    cbn [t_total t_passed fst snd]. rewrite length_map. repeat split; lia.
  - intros [= <-]. simpl. repeat split; lia.
Qed.

Lemma checkResponseType_adds ct e t :
  adds (one (responseType e) (fun want => ResponseType_eqb (actualType ct) want))
       t (checkResponseType ct e t).
Proof.
  unfold checkResponseType, adds, one. destruct (responseType e); cbn; [|lia].
  rewrite bump_passes. simpl. lia.
Qed.

(** The counters after the block are the number of evaluated rules and
    the number of their passing verdicts. *)
Lemma runChecks_exact r ct b rt e t :
  runChecks r ct b rt (Some e) = inr t ->
  t_total t = Z.of_nat (List.length (verdicts r ct b rt e)) /\
  t_passed t = passes (verdicts r ct b rt e).
Proof.
  unfold runChecks.
  destruct (checkRequiredHeaders _ _ _) as [|t6] eqn:E6; [discriminate|].
  intros [= <-].
  pose proof (adds_trans _ _ _ _ _ (checkStatusCode_adds r e startTally)
                (checkStatusCodeRange_adds r e _)) as G.
  pose proof (adds_trans _ _ _ _ _ G (checkResponseTime_adds rt e _)) as G3.
  pose proof (adds_trans _ _ _ _ _ G3 (checkBodyContains_adds b e _)) as G4.
  pose proof (adds_trans _ _ _ _ _ G4 (checkBodyNotContains_adds b e _)) as G5.
  pose proof (adds_trans _ _ _ _ _ G5 (proj1 (checkRequiredHeaders_adds _ _ _ _ E6))) as G6.
  pose proof (adds_trans _ _ _ _ _ G6 (checkResponseType_adds ct e t6)) as G7.
  unfold adds in G7. cbn [t_total t_passed startTally] in G7.
  unfold verdicts. rewrite <- !app_assoc in G7. destruct G7 as [-> ->]. split; lia.
Qed.

Lemma checkStatusCode_rest r e t :
  restSlots (t_validations (checkStatusCode r e t)) = restSlots (t_validations t).
Proof. unfold checkStatusCode. destruct (statusCode e); reflexivity. Qed.

Lemma checkStatusCodeRange_rest r e t :
  restSlots (t_validations (checkStatusCodeRange r e t)) = restSlots (t_validations t).
Proof. unfold checkStatusCodeRange. destruct (statusCodeRange e) as [[lo hi]|]; reflexivity. Qed.

Lemma checkResponseTime_rest rt e t :
  restSlots (t_validations (checkResponseTime rt e t)) =
    (match maxResponseTime e with
     | Some m => Some {| rt_maxAllowed := m; rt_actual := rt; rt_passed := rt <=? m |}
     | None => v_responseTime (t_validations t)
     end,
     v_headers (t_validations t), v_responseType (t_validations t)).
Proof. unfold checkResponseTime. destruct (maxResponseTime e); reflexivity. Qed.

Lemma checkBodyContains_rest b e t :
  restSlots (t_validations (checkBodyContains b e t)) = restSlots (t_validations t).
Proof.
  unfold checkBodyContains. destruct (bodyContains e), (JS.truthyStr b); reflexivity.
Qed.

Lemma checkBodyNotContains_rest b e t :
  restSlots (t_validations (checkBodyNotContains b e t)) = restSlots (t_validations t).
Proof.
  unfold checkBodyNotContains. destruct (bodyNotContains e), (JS.truthyStr b); reflexivity.
Qed.

Lemma checkResponseType_rest ct e t :
  restSlots (t_validations (checkResponseType ct e t)) =
    (v_responseTime (t_validations t), v_headers (t_validations t),
     match responseType e with
     | Some want =>
         Some {| ty_expected := want; ty_actual := actualType ct;
                 ty_passed := ResponseType_eqb (actualType ct) want |}
     | None => v_responseType (t_validations t)
     end).
Proof. unfold checkResponseType. destruct (responseType e); reflexivity. Qed.

(** What the block records: every evaluated verdict, except that with both
    status rules declared the verdict of the exact rule, the first one, is
    overwritten by that of the range rule. *)
Lemma runChecks_recorded r ct b rt e t :
  runChecks r ct b rt (Some e) = inr t ->
  recorded (t_validations t) =
    match statusCode e, statusCodeRange e with
    | Some _, Some _ => tl (verdicts r ct b rt e)
    | _, _ => verdicts r ct b rt e
    end.
Proof.
  intros Hrun. pose proof (runChecks_slots _ _ _ _ _ _ Hrun) as Hkey.
  unfold keySlots in Hkey. injection Hkey as Hsc Hbc Hbnc.
  unfold runChecks in Hrun.
  destruct (checkRequiredHeaders _ _ _) as [|t6] eqn:E6; [discriminate|].
  injection Hrun as <-.
  pose proof (checkResponseType_rest ct e t6) as H7.
  destruct (checkRequiredHeaders_adds _ _ _ _ E6) as [_ H6].
  unfold restSlots in H6. injection H6 as H6a H6b H6c.
  rewrite H6a, H6b, H6c in H7. clear H6a H6b H6c.
  pose proof (checkBodyNotContains_rest b e
                (checkBodyContains b e
                   (checkResponseTime rt e
                      (checkStatusCodeRange r e (checkStatusCode r e startTally))))) as H5.
  rewrite checkBodyContains_rest, checkResponseTime_rest in H5.
  pose proof (checkStatusCodeRange_rest r e (checkStatusCode r e startTally)) as H2.
  rewrite checkStatusCode_rest in H2. unfold restSlots in H2. injection H2 as H2a H2b H2c.
  rewrite H2a, H2b, H2c in H5. unfold restSlots in H5. injection H5 as H5a H5b H5c.
  rewrite H5a, H5b, H5c in H7. unfold restSlots in H7. injection H7 as H7a H7b H7c.
  unfold recorded. rewrite Hsc, Hbc, Hbnc, H7a, H7b, H7c.
  unfold verdicts, statusSlot, containsSlot, notContainsSlot, one, each, outcomes.
  cbn [startTally t_validations noValidations v_headers v_responseType].
  destruct (statusCode e), (statusCodeRange e) as [[lo hi]|], (maxResponseTime e),
    (JS.truthyStr b), (bodyContains e), (bodyNotContains e), (requiredHeaders e),
    (responseType e);
    cbn [fmap option_fmap option_map app tl sc_passed rt_passed ty_passed fst snd];
    rewrite ?map_map; cbn [snd]; rewrite ?app_nil_r; reflexivity.
Qed.

End VerdictFacts.

(** ** Verdicts and results *)
Section VerdictResults.
Import ApiTest Rules Verdicts Scenario.

(** For a call that obtains a response (required header names valid) and
    evaluates at least one declared rule, [totalChecks] is the number of
    evaluated rules, [passedChecks] the number of them that pass, and the
    test is PASS exactly when every evaluated rule passes.  When no rule is
    evaluated, there is one check and the test is PASS exactly when the
    HTTP status is in 200-299. *)
Theorem pass_iff_every_evaluated_rule_passes w st ctx resp e :
  isCacheFresh w ctx (testCache st !! cacheKey ctx) = false ->
  fetch w (url ctx) (fetchOptions ctx) = FetchOk resp ->
  expectations ctx = Some e ->
  namesValid (Some e) = true ->
  (verdicts resp (contentTypeOf resp) (responseBodyOf resp)
     (endTime w - startTime w) e <> [] ->
   totalChecks (fst (execute w st ctx)) =
     Z.of_nat (List.length (verdicts resp (contentTypeOf resp) (responseBodyOf resp)
                              (endTime w - startTime w) e)) /\
   passedChecks (fst (execute w st ctx)) =
     passes (verdicts resp (contentTypeOf resp) (responseBodyOf resp)
               (endTime w - startTime w) e) /\
   (testStatus (fst (execute w st ctx)) = PASS <->
    forallb id (verdicts resp (contentTypeOf resp) (responseBodyOf resp)
                  (endTime w - startTime w) e) = true)) /\
  (verdicts resp (contentTypeOf resp) (responseBodyOf resp)
     (endTime w - startTime w) e = [] ->
   totalChecks (fst (execute w st ctx)) = 1 /\
   (testStatus (fst (execute w st ctx)) = PASS <-> 200 <= status resp <= 299)).
Proof.
  intros Hmiss Hfetch He Hvalid. rewrite <- He in Hvalid.
  destruct (execute_validated w st ctx resp Hmiss Hfetch Hvalid) as (t & Ht & Hres).
  rewrite He in Ht. destruct (runChecks_exact _ _ _ _ _ _ Ht) as [Htot Hpas].
  set (vs := verdicts resp (contentTypeOf resp) (responseBodyOf resp)
               (endTime w - startTime w) e) in *.
  rewrite Hres. unfold successResult, implicitCheck.
  cbn [totalChecks passedChecks testStatus]. split.
  - intros Hne.
    assert (Hpos : t_total t <> 0) by (rewrite Htot; destruct vs; [congruence | simpl; lia]).
    destruct (Z.eqb_spec (t_total t) 0) as [|_]; [contradiction|].
    split; [exact Htot|]. split; [exact Hpas|].
    rewrite <- passes_all, <- Htot, <- Hpas.
    destruct (Z.eqb_spec (t_passed t) (t_total t)); split; intros H;
      first [reflexivity | assumption | discriminate | contradiction].
  - intros Hnil. rewrite Hnil in Htot. simpl in Htot. rewrite Htot. cbn [Z.eqb t_total t_passed].
    split; [reflexivity|]. rewrite <- statusOk_spec.
    destruct (JS.statusOk (status resp)); simpl; split; intros H;
      first [reflexivity | discriminate].
Qed.

Lemma pass_iff_every_evaluated_rule_passes_witness :
  totalChecks (fst firstCall) = 2 /\
  passedChecks (fst firstCall) = 2 /\
  testStatus (fst firstCall) = PASS.
Proof.
  destruct (proj1 (pass_iff_every_evaluated_rule_passes
                     (apiAt 1000 (answering okResponse)) initial
                     (getOk None (Some okWithin1s) 300000) okResponse okWithin1s
                     eq_refl eq_refl eq_refl eq_refl) ltac:(discriminate))
    as (Ht & Hp & Hv).
  split; [exact Ht|]. split; [exact Hp|]. apply Hv. reflexivity.
Defined.

(** For a call that obtains a response (required header names valid), the
    outcomes recorded in [validations] are the verdicts of the evaluated
    rules in order, except that with both status rules declared the verdict
    of the exact rule is absent (the range rule overwrote it) although it
    was counted.  So with at most one status rule declared and some rule
    evaluated, the summary can be recomputed from the details:
    [totalChecks] is the number of recorded outcomes and [passedChecks] the
    number of recorded passes. *)
Theorem validations_record_the_verdicts w st ctx resp e :
  isCacheFresh w ctx (testCache st !! cacheKey ctx) = false ->
  fetch w (url ctx) (fetchOptions ctx) = FetchOk resp ->
  expectations ctx = Some e ->
  namesValid (Some e) = true ->
  (recorded <$> validations (fst (execute w st ctx))) =
    Some (match statusCode e, statusCodeRange e with
          | Some _, Some _ =>
              tl (verdicts resp (contentTypeOf resp) (responseBodyOf resp)
                    (endTime w - startTime w) e)
          | _, _ =>
              verdicts resp (contentTypeOf resp) (responseBodyOf resp)
                (endTime w - startTime w) e
          end) /\
  (statusCode e = None \/ statusCodeRange e = None ->
   verdicts resp (contentTypeOf resp) (responseBodyOf resp)
     (endTime w - startTime w) e <> [] ->
   exists v,
     validations (fst (execute w st ctx)) = Some v /\
     totalChecks (fst (execute w st ctx)) = Z.of_nat (List.length (recorded v)) /\
     passedChecks (fst (execute w st ctx)) = passes (recorded v)).
Proof.
  intros Hmiss Hfetch He Hvalid.
  rewrite <- He in Hvalid.
  destruct (execute_validated w st ctx resp Hmiss Hfetch Hvalid) as (t & Ht & Hres).
  rewrite He in Ht. pose proof (runChecks_recorded _ _ _ _ _ _ Ht) as Hrec.
  destruct (runChecks_exact _ _ _ _ _ _ Ht) as [Htot Hpas].
  assert (Hv : validations (fst (execute w st ctx)) = Some (t_validations t)).
  { rewrite Hres. unfold successResult, implicitCheck. cbn [validations].
    now destruct (t_total t =? 0). }
  split.
  - rewrite Hv. cbn [fmap option_fmap option_map]. now rewrite Hrec.
  - intros Hone Hne. exists (t_validations t). split; [exact Hv|].
    assert (Hpos : t_total t <> 0).
    { rewrite Htot. destruct (verdicts _ _ _ _ _); [congruence | simpl; lia]. }
    rewrite Hres. unfold successResult, implicitCheck.
    cbn [totalChecks passedChecks].
    destruct (Z.eqb_spec (t_total t) 0) as [|_]; [contradiction|].
    rewrite Htot, Hpas, Hrec.
    destruct Hone as [-> | ->]; [split; reflexivity|].
    destruct (statusCode e); split; reflexivity.
Qed.

Lemma validations_record_the_verdicts_witness :
  (recorded <$> validations
                  (fst (execute (apiAt 1000 (answering okResponse)) initial
                          (getOk None (Some exactAndRange) 300000)))) =
    Some [true; true] /\
  testStatus (fst (execute (apiAt 1000 (answering okResponse)) initial
                     (getOk None (Some exactAndRange) 300000))) = FAIL.
Proof.
  destruct (validations_record_the_verdicts (apiAt 1000 (answering okResponse)) initial
              (getOk None (Some exactAndRange) 300000) okResponse exactAndRange
              eq_refl eq_refl eq_refl eq_refl) as [Hrec _].
  split; [rewrite Hrec; reflexivity | reflexivity].
Defined.

End VerdictResults.

(** ** Cache keys determine the request *)
Section KeyFacts.
Import ApiTest Rules Runs Quoting Scenario.

Lemma append_cons x a b : String x a +:+ b = String x (a +:+ b).
Proof. reflexivity. Qed.

Lemma chars_append a b : chars (a +:+ b) = chars a ++ chars b.
Proof.
  induction a as [|c a IH]; [reflexivity|].
  rewrite append_cons. cbn [chars list_ascii_of_string app]. f_equal. exact IH.
Qed.

Lemma chars_inj a b : chars a = chars b -> a = b.
Proof.
  intros H. rewrite <- (string_of_list_ascii_of_string a),
    <- (string_of_list_ascii_of_string b). unfold chars in H. now rewrite H.
Qed.

Lemma append_assoc_str a b c : (a +:+ b) +:+ c = a +:+ (b +:+ c).
Proof.
  induction a as [|x a IH]; [reflexivity|]. rewrite !append_cons. f_equal. exact IH.
Qed.

Lemma unquote_quoteChar c rest :
  unquoteBody (JS.quoteChar c +:+ rest) = String c (unquoteBody rest).
Proof. destruct c as [[] [] [] [] [] [] [] []]; reflexivity. Qed.

(** Reading back what was quoted, up to the closing quote. *)
Lemma unquote_quoteBody s rest :
  unquoteBody (JS.quoteBody s +:+ String JS.dquote rest) = s.
Proof.
  induction s as [|c s IH]; [reflexivity|].
  cbn [JS.quoteBody]. rewrite append_assoc_str, unquote_quoteChar. now rewrite IH.
Qed.

Lemma stringifyString_inj a b : JS.stringifyString a = JS.stringifyString b -> a = b.
Proof.
  unfold JS.stringifyString. intros [= H].
  rewrite <- (unquote_quoteBody a EmptyString), <- (unquote_quoteBody b EmptyString).
  now rewrite H.
Qed.

Lemma quotesEscaped_quoteChar c l b :
  (forall b', quotesEscaped b' l = true) ->
  quotesEscaped b (chars (JS.quoteChar c) ++ l) = true.
Proof.
  intros H. destruct c as [[] [] [] [] [] [] [] []]; vm_compute; apply H.
Qed.

Lemma quotesEscaped_quoteBody s b : quotesEscaped b (chars (JS.quoteBody s)) = true.
Proof.
  revert b. induction s as [|c s IH]; intros b; [reflexivity|].
  cbn [JS.quoteBody]. rewrite chars_append. now apply quotesEscaped_quoteChar.
Qed.

Lemma quotesEscaped_colon_quote d b rest :
  quotesEscaped b (d ++ ":"%char :: JS.dquote :: rest) = false.
Proof.
  revert b. induction d as [|c d IH]; intros b; [reflexivity|].
  cbn [app quotesEscaped]. rewrite IH. apply andb_false_r.
Qed.

Lemma chars_bodyPart b :
  chars (bodyPart b) = ["{"%char; "}"%char] \/
  exists s, b = Some s /\
            chars (bodyPart b) = (JS.dquote :: chars (JS.quoteBody s)) ++ [JS.dquote].
Proof.
  destruct b as [s|]; [right | left; reflexivity].
  exists s. split; [reflexivity|]. unfold bodyPart, JS.stringifyString.
  cbn [chars list_ascii_of_string]. fold (chars (JS.quoteBody s +:+ String JS.dquote "")).
  now rewrite chars_append.
Qed.

(** No body part ends in a colon followed by a body part. *)
Lemma bodyPart_no_inner_split b b' d :
  chars (bodyPart b) <> d ++ ":"%char :: chars (bodyPart b').
Proof.
  intros H.
  destruct (chars_bodyPart b) as [Hb | (s & _ & Hb)]; rewrite Hb in H.
  - apply (f_equal (@List.length ascii)) in H. rewrite length_app in H. cbn in H.
    destruct (chars_bodyPart b') as [Hb' | (s' & _ & Hb')]; rewrite Hb' in H;
      cbn in H; try rewrite length_app in H; cbn in H; lia.
  - destruct (chars_bodyPart b') as [Hb' | (s' & _ & Hb')]; rewrite Hb' in H.
    + change (d ++ [":"%char; "{"%char; "}"%char])
        with (d ++ [":"%char; "{"%char] ++ ["}"%char]) in H.
      rewrite app_assoc in H. apply app_inj_tail in H as [_ H]. discriminate H.
    + change (d ++ ":"%char :: (JS.dquote :: chars (JS.quoteBody s')) ++ [JS.dquote])
        with (d ++ (":"%char :: JS.dquote :: chars (JS.quoteBody s')) ++ [JS.dquote]) in H.
      rewrite app_assoc in H. apply app_inj_tail in H as [H _].
      destruct d as [|c d]; [discriminate H|].
      injection H as _ H.
      pose proof (quotesEscaped_quoteBody s false) as Hok.
      rewrite H, quotesEscaped_colon_quote in Hok. discriminate Hok.
Qed.

Lemma key_tail_inj u1 u2 b1 b2 :
  u1 +:+ ":" +:+ bodyPart b1 = u2 +:+ ":" +:+ bodyPart b2 ->
  u1 = u2 /\ bodyPart b1 = bodyPart b2.
Proof.
  intros H. apply (f_equal chars) in H. rewrite !chars_append in H.
  change (chars ":") with [":"%char] in H. cbn [app] in H.
  apply app_eq_app in H as [l [[Hu Hb] | [Hu Hb]]].
  - destruct l as [|c l].
    + rewrite app_nil_r in Hu. injection Hb as Hb.
      split; apply chars_inj; [exact Hu | now symmetry].
    + injection Hb as Hc Hb. subst c. exfalso. exact (bodyPart_no_inner_split _ _ _ Hb).
  - destruct l as [|c l].
    + rewrite app_nil_r in Hu. injection Hb as Hb.
      split; apply chars_inj; [now symmetry | exact Hb].
    + injection Hb as Hc Hb. subst c. exfalso. exact (bodyPart_no_inner_split _ _ _ Hb).
Qed.

Lemma bodyPart_inj b1 b2 : bodyPart b1 = bodyPart b2 -> b1 = b2.
Proof.
  destruct b1 as [s1|], b2 as [s2|]; cbn [bodyPart]; intros H;
    try reflexivity; try discriminate H.
  now rewrite (stringifyString_inj _ _ H).
Qed.

Lemma cacheKey_bodyPart ctx :
  cacheKey ctx =
    methodName (method ctx) +:+ ":" +:+ url ctx +:+ ":" +:+ bodyPart (bodyOrNone ctx).
Proof.
  unfold cacheKey, bodyOrNone, bodyPart.
  destruct (body ctx) as [b|]; [|reflexivity]. now destruct (JS.truthyStr b).
Qed.

Lemma method_prefix_inj m1 m2 t1 t2 :
  methodName m1 +:+ ":" +:+ t1 = methodName m2 +:+ ":" +:+ t2 -> m1 = m2 /\ t1 = t2.
Proof.
  destruct m1, m2; cbv [methodName String.append]; intros H;
    first [discriminate H | now injection H].
Qed.

Lemma cacheKey_inj ctx1 ctx2 :
  cacheKey ctx1 = cacheKey ctx2 ->
  method ctx1 = method ctx2 /\ url ctx1 = url ctx2 /\
  bodyOrNone ctx1 = bodyOrNone ctx2.
Proof.
  rewrite !cacheKey_bodyPart. intros H. apply method_prefix_inj in H as [Hm H].
  apply key_tail_inj in H as [Hu Hb]. apply bodyPart_inj in Hb. auto.
Qed.

(** Two calls have the same cache key exactly when they agree on the
    method, on the url and on the body, an absent body and an empty one
    being the same: distinct requests never collide on a key. *)
Theorem cacheKey_determines_request ctx1 ctx2 :
  cacheKey ctx1 = cacheKey ctx2 <->
  method ctx1 = method ctx2 /\ url ctx1 = url ctx2 /\
  bodyOrNone ctx1 = bodyOrNone ctx2.
Proof.
  split.
  - apply cacheKey_inj.
  - rewrite !cacheKey_bodyPart. intros (-> & -> & ->). reflexivity.
Qed.


End KeyFacts.

(** ** The asynchronous handler on accepted submissions *)
Section AcceptedFacts.
Import A2A Callbacks Scenario.

Lemma validate_complete env reqBody u t p :
  completeSubmission reqBody u t p ->
  validate env (inr reqBody) =
    inr {| requestId := member reqBody "id";
           contextId := member (paramsOf reqBody) "contextId";
           taskId := member (paramsOf reqBody) "taskId";
           webhookUrl := u; webhookToken := t; mainPrompt := p |}.
Proof.
  intros (Hu & Htu & Ht & Htt & Hp & Htp). unfold validate.
  destruct reqBody; try discriminate Hp;
    rewrite Hu, Ht, Htu, Htt, Hp, Htp; reflexivity.
Qed.

Lemma lookupLast_result ms v :
  lookupLast "result" (ms ++ [("result", v)]) = Some v.
Proof.
  induction ms as [|[k' v'] ms IH]; [reflexivity|].
  cbn [app lookupLast]. now rewrite IH.
Qed.

Lemma resultId_payload env agentId task r n :
  resultId (resultPayload env agentId task r n) =
    Some (fst (orUuid env (taskId task)
                 (match toolResults r with [] => S n | _ => S (S n) end))).
Proof.
  unfold resultId, resultPayload, member.
  change (("jsonrpc", JStr "2.0") :: optMember "id" (requestId task) ++ ?x)
    with ((("jsonrpc", JStr "2.0") :: optMember "id" (requestId task)) ++ x).
  rewrite lookupLast_result.
  cbn [chain]. destruct (toolResults r); reflexivity.
Qed.

Lemma orUuid_position env v n :
  (truthy v = true /\ Some (fst (orUuid env v n)) = v /\ snd (orUuid env v n) = n) \/
  (truthy v = false /\ fst (orUuid env v n) = JStr (uuid env n) /\
   snd (orUuid env v n) = S n).
Proof.
  unfold orUuid. destruct v as [x|]; [|right; auto].
  destruct (truthy (Some x)) eqn:E; [left | right]; auto.
Qed.


End AcceptedFacts.




(** ** The synchronous handler *)
Section SyncFacts.
Import A2A A2ASync Callbacks Scenario.

Lemma notVersion2_false v : notVersion2 v = false -> v = Some (JStr "2.0").
Proof.
  destruct v as [[| | |s| |]|]; simpl; try discriminate.
  intros H. apply negb_false_iff, String.eqb_eq in H. now subst.
Qed.

Lemma lookupLast_error_payload env agentId task r n :
  member (resultPayload env agentId task r n) "error" = None.
Proof.
  unfold resultPayload, member. destruct (requestId task); reflexivity.
Qed.

Lemma resultState_payload env agentId task r n :
  resultState (resultPayload env agentId task r n) = Some (JStr "completed").
Proof.
  unfold resultState, resultPayload, member.
  change (("jsonrpc", JStr "2.0") :: optMember "id" ?q ++ ?x)
    with ((("jsonrpc", JStr "2.0") :: optMember "id" q) ++ x).
  rewrite lookupLast_result. reflexivity.
Qed.

(** Case analysis following the branches of the synchronous handler. *)
Ltac sync_cases env agentId req :=
  unfold A2ASync.telexA2AHandler;
  destruct req as [message | reqBody];
  [ | destruct (notVersion2 (member reqBody "jsonrpc")) eqn:Ever,
        (truthy (member reqBody "id")) eqn:Eid,
        (lookupError env agentId) as [thrown|] eqn:Elookup,
        (getAgent env agentId) as [generate|] eqn:Eagent,
        (mainPromptOf reqBody) as [p|] eqn:Eprompt;
      try destruct (truthy (Some p)) eqn:Etp;
      try destruct (toStringOk p) eqn:Estr;
      try destruct (generate p) as [r | message] eqn:Egen;
      destruct reqBody ];
  cbn [fst snd orb negb A2ASync.httpStatus A2ASync.body].

(** The synchronous handler answers every request with one of four
    replies, and the HTTP status tells the JSON-RPC outcome: 200 carries a
    completed result and no error; 400 carries error -32600; 404 carries
    error -32602; 500 carries error -32603 and a null id.  No error reply
    carries a result. *)
Theorem sync_status_tells_the_outcome env agentId req :
  (A2ASync.httpStatus (fst (A2ASync.telexA2AHandler env agentId req)) = 200 /\
   member (body (fst (A2ASync.telexA2AHandler env agentId req))) "error" = None /\
   resultState (body (fst (A2ASync.telexA2AHandler env agentId req))) =
     Some (JStr "completed")) \/
  (member (body (fst (A2ASync.telexA2AHandler env agentId req))) "result" = None /\
   ((A2ASync.httpStatus (fst (A2ASync.telexA2AHandler env agentId req)) = 400 /\
     errorCode (fst (A2ASync.telexA2AHandler env agentId req)) = Some (JNum (-32600))) \/
    (A2ASync.httpStatus (fst (A2ASync.telexA2AHandler env agentId req)) = 404 /\
     errorCode (fst (A2ASync.telexA2AHandler env agentId req)) = Some (JNum (-32602))) \/
    (A2ASync.httpStatus (fst (A2ASync.telexA2AHandler env agentId req)) = 500 /\
     errorCode (fst (A2ASync.telexA2AHandler env agentId req)) = Some (JNum (-32603)) /\
     member (body (fst (A2ASync.telexA2AHandler env agentId req))) "id" = Some JNull))).
Proof.
  sync_cases env agentId req;
    first
      [ left; split; [reflexivity|];
        split; [apply lookupLast_error_payload | apply resultState_payload]
      | right; split; [reflexivity|]; left; split; reflexivity
      | right; split; [reflexivity|]; right; left; split; reflexivity
      | right; split; [reflexivity|]; right; right; repeat split ].
Qed.

(** The synchronous handler runs the agent at most once, and only for a
    request with jsonrpc "2.0", a truthy id, a registered agent and a
    non-empty instruction; a request answered with 400 or 404 never reaches
    the agent. *)
Theorem sync_agent_runs_only_for_valid_requests env agentId req :
  (snd (A2ASync.telexA2AHandler env agentId req) = [] \/
   exists reqBody generate p,
     req = inr reqBody /\
     member reqBody "jsonrpc" = Some (JStr "2.0") /\
     truthy (member reqBody "id") = true /\
     getAgent env agentId = Some generate /\
     mainPromptOf reqBody = Some p /\ truthy (Some p) = true /\
     snd (A2ASync.telexA2AHandler env agentId req) = [Generate agentId p]) /\
  (A2ASync.httpStatus (fst (A2ASync.telexA2AHandler env agentId req)) = 400 \/
   A2ASync.httpStatus (fst (A2ASync.telexA2AHandler env agentId req)) = 404 ->
   snd (A2ASync.telexA2AHandler env agentId req) = []).
Proof.
  sync_cases env agentId req;
    (split;
     [ first
         [ left; reflexivity
         | right; eexists _, generate, p;
           repeat split; first [exact (notVersion2_false _ Ever) | eassumption | reflexivity] ]
     | intros [H | H]; first [reflexivity | discriminate H] ]).
Qed.

End SyncFacts.

(** ** The ticker *)
Section TickerFacts.
Import Ticker.

Lemma step_keeps_timerOk s o :
  timerOk s ->
  timerOk (step s o) /\
  targetUrl (agent (step s o)) = targetUrl (agent s) /\
  intervalMs (agent (step s o)) = intervalMs (agent s).
Proof.
  unfold timerOk. destruct s as [[[h|] url ms []] lv nx ev]; cbn; try contradiction;
    intros Hlive; subst lv; destruct o as [| |k]; cbn;
    unfold elapse; cbn; try (destruct (decide _)); cbn;
    repeat split;
    first [reflexivity | apply (right_id_L ∅ (∪)) | apply difference_diag_L].
Qed.

(** Whatever sequence of starts, stops and timer firings a ticker goes
    through, it never leaks a timer: while running it holds exactly one
    live timer, the one it recorded, and once stopped it holds none; its
    target and its interval never change. *)
Theorem ticker_never_leaks_a_timer url ms ops :
  timerOk (run (boot url ms) ops) /\
  targetUrl (agent (run (boot url ms) ops)) = url /\
  intervalMs (agent (run (boot url ms) ops)) = default 60000 ms.
Proof.
  assert (H : forall s, timerOk s ->
                        timerOk (run s ops) /\
                        targetUrl (agent (run s ops)) = targetUrl (agent s) /\
                        intervalMs (agent (run s ops)) = intervalMs (agent s)).
  { induction ops as [|o ops IH]; intros s Hok; [auto|].
    cbn [run fold_left]. destruct (step_keeps_timerOk s o Hok) as (Hok' & Hu & Hm).
    destruct (IH _ Hok') as (H1 & H2 & H3). unfold run in *.
    rewrite H2, H3. auto. }
  apply (H (boot url ms)). reflexivity.
Qed.

(** Starting a running ticker and stopping a stopped one do nothing: both
    operations are idempotent, from any state. *)
Theorem start_and_stop_are_idempotent s :
  start (start s) = start s /\ stop (stop s) = stop s.
Proof.
  split.
  - unfold start at 2 3. destruct (isRunning (agent s)) eqn:E.
    + unfold start. now rewrite E.
    + reflexivity.
  - unfold stop at 2 3. destruct (isRunning (agent s)) eqn:E; cbn [negb].
    + now destruct (intervalId (agent s)).
    + unfold stop. now rewrite E.
Qed.

Lemma events_step_ok url ms s o :
  targetUrl (agent s) = url -> intervalMs (agent s) = ms ->
  Forall (eventOk url ms) (events s) ->
  Forall (eventOk url ms) (events (step s o)).
Proof.
  intros Hu Hm Hev. destruct o as [| |k]; cbn [step].
  - unfold start. destruct (isRunning (agent s)); [exact Hev|]. cbn.
    rewrite !Forall_app. repeat split; try exact Hev; repeat constructor; assumption.
  - unfold stop. destruct (isRunning (agent s)); cbn [negb]; [|exact Hev].
    destruct (intervalId (agent s)); cbn; [|exact Hev].
    rewrite Forall_app. split; [exact Hev | repeat constructor].
  - unfold elapse. destruct (decide _); [|exact Hev]. cbn.
    rewrite Forall_app. split; [exact Hev | repeat constructor; assumption].
Qed.

(** Every health check a ticker triggers is for its own target, and
    every timer it sets runs at its own interval. *)
Theorem ticker_triggers_only_its_target url ms ops :
  Forall (eventOk url (default 60000 ms)) (events (run (boot url ms) ops)).
Proof.
  assert (H : forall s, timerOk s -> targetUrl (agent s) = url ->
                        intervalMs (agent s) = default 60000 ms ->
                        Forall (eventOk url (default 60000 ms)) (events s) ->
                        Forall (eventOk url (default 60000 ms)) (events (run s ops))).
  { induction ops as [|o ops IH]; intros s Hok Hu Hm Hev; [exact Hev|].
    cbn [run fold_left]. destruct (step_keeps_timerOk s o Hok) as (Hok' & Hu' & Hm').
    apply IH; [exact Hok' | congruence | congruence |].
    now apply events_step_ok. }
  apply (H (boot url ms)); [reflexivity | reflexivity | reflexivity | constructor].
Qed.

(** After [stop], no timer firing triggers a health check: a ticker that
    holds its single timer and is stopped stays as it is however many
    timers come due, until it is started again. *)
Theorem stopped_ticker_is_silent s ops :
  timerOk s ->
  Forall isElapse ops ->
  run (stop s) ops = stop s.
Proof.
  intros Hok Hops.
  assert (Hlive : live (stop s) = ∅).
  { unfold timerOk in Hok. unfold stop.
    destruct s as [[[h|] url ms []] lv nx ev]; cbn in *; try contradiction; subst lv;
      first [reflexivity | apply difference_diag_L]. }
  induction Hops as [|o ops Ho _ IH]; [reflexivity|].
  cbn [run fold_left]. destruct o as [| |k]; try contradiction.
  cbn [step]. unfold elapse. rewrite Hlive.
  destruct (decide (k ∈ ∅)) as [Hin|_]; [now apply not_elem_of_empty in Hin|]. exact IH.
Qed.

Lemma stopped_ticker_is_silent_witness :
  events (run (stop (start (boot "https://a.example.test/health" None)))
            [Elapse 0; Elapse 0]) =
    [Triggered "https://a.example.test/health"; TimerSet 0 60000; TimerCleared 0].
Proof.
  rewrite (stopped_ticker_is_silent (start (boot "https://a.example.test/health" None))
             [Elapse 0; Elapse 0]).
  - reflexivity.
  - reflexivity.
  - repeat constructor.
Defined.

End TickerFacts.

(** ** Two more runs *)
Section MoreRuns.
Import Scenario.

Lemma cacheKey_determines_request_witness :
  ApiTest.cacheKey (getOk None (Some okWithin1s) 300000) =
    ApiTest.cacheKey
      {| ApiTest.url := okUrl; ApiTest.method := ApiTest.GET;
         ApiTest.headers := Some bearer; ApiTest.body := Some "";
         ApiTest.expectations := None; ApiTest.cacheTTL := 1;
         ApiTest.timeout := 1 |} /\
  ApiTest.cacheKey (getOk None (Some okWithin1s) 300000) <>
    ApiTest.cacheKey
      {| ApiTest.url := okUrl; ApiTest.method := ApiTest.GET;
         ApiTest.headers := None; ApiTest.body := Some "x";
         ApiTest.expectations := Some okWithin1s; ApiTest.cacheTTL := 300000;
         ApiTest.timeout := 10000 |}.
Proof.
  split.
  - apply (proj2 (cacheKey_determines_request _ _)). repeat split.
  - intros H. apply (proj1 (cacheKey_determines_request _ _)) in H.
    destruct H as (_ & _ & H). discriminate H.
Defined.

Lemma sync_agent_runs_only_for_valid_requests_witness :
  snd (A2ASync.telexA2AHandler oneAgent "unknownAgent" (inr complete)) = [] /\
  A2ASync.httpStatus
    (fst (A2ASync.telexA2AHandler oneAgent "unknownAgent" (inr complete))) = 404.
Proof.
  split; [|reflexivity].
  apply (proj2 (sync_agent_runs_only_for_valid_requests oneAgent "unknownAgent"
                  (inr complete))).
  right. reflexivity.
Defined.

End MoreRuns.

(** * The cache discipline *)
Section CacheClaims.
Import ApiTest Rules Runs Replay Scenario.

Lemma markCached_copy r : cachedCopyOf r (markCached r).
Proof. unfold cachedCopyOf. repeat split. Qed.

Lemma sent_spec ctx :
  sent ctx =
    if timeoutAccepted (timeout ctx) then [(url ctx, fetchOptions ctx)] else [].
Proof. reflexivity. Qed.

Lemma copies_from_entry st k e calls :
  testCache st !! k = Some e ->
  Forall (fun c => cacheKey (snd c) = k /\
                   now (fst c) - ce_timestamp e < cacheTTL (snd c)) calls ->
  snd (executeAll st calls) = st /\
  Forall2 (fun _ r => cachedCopyOf (ce_result e) r) calls (fst (executeAll st calls)).
Proof.
  intros He Hcalls. rewrite (executeAll_fresh _ _ _ _ He Hcalls).
  split; [reflexivity|]. cbn [fst]. clear.
  induction calls as [|c calls IH]; constructor; [apply markCached_copy | exact IH].
Qed.

(** C3.  A call whose key has a stored result younger than the call's
    [cacheTTL] calls [fetch] not at all (the state, request log included,
    is unchanged) and returns the stored result, identical in every field
    except that [cached] is true; this holds for any number of sequential
    calls.  Hence, after a first call that took the miss path, every later
    call of the same key inside its window returns that first result with
    [cached = true], and the log holds at most the one request of the
    first call (none when its timeout signal could not be created). *)
Theorem C3_fresh_entry_answers_without_request :
  (forall st k e calls,
      testCache st !! k = Some e ->
      Forall (fun c => cacheKey (snd c) = k /\
                       now (fst c) - ce_timestamp e < cacheTTL (snd c)) calls ->
      snd (executeAll st calls) = st /\
      Forall2 (fun _ r => cachedCopyOf (ce_result e) r)
        calls (fst (executeAll st calls))) /\
  (forall w1 st ctx1 calls,
      cached (fst (execute w1 st ctx1)) = false ->
      Forall (fun c => cacheKey (snd c) = cacheKey ctx1 /\
                       now (fst c) - now w1 < cacheTTL (snd c)) calls ->
      snd (executeAll (snd (execute w1 st ctx1)) calls) = snd (execute w1 st ctx1) /\
      Forall2 (fun _ r => cachedCopyOf (fst (execute w1 st ctx1)) r)
        calls (fst (executeAll (snd (execute w1 st ctx1)) calls)) /\
      outbound (snd (execute w1 st ctx1)) =
        outbound st ++
        (if timeoutAccepted (timeout ctx1)
         then [(url ctx1, fetchOptions ctx1)] else [])).
Proof.
  split.
  - intros st k e calls. apply copies_from_entry.
  - intros w1 st ctx1 calls Hmiss Hcalls.
    destruct (execute_uncached_entry w1 st ctx1 Hmiss) as (Hlog & e & He & Hres & Hts).
    rewrite <- Hts in Hcalls.
    destruct (copies_from_entry _ _ _ _ He Hcalls) as [Hst Hall].
    rewrite Hres in Hall. repeat split; [exact Hst | exact Hall | exact Hlog].
Qed.

Lemma C3_fresh_entry_answers_without_request_witness :
  cached (fst firstCall) = false /\
  Forall2 (fun _ r => cachedCopyOf (fst firstCall) r)
    [(apiAt 1500 refusing, getOk None (Some okWithin1s) 300000);
     (apiAt 2000 refusing, getOk None (Some okWithin1s) 300000)]
    (fst (executeAll (snd firstCall)
            [(apiAt 1500 refusing, getOk None (Some okWithin1s) 300000);
             (apiAt 2000 refusing, getOk None (Some okWithin1s) 300000)])) /\
  List.length
    (outbound (snd (executeAll (snd firstCall)
                      [(apiAt 1500 refusing, getOk None (Some okWithin1s) 300000);
                       (apiAt 2000 refusing, getOk None (Some okWithin1s) 300000)]))) =
    1%nat.
Proof.
  split; [reflexivity|].
  destruct (proj2 C3_fresh_entry_answers_without_request
              (apiAt 1000 (answering okResponse)) initial
              (getOk None (Some okWithin1s) 300000)
              [(apiAt 1500 refusing, getOk None (Some okWithin1s) 300000);
               (apiAt 2000 refusing, getOk None (Some okWithin1s) 300000)]
              eq_refl) as (Hst & Hall & Hlog).
  - repeat constructor; simpl; lia.
  - split; [exact Hall|]. unfold firstCall. rewrite Hst, Hlog. reflexivity.
Defined.

(** C5.  A call that takes the miss path and gets no response, because
    the timeout signal cannot be created or because [fetch] throws (a
    network error, a timeout), returns FAIL with one check, none passed,
    and the message of the exception as its error, which is not empty; no
    request is logged in the first case and one in the second.  The failure
    result is written to the cache under the key of the call with the time
    of the call, as a success is, so that a later call of the same key
    inside its window is answered with it from the cache. *)
Theorem C5_failure_result_is_cached w st ctx m :
  isCacheFresh w ctx (testCache st !! cacheKey ctx) = false ->
  (timeoutAccepted (timeout ctx) = false /\ m = timeoutError w (timeout ctx)) \/
  (timeoutAccepted (timeout ctx) = true /\
   network w (url ctx) (fetchOptions ctx) = FetchThrows m) ->
  testStatus (fst (execute w st ctx)) = FAIL /\
  totalChecks (fst (execute w st ctx)) = 1 /\
  passedChecks (fst (execute w st ctx)) = 0 /\
  failedChecks (fst (execute w st ctx)) = 1 /\
  error (fst (execute w st ctx)) = Some (msgText m) /\
  msgText m <> "" /\
  testCache (snd (execute w st ctx)) =
    <[cacheKey ctx := {| ce_status := FAIL; ce_timestamp := now w;
                         ce_responseTime := 0;
                         ce_result := fst (execute w st ctx) |}]> (testCache st) /\
  outbound (snd (execute w st ctx)) =
    outbound st ++
    (if timeoutAccepted (timeout ctx) then [(url ctx, fetchOptions ctx)] else []) /\
  (forall w2 ctx2,
      cacheKey ctx2 = cacheKey ctx ->
      now w2 - now w < cacheTTL ctx2 ->
      cachedCopyOf (fst (execute w st ctx)) (fst (execute w2 (snd (execute w st ctx)) ctx2)) /\
      snd (execute w2 (snd (execute w st ctx)) ctx2) = snd (execute w st ctx)).
Proof.
  intros Hmiss Hcause.
  assert (Hfetch : fetch w (url ctx) (fetchOptions ctx) = FetchThrows m).
  { unfold fetch. cbn [fetchOptions fo_timeout].
    destruct Hcause as [[-> ->] | [-> Hnet]]; [reflexivity | exact Hnet]. }
  rewrite (execute_failed _ _ _ _ Hmiss Hfetch).
  cbn [fst snd testCache outbound].
  do 5 (split; [reflexivity|]). split; [discriminate|].
  do 2 (split; [reflexivity|]).
  intros w2 ctx2 Hkey Hlt.
  rewrite (execute_hit w2 _ ctx2
             {| ce_status := FAIL; ce_timestamp := now w; ce_responseTime := 0;
                ce_result := failureResult w ctx (msgText m) |});
    [| cbn [testCache]; rewrite Hkey; apply lookup_insert_eq | exact Hlt].
  cbn [fst snd]. split; [apply markCached_copy | reflexivity].
Qed.

Lemma C5_failure_result_is_cached_witness :
  (testStatus (fst (execute (apiAt 1000 refusing) initial (getOk None None 300000))) = FAIL /\
   error (fst (execute (apiAt 1000 refusing) initial (getOk None None 300000))) =
     Some "fetch failed" /\
   List.length
     (outbound (snd (execute (apiAt 1000 refusing) initial (getOk None None 300000)))) =
     1%nat) /\
  (testStatus (fst (execute (apiAt 1000 (answering okResponse)) initial
                      (getOkBadTimeout None 300000))) = FAIL /\
   totalChecks (fst (execute (apiAt 1000 (answering okResponse)) initial
                       (getOkBadTimeout None 300000))) = 1 /\
   outbound (snd (execute (apiAt 1000 (answering okResponse)) initial
                    (getOkBadTimeout None 300000))) = []).
Proof.
  split.
  - destruct (C5_failure_result_is_cached (apiAt 1000 refusing) initial
                (getOk None None 300000) fetchFailed eq_refl
                (or_intror (conj eq_refl eq_refl)))
      as (H1 & _ & _ & _ & H5 & _ & _ & H8 & _).
    split; [exact H1|]. split; [exact H5|]. rewrite H8. reflexivity.
  - destruct (C5_failure_result_is_cached (apiAt 1000 (answering okResponse)) initial
                (getOkBadTimeout None 300000) _ eq_refl
                (or_introl (conj eq_refl eq_refl)))
      as (H1 & H2 & _ & _ & _ & _ & _ & H8 & _).
    split; [exact H1|]. split; [exact H2|]. rewrite H8. reflexivity.
Defined.

(** C9.  Two requests that agree on method, url and body have the same
    cache key, whatever their headers and expectations: the key is the
    text method:url:serialized body, and only requests that agree on those
    three have it.  So when the first went through the miss path and the
    second comes inside its own TTL window, the second calls [fetch] not at
    all and returns the first request's result, identical in every field
    except that [cached] is true. *)
Theorem C9_key_ignores_headers_and_expectations w1 w2 st ctx1 ctx2 :
  method ctx1 = method ctx2 ->
  url ctx1 = url ctx2 ->
  body ctx1 = body ctx2 ->
  cacheKey ctx1 = cacheKey ctx2 /\
  cacheKey ctx1 =
    methodName (method ctx1) +:+ ":" +:+ url ctx1 +:+ ":" +:+
    match body ctx1 with
    | Some b => if JS.truthyStr b then JS.stringifyString b else "{}"
    | None => "{}"
    end /\
  (forall ctx, cacheKey ctx = cacheKey ctx1 ->
               method ctx = method ctx1 /\ url ctx = url ctx1 /\
               bodyOrNone ctx = bodyOrNone ctx1) /\
  (cached (fst (execute w1 st ctx1)) = false ->
   now w2 - now w1 < cacheTTL ctx2 ->
   cachedCopyOf (fst (execute w1 st ctx1))
     (fst (execute w2 (snd (execute w1 st ctx1)) ctx2)) /\
   snd (execute w2 (snd (execute w1 st ctx1)) ctx2) = snd (execute w1 st ctx1)).
Proof.
  intros Hm Hu Hb.
  assert (Hkey : cacheKey ctx1 = cacheKey ctx2)
    by (unfold cacheKey; now rewrite Hm, Hu, Hb).
  split; [exact Hkey|]. split; [reflexivity|].
  split; [intros ctx; apply cacheKey_inj|].
  intros Hmiss Hlt.
  destruct (execute_uncached_entry w1 st ctx1 Hmiss) as (_ & e & He & Hres & Hts).
  rewrite (execute_hit w2 _ ctx2 e); [| now rewrite <- Hkey | now rewrite Hts].
  cbn [fst snd]. split; [|reflexivity]. rewrite Hres. apply markCached_copy.
Qed.

Lemma C9_key_ignores_headers_and_expectations_witness :
  headers (getOk None (Some okWithin1s) 300000) <>
    headers (getOk (Some bearer) (Some expect404) 300000) /\
  expectations (getOk None (Some okWithin1s) 300000) <>
    expectations (getOk (Some bearer) (Some expect404) 300000) /\
  cachedCopyOf (fst firstCall)
    (fst (execute (apiAt 2000 (answering okResponse)) (snd firstCall)
            (getOk (Some bearer) (Some expect404) 300000))) /\
  testStatus (fst firstCall) = PASS.
Proof.
  split; [discriminate|]. split; [discriminate|].
  split; [|reflexivity].
  apply (C9_key_ignores_headers_and_expectations
           (apiAt 1000 (answering okResponse)) (apiAt 2000 (answering okResponse))
           initial (getOk None (Some okWithin1s) 300000)
           (getOk (Some bearer) (Some expect404) 300000) eq_refl eq_refl eq_refl);
    [reflexivity | simpl; lia].
Defined.

(** C10.  In both caches the stored entry carries its write time and no
    TTL (what a miss writes does not depend on the caller's [cacheTTL]),
    and freshness is judged at read time against the [cacheTTL] of the
    current call: the same entry at the same moment is served from the
    cache to a caller whose TTL exceeds its age, and refreshed for a caller
    whose TTL does not, who takes the miss path (the request is made,
    unless the timeout signal cannot be created) and overwrites the
    entry. *)
Theorem C10_freshness_is_judged_by_the_reader :
  (forall w st ctx e big small,
      ApiTest.testCache st !! ApiTest.cacheKey ctx = Some e ->
      ApiTest.now w - ApiTest.ce_timestamp e < big ->
      small <= ApiTest.now w - ApiTest.ce_timestamp e ->
      (cachedCopyOf (ApiTest.ce_result e) (fst (ApiTest.execute w st (withTTL ctx big))) /\
       snd (ApiTest.execute w st (withTTL ctx big)) = st) /\
      ApiTest.cached (fst (ApiTest.execute w st (withTTL ctx small))) = false /\
      ApiTest.outbound (snd (ApiTest.execute w st (withTTL ctx small))) =
        ApiTest.outbound st ++
        (if ApiTest.timeoutAccepted (ApiTest.timeout ctx)
         then [(ApiTest.url ctx, ApiTest.fetchOptions ctx)] else []) /\
      (exists e',
          ApiTest.testCache (snd (ApiTest.execute w st (withTTL ctx small)))
            !! ApiTest.cacheKey ctx = Some e' /\
          ApiTest.ce_result e' = fst (ApiTest.execute w st (withTTL ctx small)) /\
          ApiTest.ce_timestamp e' = ApiTest.now w) /\
      (forall other,
          ApiTest.perform w st (withTTL ctx other) =
          ApiTest.execute w st (withTTL ctx small))) /\
  (forall w st u s t big small,
      Health.status (Health.healthCache st) = Some s ->
      Health.timestamp (Health.healthCache st) = Some t ->
      t <> 0 ->
      Health.now w - t < big ->
      small <= Health.now w - t ->
      Health.cached (fst (Health.execute w st (checkOf u big))) = true /\
      Health.r_status (fst (Health.execute w st (checkOf u big))) = s /\
      snd (Health.execute w st (checkOf u big)) = st /\
      Health.cached (fst (Health.execute w st (checkOf u small))) = false /\
      Health.outbound (snd (Health.execute w st (checkOf u small))) =
        Health.outbound st ++ [u] /\
      Health.timestamp (Health.healthCache (snd (Health.execute w st (checkOf u small)))) =
        Some (Health.now w) /\
      (forall other,
          Health.refresh w st (checkOf u other) =
          Health.execute w st (checkOf u small))).
Proof.
  split.
  - intros w st ctx e big small He Hbig Hsmall.
    split.
    { rewrite (execute_hit w st (withTTL ctx big) e He Hbig). cbn [fst snd].
      split; [apply markCached_copy | reflexivity]. }
    assert (Hmiss : ApiTest.execute w st (withTTL ctx small) =
                    ApiTest.perform w st (withTTL ctx small)).
    { apply execute_miss. rewrite cacheKey_withTTL, He. simpl.
      destruct (Z.ltb_spec (ApiTest.now w - ApiTest.ce_timestamp e) small);
        [lia | reflexivity]. }
    rewrite Hmiss.
    destruct (perform_stores w st (withTTL ctx small))
      as (Hc & Hlog & e' & Hmap & Hres & Hts & _).
    split; [exact Hc|]. split; [exact Hlog|]. split; [|reflexivity].
    exists e'. rewrite Hmap. rewrite cacheKey_withTTL, lookup_insert_eq. auto.
  - intros w st u s t big small Hs Ht Hnz Hbig Hsmall.
    rewrite (health_hit w st (checkOf u big) s t Hs Ht Hnz Hbig).
    split; [reflexivity|]. split; [reflexivity|]. split; [reflexivity|].
    assert (Hmiss : Health.execute w st (checkOf u small) =
                    Health.refresh w st (checkOf u small)).
    { apply health_miss. unfold Health.ageOf. rewrite Ht.
      destruct (Z.eqb_spec t 0); [contradiction|]. simpl.
      destruct (Z.ltb_spec (Health.now w - t) small); [lia | reflexivity]. }
    rewrite Hmiss.
    destruct (refresh_logs w st (checkOf u small)) as (Hc & Hlog).
    split; [exact Hc|]. split; [exact Hlog|]. split; [|reflexivity].
    unfold Health.refresh. now destruct (Health.fetch w _).
Qed.

Lemma C10_freshness_is_judged_by_the_reader_witness :
  (ApiTest.cached
     (fst (ApiTest.execute apiLater (snd firstCall)
             (withTTL (getOk None None 0) 300000))) = true /\
   ApiTest.cached
     (fst (ApiTest.execute apiLater (snd firstCall)
             (withTTL (getOk None None 0) 30000))) = false) /\
  (Health.cached (fst (Health.execute healthLater afterA (checkOf urlA 300000))) = true /\
   Health.cached (fst (Health.execute healthLater afterA (checkOf urlA 30000))) = false).
Proof.
  split.
  - destruct (proj1 C10_freshness_is_judged_by_the_reader apiLater (snd firstCall)
                (getOk None None 0)
                {| ApiTest.ce_status := ApiTest.PASS; ApiTest.ce_timestamp := 1000;
                   ApiTest.ce_responseTime := 100;
                   ApiTest.ce_result := fst firstCall |}
                300000 30000 eq_refl ltac:(simpl; lia) ltac:(simpl; lia))
      as ((Hbig & _) & Hsmall & _).
    split; [exact (proj1 Hbig) | exact Hsmall].
  - destruct (proj2 C10_freshness_is_judged_by_the_reader healthLater afterA urlA
                Health.UP 1000 300000 30000 eq_refl eq_refl
                ltac:(lia) ltac:(simpl; lia) ltac:(simpl; lia))
      as (Hbig & _ & _ & Hsmall & _).
    split; [exact Hbig | exact Hsmall].
Defined.

End CacheClaims.

(** * Capture failures and status rules *)
Section CaptureClaims.
Import ApiTest Rules Replay Scenario.

(** C6.  The code does not skip the contains checks when the body
    could not be captured: the body is then the placeholder text, which is
    not empty, so every bodyContains and bodyNotContains token is checked
    against the placeholder, its outcome recorded and the check counted in
    [totalChecks]; a request that declares either rule is therefore never
    left with its contains checks skipped. *)
Theorem C6_capture_failure_checks_the_placeholder w st ctx resp e :
  isCacheFresh w ctx (testCache st !! cacheKey ctx) = false ->
  fetch w (url ctx) (fetchOptions ctx) = FetchOk resp ->
  expectations ctx = Some e ->
  namesValid (Some e) = true ->
  Wording.captureFailed resp ->
  responseBodyOf resp = unparsable /\
  (validations (fst (execute w st ctx)) ≫= v_bodyContains) =
    (map (fun x => (x, JS.includes unparsable x)) <$> bodyContains e) /\
  (validations (fst (execute w st ctx)) ≫= v_bodyNotContains) =
    (map (fun x => (x, negb (JS.includes unparsable x))) <$> bodyNotContains e) /\
  Wording.totalIsDeclared (fst (execute w st ctx)) (Some e) /\
  (bodyContains e <> None \/ bodyNotContains e <> None ->
   ~ Wording.containsSkipped (fst (execute w st ctx)) (Some e)).
Proof.
  intros Hmiss Hfetch He Hvalid Hfail.
  rewrite <- He in Hvalid.
  destruct (execute_validated w st ctx resp Hmiss Hfetch Hvalid) as (t & Ht & Hres).
  rewrite He in Ht.
  destruct (runChecks_counts _ _ _ _ _ _ Ht) as [Htot Hpass].
  destruct (implicitCheck_counts resp t _ Htot Hpass) as (Hn & _).
  pose proof (runChecks_slots _ _ _ _ _ _ Ht) as Hslots.
  unfold keySlots in Hslots. injection Hslots as _ Hbc Hbnc.
  assert (Hv : validations (fst (execute w st ctx)) = Some (t_validations t)).
  { rewrite Hres. unfold successResult, implicitCheck. cbn [validations].
    now destruct (t_total t =? 0). }
  assert (Hbody : responseBodyOf resp = unparsable)
    by (unfold responseBodyOf, readBody; now rewrite Hfail).
  assert (Hc : (validations (fst (execute w st ctx)) ≫= v_bodyContains) =
               (map (fun x => (x, JS.includes unparsable x)) <$> bodyContains e)).
  { rewrite Hv. cbn [mbind option_bind]. rewrite Hbc, Hbody.
    unfold containsSlot. simpl. reflexivity. }
  assert (Hnc : (validations (fst (execute w st ctx)) ≫= v_bodyNotContains) =
                (map (fun x => (x, negb (JS.includes unparsable x))) <$> bodyNotContains e)).
  { rewrite Hv. cbn [mbind option_bind]. rewrite Hbnc, Hbody.
    unfold notContainsSlot. simpl. reflexivity. }
  split; [exact Hbody|]. split; [exact Hc|]. split; [exact Hnc|]. split.
  - unfold Wording.totalIsDeclared.
    rewrite Hres. cbn [totalChecks successResult].
    rewrite Hn, Hbody. unfold countedRules. simpl. reflexivity.
  - intros Hdecl (Hs1 & Hs2 & _). rewrite Hc in Hs1. rewrite Hnc in Hs2.
    destruct Hdecl as [Hd | Hd]; apply Hd.
    + destruct (bodyContains e); [discriminate Hs1 | reflexivity].
    + destruct (bodyNotContains e); [discriminate Hs2 | reflexivity].
Qed.

Lemma C6_capture_failure_checks_the_placeholder_witness :
  Wording.captureFailed brokenJsonResponse /\
  (validations (fst (execute (apiAt 1000 (answering brokenJsonResponse)) initial
                       (getOk None (Some containsOnly) 300000)))
     ≫= v_bodyContains) = Some [("ok", false)] /\
  (validations (fst (execute (apiAt 1000 (answering brokenJsonResponse)) initial
                       (getOk None (Some containsOnly) 300000)))
     ≫= v_bodyNotContains) = Some [("error", true)] /\
  totalChecks (fst (execute (apiAt 1000 (answering brokenJsonResponse)) initial
                      (getOk None (Some containsOnly) 300000))) = 2 /\
  testStatus (fst (execute (apiAt 1000 (answering brokenJsonResponse)) initial
                     (getOk None (Some containsOnly) 300000))) = FAIL /\
  ~ Wording.containsSkipped
      (fst (execute (apiAt 1000 (answering brokenJsonResponse)) initial
              (getOk None (Some containsOnly) 300000)))
      (Some containsOnly) /\
  (validations (fst (execute (apiAt 1000 (answering brokenJsonResponse)) initial
                       (getOk None (Some containsResponse) 300000)))
     ≫= v_bodyContains) = Some [("response", true)] /\
  testStatus (fst (execute (apiAt 1000 (answering brokenJsonResponse)) initial
                     (getOk None (Some containsResponse) 300000))) = PASS.
Proof.
  destruct (C6_capture_failure_checks_the_placeholder
              (apiAt 1000 (answering brokenJsonResponse)) initial
              (getOk None (Some containsOnly) 300000) brokenJsonResponse containsOnly
              eq_refl eq_refl eq_refl eq_refl eq_refl)
    as (_ & Hc & Hnc & _ & Hnot).
  destruct (C6_capture_failure_checks_the_placeholder
              (apiAt 1000 (answering brokenJsonResponse)) initial
              (getOk None (Some containsResponse) 300000) brokenJsonResponse
              containsResponse eq_refl eq_refl eq_refl eq_refl eq_refl)
    as (_ & Hc' & _).
  split; [reflexivity|]. split; [exact Hc|]. split; [exact Hnc|].
  split; [reflexivity|]. split; [reflexivity|].
  split; [apply Hnot; left; discriminate|].
  split; [exact Hc' | reflexivity].
Defined.

(** The contains checks are skipped in one case only, a captured body
    that is empty. *)
Lemma contains_skipped_on_empty_body w st ctx resp e :
  isCacheFresh w ctx (testCache st !! cacheKey ctx) = false ->
  fetch w (url ctx) (fetchOptions ctx) = FetchOk resp ->
  expectations ctx = Some e ->
  namesValid (Some e) = true ->
  responseBodyOf resp = "" ->
  Wording.containsSkipped (fst (execute w st ctx)) (Some e).
Proof.
  intros Hmiss Hfetch He Hvalid Hempty.
  rewrite <- He in Hvalid.
  destruct (execute_validated w st ctx resp Hmiss Hfetch Hvalid) as (t & Ht & Hres).
  rewrite He in Ht.
  destruct (runChecks_counts _ _ _ _ _ _ Ht) as [Htot Hpass].
  destruct (implicitCheck_counts resp t _ Htot Hpass) as (Hn & _).
  pose proof (runChecks_slots _ _ _ _ _ _ Ht) as Hslots.
  unfold keySlots in Hslots. injection Hslots as _ Hbc Hbnc.
  assert (Hv : validations (fst (execute w st ctx)) = Some (t_validations t)).
  { rewrite Hres. unfold successResult, implicitCheck. cbn [validations].
    now destruct (t_total t =? 0). }
  unfold Wording.containsSkipped.
  rewrite Hv, Hres. cbn [mbind option_bind totalChecks successResult].
  rewrite Hn, Hbc, Hbnc, Hempty.
  unfold containsSlot, notContainsSlot, countedRules. simpl. auto.
Qed.

(** C7, as worded, fails: a request that declares both status rules and
    a required header whose name is not a valid header name obtains a
    response, yet the two rules contribute nothing; the header lookup
    throws, the result has one check and no validations at all. *)
Lemma C7_counterexample :
  statusCode bothRulesBadHeader = Some 201 /\
  statusCodeRange bothRulesBadHeader = Some (200, 299) /\
  fetch (apiAt 1000 (answering okResponse)) okUrl
    (fetchOptions (getOk None (Some bothRulesBadHeader) 300000)) = FetchOk okResponse /\
  totalChecks (fst (execute (apiAt 1000 (answering okResponse)) initial
                      (getOk None (Some bothRulesBadHeader) 300000))) = 1 /\
  validations (fst (execute (apiAt 1000 (answering okResponse)) initial
                      (getOk None (Some bothRulesBadHeader) 300000))) = None /\
  testStatus (fst (execute (apiAt 1000 (answering okResponse)) initial
                     (getOk None (Some bothRulesBadHeader) 300000))) = FAIL.
Proof. repeat split. Qed.

(** C7, amended.  For a call that is not served from the cache, obtains
    a response and names only valid header names in [requiredHeaders],
    when both an exact status code and a status-code range are declared,
    each adds one check: [totalChecks] is 2 plus the checks of the
    remaining rules; and the [statusCode] slot of [validations] holds the
    outcome of the range rule, which is evaluated second and overwrites
    the outcome of the exact rule. *)
Theorem C7_range_overwrites_exact_slot w st ctx resp e c lo hi :
  isCacheFresh w ctx (testCache st !! cacheKey ctx) = false ->
  fetch w (url ctx) (fetchOptions ctx) = FetchOk resp ->
  expectations ctx = Some e ->
  namesValid (Some e) = true ->
  statusCode e = Some c ->
  statusCodeRange e = Some (lo, hi) ->
  totalChecks (fst (execute w st ctx)) =
    2 + countedRules (responseBodyOf resp) (Some (withoutStatusRules e)) /\
  (validations (fst (execute w st ctx)) ≫= v_statusCode) =
    Some {| sc_expected := ExpectedRange lo hi;
            sc_actual := status resp;
            sc_passed := (lo <=? status resp) && (status resp <=? hi) |}.
Proof.
  intros Hmiss Hfetch He Hvalid Hc Hr.
  rewrite <- He in Hvalid.
  destruct (execute_validated w st ctx resp Hmiss Hfetch Hvalid) as (t & Ht & Hres).
  rewrite He in Ht.
  destruct (runChecks_counts _ _ _ _ _ _ Ht) as [Htot Hpass].
  destruct (implicitCheck_counts resp t _ Htot Hpass) as (Hn & _).
  pose proof (runChecks_slots _ _ _ _ _ _ Ht) as Hslots.
  unfold keySlots in Hslots. injection Hslots as Hsc _ _.
  assert (Hv : validations (fst (execute w st ctx)) = Some (t_validations t)).
  { rewrite Hres. unfold successResult, implicitCheck. cbn [validations].
    now destruct (t_total t =? 0). }
  assert (Hcount : countedRules (responseBodyOf resp) (Some e) =
                   2 + countedRules (responseBodyOf resp) (Some (withoutStatusRules e))).
  { unfold countedRules, declaredRules, otherRules, containsTokens, withoutStatusRules.
    cbn [statusCode statusCodeRange maxResponseTime bodyContains bodyNotContains
         requiredHeaders responseType].
    rewrite Hc, Hr. simpl declared. destruct (JS.truthyStr _); lia. }
  assert (Hge : 0 <= countedRules (responseBodyOf resp) (Some (withoutStatusRules e))).
  { unfold countedRules, declaredRules, otherRules, containsTokens, declared, tokens.
    destruct (JS.truthyStr _);
      repeat match goal with |- context [match ?x with _ => _ end] => destruct x end;
      lia. }
  split.
  - rewrite Hres. cbn [totalChecks successResult]. rewrite Hn, Hcount.
    destruct (Z.eqb_spec (2 + countedRules (responseBodyOf resp)
                                (Some (withoutStatusRules e))) 0); [lia | reflexivity].
  - rewrite Hv. cbn [mbind option_bind]. rewrite Hsc. unfold statusSlot.
    now rewrite Hr.
Qed.

Lemma C7_range_overwrites_exact_slot_witness :
  totalChecks (fst (execute (apiAt 1000 (answering okResponse)) initial
                      (getOk None (Some exactAndRange) 300000))) = 3 /\
  (validations (fst (execute (apiAt 1000 (answering okResponse)) initial
                       (getOk None (Some exactAndRange) 300000))) ≫= v_statusCode) =
    Some {| sc_expected := ExpectedRange 200 299;
            sc_actual := 200; sc_passed := true |}.
Proof.
  exact (C7_range_overwrites_exact_slot (apiAt 1000 (answering okResponse)) initial
           (getOk None (Some exactAndRange) 300000) okResponse exactAndRange
           201 200 299 eq_refl eq_refl eq_refl eq_refl eq_refl eq_refl).
Defined.

End CaptureClaims.

(** * Requests along a run *)
Section RequestRuns.
Import ApiTest Runs Requests Replay Scenario.

(** A call reaches [fetch] at most once, and only when it is not served
    from the cache: along a run, the number of requests sent is the number
    of calls that missed the cache and whose timeout signal could be
    created, which is at most the number of results not served from the
    cache. *)
Theorem at_most_one_request_per_miss st calls :
  List.length (outbound (snd (executeAll st calls))) =
    (List.length (outbound st) + requestsOf calls (fst (executeAll st calls)))%nat /\
  (requestsOf calls (fst (executeAll st calls)) <=
     testMisses (fst (executeAll st calls)))%nat.
Proof.
  revert st. induction calls as [|[w ctx] calls IH]; intros st.
  - unfold requestsOf, testMisses. simpl. lia.
  - cbn [executeAll fst snd]. destruct (IH (snd (execute w st ctx))) as [IH1 IH2].
    rewrite IH1. unfold requestsOf, testMisses in *.
    cbn [combine List.filter fst snd].
    assert (Hlen : List.length (outbound (snd (execute w st ctx))) =
                   (List.length (outbound st) +
                    if negb (cached (fst (execute w st ctx))) &&
                       timeoutAccepted (timeout ctx)
                    then 1 else 0)%nat).
    { destruct (execute_hit_or_miss w st ctx) as [(Hc & Hst & _) | (Hc & Hp)];
        rewrite Hc.
      - rewrite Hst. simpl. lia.
      - rewrite Hp. destruct (perform_stores w st ctx) as (_ & Hlog & _).
        rewrite Hlog, length_app. unfold sent.
        destruct (timeoutAccepted (timeout ctx)); simpl; lia. }
    rewrite Hlen.
    destruct (negb (cached (fst (execute w st ctx))));
      destruct (timeoutAccepted (timeout ctx)); cbn [andb List.length]; lia.
Qed.

End RequestRuns.

(** * Requests that differ *)
Section DifferentRequests.
Import ApiTest Runs Scenario.

(** A call is never answered with the result of a different request: if
    the cache holds nothing for the second call and the two calls differ in
    method, url or body, then the second call takes the miss path whatever
    its [cacheTTL]: its result is not a cached one, it carries the time of
    the second call, and its request is sent (unless its timeout signal
    cannot be created). *)
Theorem different_request_is_not_served w1 w2 st ctx1 ctx2 :
  testCache st !! cacheKey ctx2 = None ->
  method ctx1 <> method ctx2 \/ url ctx1 <> url ctx2 \/
  bodyOrNone ctx1 <> bodyOrNone ctx2 ->
  cached (fst (execute w2 (snd (execute w1 st ctx1)) ctx2)) = false /\
  execute w2 (snd (execute w1 st ctx1)) ctx2 =
    perform w2 (snd (execute w1 st ctx1)) ctx2 /\
  outbound (snd (execute w2 (snd (execute w1 st ctx1)) ctx2)) =
    outbound (snd (execute w1 st ctx1)) ++
    (if timeoutAccepted (timeout ctx2) then [(url ctx2, fetchOptions ctx2)] else []).
Proof.
  intros Hnone Hdiff.
  assert (Hk : cacheKey ctx2 <> cacheKey ctx1).
  { intros Heq. symmetry in Heq. apply cacheKey_inj in Heq.
    destruct Heq as (Hm & Hu & Hb). destruct Hdiff as [H | [H | H]]; contradiction. }
  assert (Hmiss : isCacheFresh w2 ctx2
                    (testCache (snd (execute w1 st ctx1)) !! cacheKey ctx2) = false).
  { destruct (execute_hit_or_miss w1 st ctx1) as [(_ & -> & _) | (_ & ->)].
    - now rewrite Hnone.
    - destruct (perform_stores w1 st ctx1) as (_ & _ & e & -> & _).
      rewrite lookup_insert_ne by congruence. now rewrite Hnone. }
  rewrite (execute_miss _ _ _ Hmiss).
  destruct (perform_stores w2 (snd (execute w1 st ctx1)) ctx2) as (Hc & Hlog & _).
  split; [exact Hc|]. split; [reflexivity | exact Hlog].
Qed.

Lemma different_request_is_not_served_witness :
  cached (fst (execute (apiAt 2000 (answering okResponse)) (snd firstCall)
                 {| url := okUrl; method := DELETE; headers := None; body := None;
                    expectations := Some okWithin1s; cacheTTL := 300000;
                    timeout := 10000 |})) = false /\
  List.length
    (outbound (snd (execute (apiAt 2000 (answering okResponse)) (snd firstCall)
                      {| url := okUrl; method := DELETE; headers := None; body := None;
                         expectations := Some okWithin1s; cacheTTL := 300000;
                         timeout := 10000 |}))) = 2%nat.
Proof.
  assert (Hnone : testCache initial
                    !! cacheKey {| url := okUrl; method := DELETE; headers := None;
                                   body := None; expectations := Some okWithin1s;
                                   cacheTTL := 300000; timeout := 10000 |} = None)
    by reflexivity.
  assert (Hdiff : method (getOk None (Some okWithin1s) 300000) <> DELETE)
    by discriminate.
  destruct (different_request_is_not_served (apiAt 1000 (answering okResponse))
              (apiAt 2000 (answering okResponse)) initial
              (getOk None (Some okWithin1s) 300000)
              {| url := okUrl; method := DELETE; headers := None; body := None;
                 expectations := Some okWithin1s; cacheTTL := 300000;
                 timeout := 10000 |} Hnone (or_introl Hdiff))
    as (Hc & _ & Hlog).
  split; [exact Hc|]. unfold firstCall. rewrite Hlog. vm_compute. reflexivity.
Defined.

End DifferentRequests.

(** * Accepted submissions *)
Section AcceptedRuns.
Import A2A Callbacks Replay Scenario.

(** A submission that carries a callback address, a callback token and an
    instruction is acknowledged with 202 when its [taskId] converts to a
    string, and the work it sets off pushes to the callback at most once:
    exactly once, to the submitted address with the submitted token, when
    the agent is found, its run resolves and the token converts to a
    string, and not at all otherwise.  When the [taskId] does not convert
    to a string, the answer is 500 and the work stops before the agent is
    looked up: nothing is generated and nothing pushed. *)
Theorem accepted_submission_pushes_at_most_once env agentId reqBody u t p :
  completeSubmission reqBody u t p ->
  (interpolates (member (paramsOf reqBody) "taskId") = true ->
   httpStatus (fst (telexA2AHandler env agentId (inr reqBody))) = 202 /\
   ((exists generate r payload,
        lookupError env agentId = None /\
        getAgent env agentId = Some generate /\ generate p = Generated r /\
        toStringOk t = true /\
        pushes (snd (telexA2AHandler env agentId (inr reqBody))) = [Push u t payload]) \/
    ((lookupError env agentId <> None \/
      getAgent env agentId = None \/
      (exists generate message,
          getAgent env agentId = Some generate /\
          generate p = GenerateThrows message) \/
      toStringOk t = false) /\
     pushes (snd (telexA2AHandler env agentId (inr reqBody))) = []))) /\
  (interpolates (member (paramsOf reqBody) "taskId") = false ->
   httpStatus (fst (telexA2AHandler env agentId (inr reqBody))) = 500 /\
   snd (telexA2AHandler env agentId (inr reqBody)) = [Started agentId]).
Proof.
  intros Hc. unfold telexA2AHandler. rewrite (validate_complete env _ _ _ _ Hc).
  cbn [taskId]. split; intros Hi; rewrite Hi.
  - cbn [fst snd httpStatus]. split; [reflexivity|].
    unfold runAgentAndPushResult, pushes.
    cbn [taskId mainPrompt webhookUrl webhookToken]. rewrite Hi.
    destruct (lookupError env agentId) as [message|] eqn:El.
    { right. split; [left; discriminate | reflexivity]. }
    destruct (getAgent env agentId) as [generate|] eqn:Eg.
    + destruct (generate p) as [r|message] eqn:Er.
      * destruct (toStringOk t) eqn:Et.
        -- left. eexists generate, r, _.
           split; [reflexivity|]. split; [reflexivity|]. split; [exact Er|].
           split; reflexivity.
        -- right. split; [do 3 right; reflexivity | reflexivity].
      * right. split; [right; right; left; eauto | reflexivity].
    + right. split; [right; left; reflexivity | reflexivity].
  - cbn [fst snd httpStatus errorReply]. split; [reflexivity|].
    unfold runAgentAndPushResult. cbn [taskId]. now rewrite Hi.
Qed.

Lemma accepted_submission_pushes_at_most_once_witness :
  httpStatus (fst (telexA2AHandler oneAgent "apiTestAgent" (inr complete))) = 202 /\
  pushes (snd (telexA2AHandler oneAgent "unknownAgent" (inr complete))) = [] /\
  httpStatus (fst (telexA2AHandler oneAgent "apiTestAgent" (inr oddTaskId))) = 500 /\
  snd (telexA2AHandler oneAgent "apiTestAgent" (inr oddTaskId)) =
    [Started "apiTestAgent"].
Proof.
  assert (Hc : completeSubmission complete (JStr "https://caller.test/hook")
                 (JStr "secret") (JStr "test https://example.test/ok"))
    by (repeat split).
  assert (Ho : completeSubmission oddTaskId (JStr "https://caller.test/hook")
                 (JStr "secret") (JStr "test https://example.test/ok"))
    by (repeat split).
  split.
  - exact (proj1 (proj1 (accepted_submission_pushes_at_most_once oneAgent
                           "apiTestAgent" complete _ _ _ Hc) eq_refl)).
  - split.
    + destruct (proj2 (proj1 (accepted_submission_pushes_at_most_once oneAgent
                                "unknownAgent" complete _ _ _ Hc) eq_refl))
        as [(g & r & pl & _ & Hg & _) | [_ Hnone]].
      * discriminate Hg.
      * exact Hnone.
    + exact (proj2 (accepted_submission_pushes_at_most_once oneAgent
                      "apiTestAgent" oddTaskId _ _ _ Ho) eq_refl).
Defined.

(** On an accepted submission whose [taskId] and callback token convert
    to strings and whose agent is found and resolves, the identifier of
    the acknowledgment and the identifier in the pushed result are both the
    submitted [taskId] when there is one; when there is none, the two are
    separate draws of [randomUUID()], so they differ whenever the draws
    do, and the caller cannot match the callback to the acknowledgment by
    that identifier. *)
Theorem acknowledged_id_matches_only_a_submitted_taskId
    env agentId reqBody u t p generate r :
  completeSubmission reqBody u t p ->
  interpolates (member (paramsOf reqBody) "taskId") = true ->
  toStringOk t = true ->
  lookupError env agentId = None ->
  getAgent env agentId = Some generate ->
  generate p = Generated r ->
  exists payload,
    httpStatus (fst (telexA2AHandler env agentId (inr reqBody))) = 202 /\
    pushes (snd (telexA2AHandler env agentId (inr reqBody))) = [Push u t payload] /\
    resultState payload = Some (JStr "completed") /\
    (truthy (member (paramsOf reqBody) "taskId") = true ->
     taskIdOf (fst (telexA2AHandler env agentId (inr reqBody))) =
       member (paramsOf reqBody) "taskId" /\
     resultId payload = member (paramsOf reqBody) "taskId") /\
    (truthy (member (paramsOf reqBody) "taskId") = false ->
     (forall i j, uuid env i = uuid env j -> i = j) ->
     taskIdOf (fst (telexA2AHandler env agentId (inr reqBody))) <> resultId payload).
Proof.
  intros Hc Hi Ht Hl Hg Hr. unfold telexA2AHandler.
  rewrite (validate_complete env _ _ _ _ Hc).
  cbn [taskId]. rewrite Hi.
  cbn [fst snd]. unfold runAgentAndPushResult, pushes.
  cbn [taskId mainPrompt webhookUrl webhookToken]. rewrite Hi, Hl, Hg. cbn.
  rewrite Hr, Ht. cbn.
  eexists. split; [reflexivity|]. split; [reflexivity|]. split.
  - unfold resultState, resultPayload, member.
    change (("jsonrpc", JStr "2.0") :: optMember "id" ?q ++ ?x)
      with ((("jsonrpc", JStr "2.0") :: optMember "id" q) ++ x).
    rewrite lookupLast_result. reflexivity.
  - rewrite resultId_payload. cbn [taskId taskIdOf payload].
    set (tid := member (paramsOf reqBody) "taskId").
    split.
    + intros Htr.
      destruct (orUuid_position env tid 0) as [(_ & H0 & _) | (Hf & _)]; [|congruence].
      split; [exact H0|].
      match goal with
      | |- Some (fst (orUuid env tid ?n)) = _ =>
          destruct (orUuid_position env tid n) as [(_ & Hn & _) | (Hf & _)];
            [exact Hn | congruence]
      end.
    + intros Hf Hinj.
      destruct (orUuid_position env tid 0) as [(Htr & _) | (_ & H0 & H0')]; [congruence|].
      rewrite H0, H0'.
      match goal with
      | |- _ <> Some (fst (orUuid env tid ?n)) =>
          destruct (orUuid_position env tid n) as [(Htr & _) | (_ & Hn & _)];
            [congruence | rewrite Hn]
      end.
      intros [= Heq]. apply Hinj in Heq. destruct (toolResults r); discriminate Heq.
Qed.

Lemma acknowledged_id_matches_only_a_submitted_taskId_witness :
  exists payload,
    pushes (snd (telexA2AHandler oneAgent "apiTestAgent" (inr complete))) =
      [Push (JStr "https://caller.test/hook") (JStr "secret") payload] /\
    resultId payload = Some (JStr "task-1") /\
    taskIdOf (fst (telexA2AHandler oneAgent "apiTestAgent" (inr complete))) =
      Some (JStr "task-1").
Proof.
  assert (Hc : completeSubmission complete (JStr "https://caller.test/hook")
                 (JStr "secret") (JStr "test https://example.test/ok"))
    by (repeat split).
  destruct (acknowledged_id_matches_only_a_submitted_taskId oneAgent "apiTestAgent"
              complete _ _ _ _ {| text := Some "All checks passed"; toolResults := [] |}
              Hc eq_refl eq_refl eq_refl eq_refl eq_refl)
    as (payload & _ & Hpush & _ & Hsame & _).
  exists payload. destruct (Hsame eq_refl) as [Hack Hid].
  split; [exact Hpush|]. split; [exact Hid | exact Hack].
Defined.

End AcceptedRuns.
